(** * AI code review assistant: the analysis adapters

    A shallow embedding of the four backend adapters of the repository
    ([analyzer_cpp.py], [analyzer_java.py], [analyzer_js.py],
    [analyzer_py.py]) and the properties their specification states.

    Modelling conventions.
    - A Python [str] is a [string] of 8-bit code points (the Latin-1 part of
      Unicode); the character classes below list the Latin-1 members of
      Python's Unicode classes.
    - A Python [float] is the rational number ([Q]) that it stands for; the
      constants of the code (1.0, 5.0, 50.0, 75.0, 100.0, ...) are the same
      numbers in both readings.  Where the Python and JavaScript adapters
      compute with numbers that came from a tool's answer, a result is
      rounded to the nearest float ([nearest64]) as Python does, and an
      integer too large for a float raises [OverflowError].  The infinities
      and NaN are no values of the model: the decoders are taken to give
      finite numbers, and a float sum or product beyond the largest float,
      [inf] in Python, stays the rounded rational.  The text heuristics of
      the C-family and Java adapters and the maintainability index of the
      JavaScript adapter are kept over the rationals: the statements about
      them (bounds enforced by a clamp, values on given texts, sums of
      small integers) hold with and without rounding for texts and lists
      of any feasible size.
    - A Python object whose type is only known at run time (decoded JSON or
      YAML, an issue dictionary) is a [pyval]; a dictionary is an association
      list in insertion order.
    - A call that can raise returns a [res]: [Ok v] or [Raise e].
    - Everything outside the repository is an input: the outcome of each
      [subprocess.run] call and the decoders [json.loads], [yaml.safe_load],
      [ET.fromstring] and [float(str)] are fields of an environment record.
      Creating, writing and deleting scratch files is assumed to succeed and
      leaves no trace in the results. *)

From Stdlib Require Import String Ascii List ZArith QArith Bool Lia Arith.
From Stdlib Require Import DecimalString.
Import ListNotations.

Open Scope string_scope.
Open Scope Z_scope.

(* ================================================================= *)
(** ** Exceptions and fallible computations *)

Inductive exn_kind : Type :=
| TimeoutExpired            (* subprocess.TimeoutExpired *)
| SubprocessError           (* any other subprocess.SubprocessError *)
| FileNotFoundError
| OSError                   (* any other OSError *)
| YAMLError
| JSONDecodeError
| ParseError                (* xml.etree.ElementTree.ParseError *)
| TypeError
| AttributeError
| ValueError
| KeyError
| IndexError
| OverflowError
| ZeroDivisionError
| PlainException.           (* raise Exception(...) *)

(** An exception object: its class and [str(e)]. *)
Record exn : Type := mkExn {
  kind : exn_kind;
  message : string
}.

(** [isinstance(e, subprocess.SubprocessError)]: [TimeoutExpired] is a
    subclass of [SubprocessError]. *)
Definition is_SubprocessError (e : exn) : bool :=
  match kind e with TimeoutExpired | SubprocessError => true | _ => false end.

Definition is_TimeoutExpired (e : exn) : bool :=
  match kind e with TimeoutExpired => true | _ => false end.

Definition is_FileNotFoundError (e : exn) : bool :=
  match kind e with FileNotFoundError => true | _ => false end.

Definition is_YAMLError (e : exn) : bool :=
  match kind e with YAMLError => true | _ => false end.

(** [json.JSONDecodeError] is a subclass of [ValueError]; the code only
    catches it by its own name. *)
Definition is_JSONDecodeError (e : exn) : bool :=
  match kind e with JSONDecodeError => true | _ => false end.

Definition is_ParseError (e : exn) : bool :=
  match kind e with ParseError => true | _ => false end.

(** [isinstance(e, Exception)]: every exception of the model. *)
Definition is_Exception (e : exn) : bool := true.

Inductive res (A : Type) : Type :=
| Ok (a : A)
| Raise (e : exn).
Arguments Ok {A} a.
Arguments Raise {A} e.

Definition bind {A B : Type} (m : res A) (k : A -> res B) : res B :=
  match m with
  | Ok a => k a
  | Raise e => Raise e
  end.

Notation "'let*' x ':=' m 'in' k" :=
  (bind m (fun x => k))
  (at level 10, x pattern, m at level 100, k at level 200).

Definition raise {A : Type} (k : exn_kind) (msg : string) : res A :=
  Raise (mkExn k msg).

(** [try: m except <handles>: h]. *)
Definition try_except {A : Type} (m : res A) (handles : exn -> bool)
           (h : exn -> res A) : res A :=
  match m with
  | Ok a => Ok a
  | Raise e => if handles e then h e else Raise e
  end.

(** [for x in xs: acc = body(acc, x)], stopping at the first exception. *)
Fixpoint foldM {A B : Type} (body : B -> A -> res B) (xs : list A) (acc : B)
  : res B :=
  match xs with
  | [] => Ok acc
  | x :: xs' => let* acc' := body acc x in foldM body xs' acc'
  end.

(** The outcome of one [subprocess.run(..., capture_output=True, text=True)]. *)
Record completed : Type := mkCompleted {
  returncode : Z;
  stdout : string;
  stderr : string
}.

Definition run_outcome : Type := res completed.

(* ================================================================= *)
(** ** Characters *)

Definition code (c : ascii) : N := N_of_ascii c.

Definition in_range (lo hi : N) (c : ascii) : bool :=
  (N.leb lo (code c) && N.leb (code c) hi)%bool.

Definition code_is (n : N) (c : ascii) : bool := N.eqb (code c) n.

(** [str.isspace] on one character, which is also the class [\s] of [re]:
    TAB LF VT FF CR, FS GS RS US, SPACE, NEL and NBSP. *)
Definition isspace (c : ascii) : bool :=
  (in_range 9 13 c || in_range 28 32 c || code_is 133 c || code_is 160 c)%bool.

(** The class [\d]: the decimal digits. *)
Definition isdecimal (c : ascii) : bool := in_range 48 57 c.

(** [str.isdigit] on one character also accepts the superscripts. *)
Definition isdigit_char (c : ascii) : bool :=
  (isdecimal c || code_is 178 c || code_is 179 c || code_is 185 c)%bool.

Definition isupper_ascii (c : ascii) : bool := in_range 65 90 c.
Definition islower_ascii (c : ascii) : bool := in_range 97 122 c.

(** The class [\w]: alphanumeric characters and the underscore. *)
Definition isword (c : ascii) : bool :=
  (isdecimal c || isupper_ascii c || islower_ascii c || code_is 95 c
   || code_is 170 c || code_is 178 c || code_is 179 c || code_is 181 c
   || code_is 185 c || code_is 186 c || in_range 188 190 c
   || in_range 192 214 c || in_range 216 246 c || in_range 248 255 c)%bool.

(** [str.lower] on one character. *)
Definition lower_char (c : ascii) : ascii :=
  if (isupper_ascii c || in_range 192 214 c || in_range 216 222 c)%bool
  then ascii_of_N (code c + 32)
  else c.

Definition newline : ascii := ascii_of_N 10.
Definition tab : ascii := ascii_of_N 9.

(* ================================================================= *)
(** ** Python string operations *)

Fixpoint lower (s : string) : string :=
  match s with
  | EmptyString => EmptyString
  | String c s' => String (lower_char c) (lower s')
  end.

Fixpoint lstrip (s : string) : string :=
  match s with
  | EmptyString => EmptyString
  | String c s' => if isspace c then lstrip s' else s
  end.

(** [rstrip]: a character is kept when something non-blank follows or it is
    itself non-blank. *)
Fixpoint rstrip (s : string) : string :=
  match s with
  | EmptyString => EmptyString
  | String c s' =>
      match rstrip s' with
      | EmptyString => if isspace c then EmptyString else String c EmptyString
      | r => String c r
      end
  end.

Definition strip (s : string) : string := rstrip (lstrip s).

Definition is_empty (s : string) : bool :=
  match s with EmptyString => true | _ => false end.

(** Truth value of a string: [if s:]. *)
Definition truthy_str (s : string) : bool := negb (is_empty s).

(** [s.split(sep)] for a one-character separator. *)
Fixpoint split_char (sep : ascii) (s : string) : list string :=
  match s with
  | EmptyString => [EmptyString]
  | String c s' =>
      if Ascii.eqb c sep then EmptyString :: split_char sep s'
      else match split_char sep s' with
           | [] => [String c EmptyString]
           | w :: ws => String c w :: ws
           end
  end.

Definition split_lines (s : string) : list string := split_char newline s.

(** [s.split(sep, maxsplit)] for a one-character separator. *)
Fixpoint split_char_max (sep : ascii) (maxsplit : nat) (s : string)
  : list string :=
  match maxsplit with
  | O => [s]
  | S k =>
      match s with
      | EmptyString => [EmptyString]
      | String c s' =>
          if Ascii.eqb c sep then EmptyString :: split_char_max sep k s'
          else match split_char_max sep maxsplit s' with
               | [] => [String c EmptyString]
               | w :: ws => String c w :: ws
               end
      end
  end.

Definition startswith (s p : string) : bool := String.prefix p s.

Fixpoint contains (s sub : string) : bool :=
  if String.prefix sub s then true
  else match s with
       | EmptyString => false
       | String _ s' => contains s' sub
       end.

Definition endswith (s p : string) : bool :=
  let n := String.length s in
  let m := String.length p in
  if Nat.leb m n then String.eqb (String.substring (n - m) m s) p else false.

(** [s.find(sub)]: the first index, or -1. *)
Fixpoint find_from (i : Z) (s sub : string) : Z :=
  if String.prefix sub s then i
  else match s with
       | EmptyString => -1
       | String _ s' => find_from (i + 1) s' sub
       end.

Definition str_find (s sub : string) : Z := find_from 0 s sub.

Definition len (s : string) : Z := Z.of_nat (String.length s).

Fixpoint all_chars (f : ascii -> bool) (s : string) : bool :=
  match s with
  | EmptyString => true
  | String c s' => (f c && all_chars f s')%bool
  end.

(** [s.isdigit()]: non-empty and every character a digit. *)
Definition isdigit (s : string) : bool :=
  (negb (is_empty s) && all_chars isdigit_char s)%bool.

(** [x in [a, b, ...]] for strings. *)
Definition str_in (x : string) (l : list string) : bool :=
  existsb (String.eqb x) l.

(** Decimal value of a string of decimal digits with single underscores
    between them. *)
Fixpoint digits_value (acc : Z) (s : string) : option Z :=
  match s with
  | EmptyString => Some acc
  | String c s' =>
      if isdecimal c
      then digits_value (10 * acc + Z.of_N (code c - 48)) s'
      else if (code_is 95 c && negb (is_empty s'))%bool
           then match s' with
                | String c' _ =>
                    if isdecimal c' then digits_value acc s' else None
                | EmptyString => None
                end
           else None
  end.

(** The blanks that [int] skips around a literal: those of [str.isspace]
    except FS, GS, RS and US. *)
Definition int_space (c : ascii) : bool :=
  (isspace c && negb (in_range 28 31 c))%bool.

Fixpoint int_lstrip (s : string) : string :=
  match s with
  | EmptyString => EmptyString
  | String c s' => if int_space c then int_lstrip s' else s
  end.

Fixpoint int_rstrip (s : string) : string :=
  match s with
  | EmptyString => EmptyString
  | String c s' =>
      match int_rstrip s' with
      | EmptyString => if int_space c then EmptyString else String c EmptyString
      | r => String c r
      end
  end.

(** The digits and underscores that start a string, and what follows. *)
Fixpoint digit_run (s : string) : string * string :=
  match s with
  | EmptyString => (EmptyString, EmptyString)
  | String c s' =>
      if (isdecimal c || code_is 95 c)%bool
      then let (run, after) := digit_run s' in (String c run, after)
      else (EmptyString, s)
  end.

Fixpoint count_chars (f : ascii -> bool) (s : string) : Z :=
  match s with
  | EmptyString => 0
  | String c s' => (if f c then 1 else 0) + count_chars f s'
  end.

(** [sys.get_int_max_str_digits()], as Python sets it. *)
Definition int_max_str_digits : Z := 4300.

(** [str(n)] for an integer. *)
Definition str_of_Z (n : Z) : string :=
  DecimalString.NilZero.string_of_int (Z.to_int n).

(** [int(s)] for a string: surrounding blanks, an optional sign, decimal
    digits with single underscores between them, and no more than
    [int_max_str_digits] digits.  The message of the invalid literal is
    abridged: Python appends the literal itself. *)
Definition int_of_str (s : string) : res Z :=
  let t := int_rstrip (int_lstrip s) in
  let '(sign, body) :=
    match t with
    | String c t' =>
        if code_is 45 c then (-1, t')
        else if code_is 43 c then (1, t')
        else (1, t)
    | EmptyString => (1, t)
    end in
  match body with
  | String c _ =>
      if isdecimal c
      then
        let (run, after) := digit_run body in
        match digits_value 0 run with
        | Some v =>
            if int_max_str_digits <? count_chars isdecimal run
            then raise ValueError
                       ("Exceeds the limit (" ++ str_of_Z int_max_str_digits
                        ++ " digits) for integer string conversion: value has "
                        ++ str_of_Z (count_chars isdecimal run)
                        ++ " digits; use sys.set_int_max_str_digits() "
                        ++ "to increase the limit")
            else if is_empty after then Ok (sign * v)
                 else raise ValueError "invalid literal for int()"
        | None => raise ValueError "invalid literal for int()"
        end
      else raise ValueError "invalid literal for int()"
  | EmptyString => raise ValueError "invalid literal for int()"
  end.

(* ================================================================= *)
(** ** Regular expressions of the [re] module

    A backtracking matcher that lists the successful ways to match in the
    order in which Python's engine tries them; the first one is the match
    Python reports.  Every quantifier of the patterns in the source applies
    to a single character class, so repetition is over a class. *)

Inductive regex : Type :=
| Eps
| Cls (f : ascii -> bool)                       (* one character of a class *)
| Seq (a b : regex)
| Alt (a b : regex)
| Rep (f : ascii -> bool) (lo : nat) (greedy : bool)
                     (* [f]{lo,}, greedy ([*], [+]) or lazy ([*?], [+?]) *)
| WordB                                         (* \b *)
| Bol                                           (* ^ *)
| Grp (r : regex).                              (* a capture group *)

(** A matching state: the groups captured so far (in order), the character
    before the current position, and the rest of the subject. *)
Record mstate : Type := mkState {
  caps : list string;
  prev : option ascii;
  rest : string
}.

Definition is_word_opt (o : option ascii) : bool :=
  match o with Some c => isword c | None => false end.

Definition head_char (s : string) : option ascii :=
  match s with String c _ => Some c | EmptyString => None end.

(** The states reached by consuming 0, 1, 2, ... characters of class [f],
    shortest first. *)
Fixpoint spans (f : ascii -> bool) (cs : list string) (p : option ascii)
         (s : string) : list mstate :=
  mkState cs p s ::
  match s with
  | String c s' => if f c then spans f cs (Some c) s' else []
  | EmptyString => []
  end.

(** The prefix of [s] that was consumed to reach the suffix [s']. *)
Definition consumed (s s' : string) : string :=
  String.substring 0 (String.length s - String.length s') s.

Fixpoint rmatch (r : regex) (st : mstate) : list mstate :=
  match r with
  | Eps => [st]
  | Cls f =>
      match rest st with
      | String c s' => if f c then [mkState (caps st) (Some c) s'] else []
      | EmptyString => []
      end
  | Seq a b => flat_map (rmatch b) (rmatch a st)
  | Alt a b => rmatch a st ++ rmatch b st
  | Rep f lo greedy =>
      let cands := skipn lo (spans f (caps st) (prev st) (rest st)) in
      if greedy then rev cands else cands
  | WordB =>
      if xorb (is_word_opt (prev st)) (is_word_opt (head_char (rest st)))
      then [st] else []
  | Bol =>
      match prev st with
      | None => [st]
      | Some _ => []
      end
  | Grp a =>
      map (fun st' =>
             mkState (caps st' ++ [consumed (rest st) (rest st')])
                     (prev st') (rest st'))
          (rmatch a st)
  end.

(** [re.match(r, s)]: the groups of the first way to match at the start. *)
Definition re_match (r : regex) (s : string) : option (list string) :=
  match rmatch r (mkState [] None s) with
  | st :: _ => Some (caps st)
  | [] => None
  end.

(** [re.search(r, s)]: the groups of the first match, scanning the start
    positions left to right. *)
Fixpoint search_from (r : regex) (p : option ascii) (s : string)
  : option (list string) :=
  match rmatch r (mkState [] p s) with
  | st :: _ => Some (caps st)
  | [] =>
      match s with
      | String c s' => search_from r (Some c) s'
      | EmptyString => None
      end
  end.

Definition re_search (r : regex) (s : string) : option (list string) :=
  search_from r None s.

(** The number of characters consumed by the match found at a position. *)
Definition match_here (r : regex) (p : option ascii) (s : string)
  : option nat :=
  match rmatch r (mkState [] p s) with
  | st :: _ => Some (String.length s - String.length (rest st))%nat
  | [] => None
  end.

(** [len(re.findall(r, s))]: scan left to right; after a match, resume
    where it ended.  [skip] counts the characters still covered by the last
    match.  (No pattern of the source matches the empty string.) *)
Fixpoint findall_from (r : regex) (p : option ascii) (s : string)
         (skip : nat) : nat :=
  match skip with
  | S k =>
      match s with
      | String c s' => findall_from r (Some c) s' k
      | EmptyString => O
      end
  | O =>
      match match_here r p s with
      | Some n =>
          S (match s with
             | String c s' => findall_from r (Some c) s' (n - 1)
             | EmptyString => O
             end)
      | None =>
          match s with
          | String c s' => findall_from r (Some c) s' O
          | EmptyString => O
          end
      end
  end.

Definition findall_count (r : regex) (s : string) : Z :=
  Z.of_nat (findall_from r None s O).

(** *** Pattern building blocks *)

Definition lit (c : ascii) : regex := Cls (Ascii.eqb c).

(** A literal under [re.IGNORECASE]. *)
Definition lit_i (c : ascii) : regex :=
  Cls (fun x => Ascii.eqb (lower_char x) (lower_char c)).

Fixpoint word (s : string) : regex :=
  match s with
  | EmptyString => Eps
  | String c EmptyString => lit c
  | String c s' => Seq (lit c) (word s')
  end.

Fixpoint word_i (s : string) : regex :=
  match s with
  | EmptyString => Eps
  | String c EmptyString => lit_i c
  | String c s' => Seq (lit_i c) (word_i s')
  end.

Fixpoint seqs (rs : list regex) : regex :=
  match rs with
  | [] => Eps
  | [r] => r
  | r :: rs' => Seq r (seqs rs')
  end.

(** [.] without [re.DOTALL]: anything but a line feed. *)
Definition dot (c : ascii) : bool := negb (Ascii.eqb c newline).
(** [.] under [re.DOTALL]. *)
Definition dot_all (c : ascii) : bool := true.
Definition not_char (x : ascii) (c : ascii) : bool := negb (Ascii.eqb c x).

Definition star (f : ascii -> bool) : regex := Rep f 0 true.
Definition plus (f : ascii -> bool) : regex := Rep f 1 true.
Definition star_lazy (f : ascii -> bool) : regex := Rep f 0 false.
Definition plus_lazy (f : ascii -> bool) : regex := Rep f 1 false.

(* ================================================================= *)
(** ** Floats *)

Open Scope Q_scope.

Definition Qltb (a b : Q) : bool := negb (Qle_bool b a).

(** [min(a, b)] and [max(a, b)] of Python: the first argument unless the
    second is strictly better. *)
Definition py_min (a b : Q) : Q := if Qltb b a then b else a.
Definition py_max (a b : Q) : Q := if Qltb a b then b else a.

(** [float(n)] and [a / b] on the counts of the text heuristics, over the
    rationals. *)
Definition float_of_Z (n : Z) : Q := inject_Z n.
Definition ratio (a b : Z) : Q := inject_Z a / inject_Z b.

Close Scope Q_scope.

(** *** Rounding to the nearest float

    A float is a binary64 number: an integer of at most 53 bits times a
    power of two that is at least [2^-1074], below [2^1024]. *)

(** [2^e] for any integer [e]. *)
Definition pow2 (e : Z) : Q :=
  if 0 <=? e then inject_Z (2 ^ e) else 1 # Z.to_pos (2 ^ (- e)).

(** [a / (d * 2^e)] as a fraction of two integers. *)
Definition scaled (a d e : Z) : Z * Z :=
  if 0 <=? e then (a, d * 2 ^ e) else (a * 2 ^ (- e), d).

(** The exponent of the floats next to [a / d]: the [e] with
    [2^52 <= a / (d * 2^e) < 2^53], and -1074 where that is less. *)
Definition exponent (a d : Z) : Z :=
  let e0 := Z.log2 a - Z.log2 d - 53 in
  let (n, m) := scaled a d e0 in
  Z.max (if 2 ^ 53 * m <=? n then e0 + 1 else e0) (-1074).

(** The integer nearest to [n / m], the even one of two that are as near. *)
Definition round_half_even (n m : Z) : Z :=
  let k := n / m in
  match 2 * (n mod m) ?= m with
  | Lt => k
  | Gt => k + 1
  | Eq => if Z.even k then k else k + 1
  end.

(** The float nearest to [x], ties to even, with no largest float. *)
Definition nearest64 (x : Q) : Q :=
  let a := Z.abs (Qnum x) in
  let d := Zpos (Qden x) in
  if a =? 0 then 0%Q
  else
    let e := exponent a d in
    let (n, m) := scaled a d e in
    Qred (inject_Z (Z.sgn (Qnum x) * round_half_even n m) * pow2 e)%Q.

(** The rounded number is beyond the largest float. *)
Definition beyond_floats (r : Q) : bool :=
  (Qle_bool (pow2 1024) r || Qle_bool r (- pow2 1024))%bool.

(** [float(z)] for an integer. *)
Definition float_of_int (z : Z) : res Q :=
  let r := nearest64 (inject_Z z) in
  if beyond_floats r
  then raise OverflowError "int too large to convert to float"
  else Ok r.

(** [a / b] for two integers. *)
Definition int_true_div (a b : Z) : res Q :=
  if b =? 0 then raise ZeroDivisionError "division by zero"
  else
    let r := nearest64 (inject_Z a / inject_Z b)%Q in
    if beyond_floats r
    then raise OverflowError "integer division result too large for a float"
    else Ok r.

(** [x + y], [x * y] and [x / y] for two floats. *)
Definition float_add (x y : Q) : Q := nearest64 (x + y)%Q.
Definition float_times (x y : Q) : Q := nearest64 (x * y)%Q.
Definition float_div (x y : Q) : res Q :=
  if Qeq_bool y 0 then raise ZeroDivisionError "float division by zero"
  else Ok (nearest64 (x / y)%Q).

(* ================================================================= *)
(** ** Dynamically typed values *)

Unset Elimination Schemes.
Inductive pyval : Type :=
| PNone
| PBool (b : bool)
| PInt (z : Z)
| PFloat (q : Q)
| PStr (s : string)
| PList (l : list pyval)
| PDict (d : list (string * pyval)).
Set Elimination Schemes.

Fixpoint dict_lookup (k : string) (d : list (string * pyval)) : option pyval :=
  match d with
  | [] => None
  | (k', v) :: d' => if String.eqb k k' then Some v else dict_lookup k d'
  end.

(** [d.get(k, default)] on a dictionary. *)
Definition dict_get (d : list (string * pyval)) (k : string) (default : pyval)
  : pyval :=
  match dict_lookup k d with
  | Some v => v
  | None => default
  end.

Definition type_name (v : pyval) : string :=
  match v with
  | PNone => "NoneType"
  | PBool _ => "bool"
  | PInt _ => "int"
  | PFloat _ => "float"
  | PStr _ => "str"
  | PList _ => "list"
  | PDict _ => "dict"
  end.

Definition no_attribute {A : Type} (v : pyval) (attr : string) : res A :=
  raise AttributeError
        ("'" ++ type_name v ++ "' object has no attribute '" ++ attr ++ "'").

(** [v.get(k, default)] on any object. *)
Definition py_get (v : pyval) (k : string) (default : pyval) : res pyval :=
  match v with
  | PDict d => Ok (dict_get d k default)
  | _ => no_attribute v "get"
  end.

(** [v.lower()] on any object. *)
Definition py_lower (v : pyval) : res string :=
  match v with
  | PStr s => Ok (lower s)
  | _ => no_attribute v "lower"
  end.

Fixpoint chars (s : string) : list pyval :=
  match s with
  | EmptyString => []
  | String c s' => PStr (String c EmptyString) :: chars s'
  end.

(** The elements that [for x in v] visits. *)
Definition py_iter (v : pyval) : res (list pyval) :=
  match v with
  | PList l => Ok l
  | PDict d => Ok (map (fun kv => PStr (fst kv)) d)
  | PStr s => Ok (chars s)
  | _ => raise TypeError ("'" ++ type_name v ++ "' object is not iterable")
  end.

(** Truth value of an object. *)
Definition truthy (v : pyval) : bool :=
  match v with
  | PNone => false
  | PBool b => b
  | PInt z => negb (Z.eqb z 0)
  | PFloat q => negb (Qeq_bool q 0)
  | PStr s => truthy_str s
  | PList l => match l with [] => false | _ => true end
  | PDict d => match d with [] => false | _ => true end
  end.

Definition is_nil {A : Type} (l : list A) : bool :=
  match l with [] => true | _ => false end.

(** [len([x for x in xs if p(x)])]. *)
Definition count_if {A : Type} (p : A -> bool) (xs : list A) : Z :=
  Z.of_nat (List.length (filter p xs)).

Definition llen {A : Type} (xs : list A) : Z := Z.of_nat (List.length xs).

(* ================================================================= *)
(** ** The C-family adapter ([analyzer_cpp.py]) *)

Module Cpp.

Record CppAnalysisResult : Type := mkResult {
  language : string;
  total_issues : Z;
  errors : list pyval;
  warnings : list pyval;
  complexity : Q;
  maintainability_index : Q;
  clang_tidy_available : bool;
  analysis_details : pyval
}.

(** What the outside world answers during one call of [analyze_cpp_code]. *)
Record env : Type := mkEnv {
  probe : run_outcome;           (* clang-tidy --version *)
  tidy_text : run_outcome;       (* the text run *)
  tidy_yaml : run_outcome;       (* the run with --format-style=yaml *)
  yaml_safe_load : string -> res pyval
}.

Definition _check_clang_tidy_availability (e : env) : res bool :=
  try_except
    (let* result := probe e in Ok (Z.eqb (returncode result) 0))
    (fun ex => (is_TimeoutExpired ex || is_FileNotFoundError ex
                || is_SubprocessError ex)%bool)
    (fun _ => Ok false).

(** The decision points counted by [_estimate_complexity_from_code], all
    compiled with [re.IGNORECASE]. *)
Definition patterns : list regex :=
  [ seqs [WordB; word_i "if"; star isspace; lit_i "("];
    seqs [WordB; word_i "else"; plus isspace; word_i "if"; star isspace;
          lit_i "("];
    seqs [WordB; word_i "while"; star isspace; lit_i "("];
    seqs [WordB; word_i "for"; star isspace; lit_i "("];
    seqs [WordB; word_i "do"; star isspace; lit_i "{"];
    seqs [WordB; word_i "switch"; star isspace; lit_i "("];
    seqs [WordB; word_i "case"; plus isspace];
    seqs [WordB; word_i "catch"; star isspace; lit_i "("];
    seqs [WordB; lit_i "?"; star isspace];
    word_i "||";
    word_i "&&" ].

Definition _estimate_complexity_from_code (code : string) : Q :=
  float_of_Z
    (fold_left (fun complexity pattern =>
                  (complexity + findall_count pattern code)%Z)
               patterns 1%Z).

(** [[line.strip() for line in code.split('\n') if line.strip()]]. *)
Definition stripped_lines (code : string) : list string :=
  map strip (filter (fun line => truthy_str (strip line)) (split_lines code)).

Definition _estimate_maintainability_index (code : string) (complexity : Q)
  : Q :=
  let lines := stripped_lines code in
  let total_lines := llen lines in
  if Z.eqb total_lines 0 then 100%Q
  else
    let comment_lines :=
      count_if (fun line => (startswith line "//" || startswith line "/*")%bool)
               lines in
    let comment_ratio :=
      if Z.ltb 0 total_lines then ratio comment_lines total_lines else 0%Q in
    let long_lines := count_if (fun line => Z.ltb 120 (len line)) lines in
    let long_line_ratio :=
      if Z.ltb 0 total_lines then ratio long_lines total_lines else 0%Q in
    let maintainability := 100%Q in
    let maintainability := (maintainability - complexity * 2)%Q in
    let maintainability := (maintainability - long_line_ratio * 20)%Q in
    let maintainability := (maintainability + comment_ratio * 10)%Q in
    py_max 0%Q (py_min 100%Q maintainability).

Definition includes_needed : list string :=
  ["#include <iostream>"; "#include <vector>"; "#include <string>"].

(** The text written to the scratch file by [_create_temp_cpp_file]. *)
Definition _create_temp_cpp_file (code : string) : string :=
  let has_includes :=
    existsb (fun line => contains line "#include")
            (firstn 10 (split_lines code)) in
  if negb has_includes
  then String.concat (String newline EmptyString) includes_needed
       ++ String newline (String newline EmptyString) ++ code
  else code.

(** One issue dictionary. *)
Definition mk_issue (line column : pyval) (message : pyval) (severity : string)
           (symbol : pyval) : pyval :=
  PDict [("line", line); ("column", column); ("message", message);
         ("severity", PStr severity); ("symbol", symbol)].

(** The body of the loop over [data['Diagnostics']]. *)
Definition yaml_diagnostic (acc : list pyval * list pyval) (diagnostic : pyval)
  : res (list pyval * list pyval) :=
  let '(errors, warnings) := acc in
  let* dm := py_get diagnostic "DiagnosticMessage" (PDict []) in
  let* line := py_get dm "FileOffset" (PInt 0) in
  let* dm' := py_get diagnostic "DiagnosticMessage" (PDict []) in
  let* message := py_get dm' "Message" (PStr "Unknown issue") in
  let* level := py_get diagnostic "Level" (PStr "") in
  let* level_lower := py_lower level in
  let severity := if contains level_lower "error" then "error" else "warning" in
  let* symbol := py_get diagnostic "DiagnosticName" (PStr "clang-tidy") in
  let issue := mk_issue line (PInt 0) message severity symbol in
  if String.eqb severity "error"
  then Ok ((errors ++ [issue])%list, warnings)
  else Ok (errors, (warnings ++ [issue])%list).

(** [^(.+?):(\d+):(\d+):\s*(warning|error|note):\s*(.+?)\s*\[([^\]]+)\]] *)
Definition clang_tidy_line : regex :=
  seqs [Bol; Grp (plus_lazy dot); lit ":"; Grp (plus isdecimal); lit ":";
        Grp (plus isdecimal); lit ":"; star isspace;
        Grp (Alt (word "warning") (Alt (word "error") (word "note")));
        lit ":"; star isspace; Grp (plus_lazy dot); star isspace; lit "[";
        Grp (plus (not_char "]")); lit "]"].

(** The body of the loop over the lines of the text output. *)
Definition text_line (acc : list pyval * list pyval) (line : string)
  : res (list pyval * list pyval) :=
  let '(errors, warnings) := acc in
  match re_match clang_tidy_line line with
  | Some [file_path; line_num; col_num; severity; message; check_name] =>
      let* l := int_of_str line_num in
      let* c := int_of_str col_num in
      let issue := mk_issue (PInt l) (PInt c) (PStr (strip message))
                            (lower severity) (PStr check_name) in
      if str_in (lower severity) ["error"]
      then Ok ((errors ++ [issue])%list, warnings)
      else if str_in (lower severity) ["warning"]
           then Ok (errors, (warnings ++ [issue])%list)
           else Ok (errors, warnings)
  | _ => Ok (errors, warnings)
  end.

Definition _parse_clang_tidy_output (e : env) (output : string)
           (format_type : string) : res (list pyval * list pyval) :=
  let* (errors, warnings) :=
    if String.eqb format_type "yaml"
    then
      match yaml_safe_load e output with
      | Raise ex => if is_YAMLError ex then Ok ([], []) else Raise ex
      | Ok data =>
          match data with
          | PDict d =>
              match dict_lookup "Diagnostics" d with
              | Some diagnostics =>
                  let* ds := py_iter diagnostics in
                  foldM yaml_diagnostic ds ([], [])
              | None => Ok ([], [])
              end
          | _ => Ok ([], [])
          end
      end
    else Ok ([], []) in
  if (is_nil errors && is_nil warnings)%bool
  then foldM text_line (split_lines output) (errors, warnings)
  else Ok (errors, warnings).

Definition timeout_issue : pyval :=
  mk_issue (PInt 1) (PInt 1)
           (PStr "Analysis timeout - code may be too complex")
           "warning" (PStr "timeout").

Definition analysis_error_issue (ex : exn) : pyval :=
  mk_issue (PInt 1) (PInt 1) (PStr ("Analysis failed: " ++ message ex))
           "error" (PStr "analysis-error").

(** [_run_clang_tidy_analysis].  Its two handlers can only be entered from
    the first run (the inner [try] absorbs every [SubprocessError] of the
    second one), when both lists are still empty. *)
Definition _run_clang_tidy_analysis (e : env) (available : bool)
  : res (list pyval * list pyval) :=
  if negb available then Ok ([], [])
  else
    try_except
      (let* result := tidy_text e in
       let* (errors, warnings) :=
         if (truthy_str (stdout result) || truthy_str (stderr result))%bool
         then _parse_clang_tidy_output e (stdout result ++ stderr result) "text"
         else Ok ([], []) in
       if (is_nil errors && is_nil warnings)%bool
       then
         try_except
           (let* result_yaml := tidy_yaml e in
            if truthy_str (stdout result_yaml)
            then _parse_clang_tidy_output e (stdout result_yaml) "yaml"
            else Ok (errors, warnings))
           is_SubprocessError
           (fun _ => Ok (errors, warnings))
       else Ok (errors, warnings))
      is_SubprocessError
      (fun ex =>
         if is_TimeoutExpired ex then Ok ([], [timeout_issue])
         else Ok ([analysis_error_issue ex], [])).

(** [CppAnalyzer.analyze], for an analyzer whose probe answered
    [available]. *)
Definition analyze (e : env) (available : bool) (code language : string)
  : res CppAnalysisResult :=
  if negb (truthy_str (strip code))
  then Ok (mkResult language 0 [] [] 1%Q 100%Q available PNone)
  else
    let* (errors, warnings) := _run_clang_tidy_analysis e available in
    let complexity := _estimate_complexity_from_code code in
    let maintainability := _estimate_maintainability_index code complexity in
    let total_issues := (llen errors + llen warnings)%Z in
    let analysis_details :=
      PDict [("clang_tidy_used", PBool available);
             ("temp_file_created", PBool true);
             ("lines_analyzed",
              PInt (count_if (fun line => truthy_str (strip line))
                             (split_lines code)))] in
    Ok (mkResult language total_issues errors warnings complexity
                 maintainability available analysis_details).

(** [analyze_cpp_code]: a fresh analyzer, then [analyze]. *)
Definition analyze_cpp_code (e : env) (code language : string)
  : res CppAnalysisResult :=
  let* available := _check_clang_tidy_availability e in
  analyze e available code language.

End Cpp.

(* ================================================================= *)
(** ** The Java adapter ([analyzer_java.py]) *)

(** An element of [xml.etree.ElementTree]. *)
Unset Elimination Schemes.
Inductive element : Type :=
| Element (tag : string) (attrib : list (string * string))
          (children : list element).
Set Elimination Schemes.

Definition tag_of (x : element) : string :=
  match x with Element t _ _ => t end.
Definition attrib_of (x : element) : list (string * string) :=
  match x with Element _ a _ => a end.
Definition children_of (x : element) : list element :=
  match x with Element _ _ c => c end.

(** [x.findall(tag)]: the direct children with that tag. *)
Definition findall_tag (x : element) (t : string) : list element :=
  filter (fun c => String.eqb (tag_of c) t) (children_of x).

Fixpoint attr_lookup (k : string) (a : list (string * string)) : option string :=
  match a with
  | [] => None
  | (k', v) :: a' => if String.eqb k k' then Some v else attr_lookup k a'
  end.

Module Java.

Record JavaAnalysisResult : Type := mkResult {
  language : string;
  errors : list pyval;
  warnings : list pyval;
  total_issues : Z;
  complexity : Q;
  maintainability_index : Q
}.

(** What the outside world answers during one call of [analyze]. *)
Record env : Type := mkEnv {
  probe : run_outcome;           (* checkstyle --version *)
  checkstyle : run_outcome;      (* the analysis run *)
  ET_fromstring : string -> res element
}.

Definition _check_checkstyle_availability (e : env) : res bool :=
  try_except
    (let* result := probe e in Ok (Z.eqb (returncode result) 0))
    (fun ex => (is_TimeoutExpired ex || is_FileNotFoundError ex)%bool)
    (fun _ => Ok false).

Definition _run_checkstyle_analysis (e : env) : res string :=
  try_except
    (let* result := checkstyle e in
     if (Z.eqb (returncode result) 0 || Z.eqb (returncode result) 1)%bool
     then Ok (stdout result)
     else raise PlainException ("Checkstyle failed: " ++ stderr result))
    (fun ex => (is_TimeoutExpired ex || is_FileNotFoundError ex)%bool)
    (fun ex =>
       if is_TimeoutExpired ex
       then raise PlainException "Checkstyle analysis timed out"
       else raise PlainException
                  "Checkstyle not found. Please install Checkstyle: https://checkstyle.sourceforge.io/").

Definition mk_issue (line column : Z) (severity message source symbol : string)
  : pyval :=
  PDict [("line", PInt line); ("column", PInt column);
         ("severity", PStr severity); ("message", PStr message);
         ("source", PStr source); ("symbol", PStr symbol)].

(** [_extract_rule_name]: the part after the last dot. *)
Definition _extract_rule_name (source : string) : string :=
  if negb (truthy_str source) then "unknown"
  else last (split_char "." source) source.

(** [int(elem.get(k, 0))]. *)
Definition int_attr (x : element) (k : string) : res Z :=
  match attr_lookup k (attrib_of x) with
  | Some v => int_of_str v
  | None => Ok 0%Z
  end.

Definition str_attr (x : element) (k default : string) : string :=
  match attr_lookup k (attrib_of x) with
  | Some v => v
  | None => default
  end.

(** The body of the loop over the [error] elements of one file. *)
Definition xml_error (acc : list pyval * list pyval) (error_elem : element)
  : res (list pyval * list pyval) :=
  let (errors, warnings) := acc in
  let* line := int_attr error_elem "line" in
  let* column := int_attr error_elem "column" in
  let severity := str_attr error_elem "severity" "warning" in
  let issue :=
    mk_issue line column severity (str_attr error_elem "message" "")
             (str_attr error_elem "source" "")
             (_extract_rule_name (str_attr error_elem "source" "")) in
  if String.eqb (lower severity) "error"
  then Ok ((errors ++ [issue])%list, warnings)
  else Ok (errors, (warnings ++ [issue])%list).

(** [\[(\w+)\]\s+.*?:(\d+):(\d+):\s+(.*?)\s+\[([^\]]+)\]] *)
Definition checkstyle_line : regex :=
  seqs [lit "["; Grp (plus isword); lit "]"; plus isspace; star_lazy dot;
        lit ":"; Grp (plus isdecimal); lit ":"; Grp (plus isdecimal); lit ":";
        plus isspace; Grp (star_lazy dot); plus isspace; lit "[";
        Grp (plus (not_char "]")); lit "]"].

(** The body of the loop of [_parse_checkstyle_text]. *)
Definition text_line (acc : list pyval * list pyval) (line : string)
  : res (list pyval * list pyval) :=
  let (errors, warnings) := acc in
  let line := strip line in
  if (negb (truthy_str line) || contains line "Starting audit"
      || contains line "Audit done")%bool
  then Ok (errors, warnings)
  else
    match re_match checkstyle_line line with
    | Some [severity; line_num; col_num; message; rule] =>
        let* l := int_of_str line_num in
        let* c := int_of_str col_num in
        let issue := mk_issue l c (lower severity) (strip message) rule rule in
        if String.eqb (lower severity) "error"
        then Ok ((errors ++ [issue])%list, warnings)
        else Ok (errors, (warnings ++ [issue])%list)
    | _ => Ok (errors, warnings)
    end.

Definition _parse_checkstyle_text (text_output : string)
  : res (list pyval * list pyval) :=
  foldM text_line (split_lines text_output) ([], []).

Definition _parse_checkstyle_xml (e : env) (xml_output : string)
  : res (list pyval * list pyval) :=
  try_except
    (if negb (truthy_str (strip xml_output)) then Ok ([], [])
     else
       let* root := ET_fromstring e xml_output in
       foldM (fun acc file_elem =>
                foldM xml_error (findall_tag file_elem "error") acc)
             (findall_tag root "file") ([], []))
    is_ParseError
    (fun _ => _parse_checkstyle_text xml_output).

Definition re_if : regex := seqs [WordB; word "if"; star isspace; lit "("].
Definition re_while : regex := seqs [WordB; word "while"; star isspace; lit "("].
Definition re_for : regex := seqs [WordB; word "for"; star isspace; lit "("].
Definition re_switch : regex :=
  seqs [WordB; word "switch"; star isspace; lit "("].
Definition re_catch : regex := seqs [WordB; word "catch"; star isspace; lit "("].
(** [\?.*:] *)
Definition re_ternary : regex := seqs [lit "?"; star dot; lit ":"].
(** [\b(public|private|protected|static).*?\b\w+\s*\([^)]*\)\s*{] *)
Definition re_method : regex :=
  seqs [WordB;
        Grp (Alt (word "public")
                 (Alt (word "private") (Alt (word "protected") (word "static"))));
        star_lazy dot; WordB; plus isword; star isspace; lit "(";
        star (not_char ")"); lit ")"; star isspace; lit "{"].
(** [\bclass\s+\w+] *)
Definition re_class : regex :=
  seqs [WordB; word "class"; plus isspace; plus isword].
(** [//.*|/\*.*?\*/] under [re.DOTALL] *)
Definition re_comment : regex :=
  Alt (seqs [word "//"; star dot_all])
      (seqs [word "/*"; star_lazy dot_all; word "*/"]).

Definition _calculate_complexity_metrics (code : string) : Q * Q :=
  let complexity_score := 1%Z in
  let if_statements := findall_count re_if code in
  let while_loops := findall_count re_while code in
  let for_loops := findall_count re_for code in
  let switch_statements := findall_count re_switch code in
  let catch_blocks := findall_count re_catch code in
  let ternary_ops := findall_count re_ternary code in
  let complexity_score := (complexity_score + if_statements)%Z in
  let complexity_score := (complexity_score + while_loops)%Z in
  let complexity_score := (complexity_score + for_loops)%Z in
  let complexity_score := (complexity_score + switch_statements * 2)%Z in
  let complexity_score := (complexity_score + catch_blocks)%Z in
  let complexity_score := (complexity_score + ternary_ops)%Z in
  let loc :=
    count_if (fun line => (truthy_str (strip line)
                           && negb (startswith (strip line) "//"))%bool)
             (split_lines code) in
  let methods := findall_count re_method code in
  let classes := findall_count re_class code in
  let maintainability :=
    if Z.ltb 0 loc then
      let avg_complexity_per_method := ratio complexity_score (Z.max 1 methods) in
      let comment_ratio := ratio (findall_count re_comment code) loc in
      let maintainability :=
        (100 - avg_complexity_per_method * 5 - ratio loc 20)%Q in
      let maintainability := (maintainability + comment_ratio * 10)%Q in
      py_max 0%Q (py_min 100%Q maintainability)
    else 100%Q in
  (float_of_Z complexity_score, maintainability).

(** [^\s*(//|/\*|\*|\*/)] *)
Definition re_comment_start : regex :=
  seqs [Bol; star isspace;
        Grp (Alt (word "//") (Alt (word "/*") (Alt (word "*") (word "*/"))))].

(** The body of the loop of [_basic_java_analysis] for line number [i]. *)
Definition basic_line (acc : list pyval * list pyval) (i : Z) (line : string)
  : list pyval * list pyval :=
  let (errors, warnings) := acc in
  let line := strip line in
  if (truthy_str line && negb (startswith line "//")
      && negb (startswith line "/*"))%bool
  then
    let errors :=
      if (endswith line ";"
          && (startswith line "if" || startswith line "while"
              || startswith line "for"))%bool
      then (errors ++ [mk_issue i 1 "error"
                         "Control statement should not end with semicolon"
                         "BasicSyntaxCheck" "ControlStatementSemicolon"])%list
      else errors in
    let warnings :=
      if (truthy_str line
          && negb (existsb (endswith line) [";"; "{"; "}"; ")"; "//"; "*/"])
          && negb (existsb (startswith line)
                     ["@"; "package"; "import"; "public class";
                      "private class"; "class"])
          && negb (existsb (contains line)
                     ["if"; "else"; "while"; "for"; "try"; "catch";
                      "finally"]))%bool
      then
        match re_match re_comment_start line with
        | None =>
            (warnings ++ [mk_issue i (len line) "warning"
                            "Statement might be missing semicolon"
                            "BasicSyntaxCheck" "MissingSemicolon"])%list
        | Some _ => warnings
        end
      else warnings in
    let warnings :=
      if Z.ltb 120 (len line)
      then (warnings ++ [mk_issue i 120 "warning"
                           ("Line too long (" ++ str_of_Z (len line)
                            ++ " characters)")
                           "LineLengthCheck" "LineLength"])%list
      else warnings in
    let warnings :=
      if contains line (String tab EmptyString)
      then (warnings ++ [mk_issue i (str_find line (String tab EmptyString) + 1)
                           "warning" "Use spaces instead of tabs"
                           "WhitespaceCheck" "TabCharacter"])%list
      else warnings in
    (errors, warnings)
  else (errors, warnings).

(** [for i, line in enumerate(lines, start)]. *)
Fixpoint basic_lines (acc : list pyval * list pyval) (i : Z)
         (lines : list string) : list pyval * list pyval :=
  match lines with
  | [] => acc
  | line :: lines' => basic_lines (basic_line acc i line) (i + 1) lines'
  end.

Definition _basic_java_analysis (code : string) : JavaAnalysisResult :=
  let (errors, warnings) := basic_lines ([], []) 1 (split_lines code) in
  let (complexity, maintainability) := _calculate_complexity_metrics code in
  mkResult "Java" errors warnings (llen errors + llen warnings)
           complexity maintainability.

(** [JavaAnalyzer.analyze]. *)
Definition analyze (e : env) (code : string) : res JavaAnalysisResult :=
  let* available := _check_checkstyle_availability e in
  if negb available then Ok (_basic_java_analysis code)
  else
    try_except
      (let* xml_output := _run_checkstyle_analysis e in
       let* (errors, warnings) := _parse_checkstyle_xml e xml_output in
       let (complexity, maintainability) := _calculate_complexity_metrics code in
       Ok (mkResult "Java" errors warnings (llen errors + llen warnings)
                    complexity maintainability))
      is_Exception
      (fun _ => Ok (_basic_java_analysis code)).

Definition analyze_java_code (e : env) (code language : string)
  : res JavaAnalysisResult :=
  analyze e code.

Definition not_implemented_issue (language : string) : pyval :=
  mk_issue 1 1 "warning" ("Analysis not yet implemented for " ++ language)
           "UnsupportedLanguage" "NotImplemented".

(** The module-level [analyze_code]. *)
Definition analyze_code (e : env) (code language : string)
  : res JavaAnalysisResult :=
  if str_in (lower language) ["java"]
  then analyze_java_code e code language
  else Ok (mkResult language [] [not_implemented_issue language] 1
                    1%Q 75%Q).

End Java.

(* ================================================================= *)
(** ** Arithmetic and comparisons on dynamically typed values *)

(** The number an [int], [bool] or [float] object stands for. *)
Definition as_number (v : pyval) : option Q :=
  match v with
  | PInt z => Some (inject_Z z)
  | PBool b => Some (if b then 1%Q else 0%Q)
  | PFloat q => Some q
  | _ => None
  end.

(** [v == n] for an integer literal [n]. *)
Definition py_eq_int (v : pyval) (n : Z) : bool :=
  match as_number v with
  | Some q => Qeq_bool q (inject_Z n)
  | None => false
  end.

(** The name of the operator in the message of an unsupported operand. *)
Definition unsupported_operand {A : Type} (op left right : string) : res A :=
  raise TypeError
        ("unsupported operand type(s) for " ++ op ++ ": '" ++ left
         ++ "' and '" ++ right ++ "'").

(** [w * v] for a float [w]. *)
Definition float_mul (w : Q) (v : pyval) : res Q :=
  match v with
  | PInt z => let* y := float_of_int z in Ok (float_times w y)
  | PBool b => Ok (float_times w (if b then 1 else 0)%Q)
  | PFloat q => Ok (float_times w q)
  | PStr _ | PList _ =>
      raise TypeError "can't multiply sequence by non-int of type 'float'"
  | _ => unsupported_operand "*" "float" (type_name v)
  end.

(** A running total: an [int] as long as only integers were added to it,
    a [float] from then on. *)
Inductive number : Type :=
| NInt (z : Z)
| NFloat (q : Q).

(** [t += v] for a running total [t]. *)
Definition num_add (t : number) (v : pyval) : res number :=
  match t, v with
  | NInt a, PInt b => Ok (NInt (a + b))
  | NInt a, PBool b => Ok (NInt (a + (if b then 1 else 0)))
  | NInt a, PFloat q => let* x := float_of_int a in Ok (NFloat (float_add x q))
  | NFloat x, PInt b => let* y := float_of_int b in Ok (NFloat (float_add x y))
  | NFloat x, PBool b => Ok (NFloat (float_add x (if b then 1 else 0)%Q))
  | NFloat x, PFloat q => Ok (NFloat (float_add x q))
  | NInt _, _ => unsupported_operand "+=" "int" (type_name v)
  | NFloat _, _ => unsupported_operand "+=" "float" (type_name v)
  end.

(** [t / n] for a running total [t] and an integer [n]. *)
Definition num_div (t : number) (n : Z) : res Q :=
  match t with
  | NInt a => int_true_div a n
  | NFloat x => let* y := float_of_int n in float_div x y
  end.

(** [v in [s1, s2, ...]] for a list of strings. *)
Definition py_in_strs (v : pyval) (l : list string) : bool :=
  match v with
  | PStr s => str_in s l
  | _ => false
  end.

(* ================================================================= *)
(** ** The JavaScript adapter ([analyzer_js.py]) *)

Module JS.

Record JSAnalysisResult : Type := mkResult {
  language : string;
  errors : list pyval;
  warnings : list pyval;
  total_issues : Z;
  complexity : Q;
  maintainability_index : Q;
  file_path : option string
}.

(** What the outside world answers during one call. *)
Record env : Type := mkEnv {
  probe : run_outcome;           (* eslint --version *)
  eslint : run_outcome;          (* the analysis run *)
  json_loads : string -> res pyval;
  temp_path : string             (* the name of the scratch file *)
}.

Definition _check_eslint_availability (e : env) : res bool :=
  try_except
    (let* result := probe e in Ok (Z.eqb (returncode result) 0))
    (fun ex => (is_TimeoutExpired ex || is_FileNotFoundError ex
                || is_SubprocessError ex)%bool)
    (fun _ => Ok false).

(** [_run_eslint]: [PNone] is Python's [None]. *)
Definition _run_eslint (e : env) (eslint_available : bool) : pyval :=
  if negb eslint_available then PNone
  else
    match eslint e with
    | Raise _ => PNone
    | Ok result =>
        if truthy_str (stdout result)
        then match json_loads e (stdout result) with
             | Ok v => v
             | Raise _ => PNone
             end
        else PList []
    end.

Definition complexity_indicators : list (string * Q) :=
  [("no-unused-vars", 0.5); ("complexity", 2.0); ("max-depth", 1.5);
   ("max-nested-callbacks", 1.5); ("max-params", 1.0);
   ("max-statements", 1.0); ("cyclomatic-complexity", 2.0);
   ("no-loop-func", 1.0); ("no-inner-declarations", 0.5); ("no-eval", 1.5);
   ("no-implied-eval", 1.5); ("no-with", 1.0)]%Q.

Fixpoint table_lookup (k : string) (t : list (string * Q)) : option Q :=
  match t with
  | [] => None
  | (k', w) :: t' => if String.eqb k k' then Some w else table_lookup k t'
  end.

(** The float that the literal [0.1] denotes. *)
Definition default_weight : Q := nearest64 0.1%Q.

(** [complexity_indicators.get(rule_id, 0.1)]. *)
Definition weight_of (rule_id : pyval) : res Q :=
  match rule_id with
  | PStr s =>
      Ok match table_lookup s complexity_indicators with
         | Some w => w
         | None => default_weight
         end
  | PList _ => raise TypeError "unhashable type: 'list'"
  | PDict _ => raise TypeError "unhashable type: 'dict'"
  | _ => Ok default_weight
  end.

(** The body of the loop of [_calculate_complexity_score]. *)
Definition complexity_step (total_complexity : Q) (issue : pyval) : res Q :=
  let* rule_id := py_get issue "ruleId" (PStr "") in
  let* severity := py_get issue "severity" (PInt 1) in
  let* weight := weight_of rule_id in
  let* product := float_mul weight severity in
  Ok (float_add total_complexity product).

Definition _calculate_complexity_score (issues : list pyval) : res Q :=
  if is_nil issues then Ok 1%Q
  else
    let* total_complexity := foldM complexity_step issues 1%Q in
    Ok (py_min total_complexity 20%Q).

Definition critical_rules : list string :=
  ["no-eval"; "no-implied-eval"; "no-with"; "no-global-assign";
   "no-unreachable"; "no-unused-vars"; "no-undef"].

Definition _calculate_maintainability_index (errors warnings : list pyval)
  : res Q :=
  let base_score := 100%Q in
  let error_deduction := (inject_Z (llen errors) * 5)%Q in
  let warning_deduction := (inject_Z (llen warnings) * 2)%Q in
  let* error_deduction :=
    foldM (fun error_deduction error =>
             let* rule := py_get error "ruleId" PNone in
             if py_in_strs rule critical_rules
             then Ok (error_deduction + 3)%Q
             else Ok error_deduction)
          errors error_deduction in
  let final_score := (base_score - error_deduction - warning_deduction)%Q in
  Ok (py_max 0%Q (py_min 100%Q final_score)).

(** The body of the loop over the messages of one file. *)
Definition eslint_message (acc : list pyval * list pyval) (message : pyval)
  : res (list pyval * list pyval) :=
  let (all_errors, all_warnings) := acc in
  let* line := py_get message "line" (PInt 0) in
  let* column := py_get message "column" (PInt 0) in
  let* msg := py_get message "message" (PStr "Unknown issue") in
  let* sev := py_get message "severity" (PInt 1) in
  let* symbol := py_get message "ruleId" (PStr "unknown-rule") in
  let* rule_id := py_get message "ruleId" (PStr "unknown-rule") in
  let issue :=
    PDict [("line", line); ("column", column); ("message", msg);
           ("severity", PStr (if py_eq_int sev 2 then "error" else "warning"));
           ("symbol", symbol); ("rule_id", rule_id)] in
  let* sev' := py_get message "severity" (PInt 1) in
  if py_eq_int sev' 2
  then Ok ((all_errors ++ [issue])%list, all_warnings)
  else Ok (all_errors, (all_warnings ++ [issue])%list).

(** [_parse_eslint_output]: the errors, the warnings and [total_issues]. *)
Definition _parse_eslint_output (eslint_result : pyval)
  : res (list pyval * list pyval * Z) :=
  let* files := py_iter eslint_result in
  let* (all_errors, all_warnings) :=
    foldM (fun acc file_result =>
             let* messages := py_get file_result "messages" (PList []) in
             let* ms := py_iter messages in
             foldM eslint_message ms acc)
          files ([], []) in
  Ok (all_errors, all_warnings, (llen all_errors + llen all_warnings)%Z).

Definition eslint_unavailable_issue : pyval :=
  PDict [("line", PInt 1); ("column", PInt 1);
         ("message",
          PStr "ESLint not available. Please install: npm install -g eslint");
         ("severity", PStr "warning"); ("symbol", PStr "eslint-unavailable")].

Module JavaScriptAnalyzer.

(** The method [analyze_code], for an analyzer whose probe answered
    [eslint_available]. *)
Definition analyze_code (e : env) (eslint_available : bool)
           (code language : string) : res JSAnalysisResult :=
  match _run_eslint e eslint_available with
  | PNone =>
      Ok (mkResult language [] [eslint_unavailable_issue] 1 5%Q 50%Q
                   (Some (temp_path e)))
  | eslint_result =>
      let* (errors, warnings, total) := _parse_eslint_output eslint_result in
      let* complexity := _calculate_complexity_score (errors ++ warnings)%list in
      let* maintainability := _calculate_maintainability_index errors warnings in
      Ok (mkResult language errors warnings total complexity maintainability
                   (Some (temp_path e)))
  end.

End JavaScriptAnalyzer.

Definition analyze_javascript_code (e : env) (code language : string)
  : res JSAnalysisResult :=
  let* eslint_available := _check_eslint_availability e in
  JavaScriptAnalyzer.analyze_code e eslint_available code language.

Definition unsupported_issue (language : string) : pyval :=
  PDict [("line", PInt 1); ("column", PInt 1);
         ("message",
          PStr ("Language " ++ language
                ++ " not supported by JavaScript analyzer"));
         ("severity", PStr "warning"); ("symbol", PStr "unsupported-language")].

(** The module-level [analyze_code]. *)
Definition analyze_code (e : env) (code language : string)
  : res JSAnalysisResult :=
  if str_in (lower language)
            ["javascript"; "js"; "javascript (react)"; "typescript"; "ts"]
  then analyze_javascript_code e code language
  else Ok (mkResult language [] [unsupported_issue language] 1 5%Q 50%Q None).

End JS.

(* ================================================================= *)
(** ** The Python adapter ([analyzer_py.py]) *)

Module Py.

Record pyAnalysisResult : Type := mkResult {
  errors : list pyval;
  warnings : list pyval;
  complexity : Q;
  maintainability_index : Q;
  total_issues : Z;
  language : string
}.

(** What the outside world answers during one call. *)
Record env : Type := mkEnv {
  pylint : run_outcome;          (* python -m pylint --output-format=json *)
  radon_cc : run_outcome;        (* python -m radon cc --json *)
  radon_mi : run_outcome;        (* python -m radon mi --json *)
  json_loads : string -> res pyval;
  float_of_str : string -> res Q (* float(s) on a string *)
}.

(** The dictionaries that the tool runners hand to
    [parse_analysis_results]; a key that a dictionary lacks is a field that
    the constructor lacks. *)
Inductive tool_dict : Type :=
| PylintDict (issues : list pyval) (score : Q) (raw_output stderr_text : string)
| RadonDict (complexity maintainability_index : Q)
            (complexity_details maintainability_details : pyval)
| ErrorDict (issues : list pyval) (score : Q) (error error_type : string).

Definition _create_error_result (error_message error_type : string)
  : tool_dict :=
  ErrorDict [] 5%Q error_message error_type.

(** [d.get('error')]. *)
Definition get_error (d : tool_dict) : option string :=
  match d with
  | ErrorDict _ _ error _ => Some error
  | _ => None
  end.

(** [d.get('issues', [])]. *)
Definition get_issues (d : tool_dict) : list pyval :=
  match d with
  | PylintDict issues _ _ _ => issues
  | ErrorDict issues _ _ _ => issues
  | RadonDict _ _ _ _ => []
  end.

(** [d.get('complexity', default)]. *)
Definition get_complexity (d : tool_dict) (default : Q) : Q :=
  match d with
  | RadonDict c _ _ _ => c
  | _ => default
  end.

(** [d.get('maintainability_index', default)]. *)
Definition get_maintainability_index (d : tool_dict) (default : Q) : Q :=
  match d with
  | RadonDict _ m _ _ => m
  | _ => default
  end.

Definition text_issue (line column : Z) (type message : string) : pyval :=
  PDict [("line", PInt line); ("column", PInt column); ("type", PStr type);
         ("message", PStr message); ("symbol", PStr "unknown")].

(** The body of the loop of [_parse_pylint_text]; a [ValueError] or
    [IndexError] skips the line. *)
Definition pylint_text_line (issues : list pyval) (line : string)
  : res (list pyval) :=
  if (contains line ":"
      && existsb (contains line) ["error"; "warning"; "convention"; "refactor"])%bool
  then
    try_except
      (let parts := split_char_max ":" 4 line in
       if Z.leb 4 (llen parts)
       then
         let p1 := nth 1 parts "" in
         let p2 := nth 2 parts "" in
         let p3 := nth 3 parts "" in
         let* l := if isdigit p1 then int_of_str p1 else Ok 1%Z in
         let* c := if isdigit p2 then int_of_str p2 else Ok 0%Z in
         let message :=
           if Z.ltb 4 (llen parts) then strip (nth 4 parts "")
           else "Unknown issue" in
         Ok (issues ++ [text_issue l c (strip p3) message])%list
       else Ok issues)
      (fun ex => match kind ex with
                 | ValueError | IndexError => true
                 | _ => false
                 end)
      (fun _ => Ok issues)
  else Ok issues.

Definition _parse_pylint_text (output : string) : res (list pyval) :=
  foldM pylint_text_line (split_lines output) [].

(** [Your code has been rated at ([\d.]+)/10] *)
Definition re_score : regex :=
  seqs [word "Your code has been rated at ";
        Grp (plus (fun c => (isdecimal c || Ascii.eqb c ".")%bool));
        word "/10"].

Definition _extract_pylint_score (e : env) (stderr_text : string) : res Q :=
  try_except
    (match re_search re_score stderr_text with
     | Some [g] => float_of_str e g
     | _ => Ok 5%Q
     end)
    (fun ex => match kind ex with
               | AttributeError | ValueError | IndexError => true
               | _ => false
               end)
    (fun _ => Ok 5%Q).

Definition run_pylint (e : env) : tool_dict :=
  let body : res tool_dict :=
    let* result := pylint e in
    let* pylint_output :=
      if truthy_str (strip (stdout result))
      then try_except (json_loads e (stdout result)) is_JSONDecodeError
                      (fun _ => let* l := _parse_pylint_text (stdout result) in
                                Ok (PList l))
      else Ok (PList []) in
    let* score := _extract_pylint_score e (stderr result) in
    Ok (PylintDict (match pylint_output with PList l => l | _ => [] end)
                   score (stdout result) (stderr result)) in
  match body with
  | Ok d => d
  | Raise ex =>
      if is_TimeoutExpired ex then _create_error_result "Analysis timeout" "timeout"
      else if is_FileNotFoundError ex
           then _create_error_result "Pylint not installed" "environment"
           else _create_error_result (message ex) "runtime"
  end.

(** The inner loop of [_calculate_average_complexity] over one file entry. *)
Definition cc_item (acc : number * Z) (item : pyval) : res (number * Z) :=
  let (total_complexity, function_count) := acc in
  match item with
  | PDict d =>
      match dict_lookup "complexity" d with
      | Some c =>
          let* total_complexity := num_add total_complexity c in
          Ok (total_complexity, (function_count + 1)%Z)
      | None => Ok acc
      end
  | _ => Ok acc
  end.

(** The outer loop: [inl] is the [return 1.0] taken inside the loop. *)
Fixpoint cc_files (acc : number * Z) (file_datas : list pyval)
  : res (Q + number * Z) :=
  match file_datas with
  | [] => Ok (inr acc)
  | file_data :: file_datas' =>
      let* acc' :=
        match file_data with
        | PList items => foldM cc_item items acc
        | _ => Ok acc
        end in
      if Z.eqb (snd acc') 0 then Ok (inl 1%Q)
      else cc_files acc' file_datas'
  end.

Definition _calculate_average_complexity (cc_data : pyval) : res Q :=
  if negb (truthy cc_data) then Ok 1%Q
  else
    match cc_data with
    | PDict d =>
        let* r := cc_files (NInt 0, 0%Z) (map snd d) in
        match r with
        | inl early => Ok early
        | inr (total_complexity, function_count) =>
            num_div total_complexity function_count
        end
    | _ => no_attribute cc_data "values"
    end.

(** [float(v)]. *)
Definition py_float (e : env) (v : pyval) : res Q :=
  match v with
  | PInt z => float_of_int z
  | PBool b => Ok (if b then 1 else 0)%Q
  | PFloat q => Ok q
  | PStr s => float_of_str e s
  | _ => raise TypeError
               ("float() argument must be a string or a real number, not '"
                ++ type_name v ++ "'")
  end.

(** The loop of [_extract_maintainability_index] over the items. *)
Fixpoint mi_items (e : env) (items : list (string * pyval)) : res Q :=
  match items with
  | [] => Ok 50%Q
  | (key, value) :: items' =>
      match value with
      | PDict d =>
          match dict_lookup "mi" d with
          | Some mi => py_float e mi
          | None => mi_items e items'
          end
      | PInt _ | PFloat _ | PBool _ => py_float e value
      | _ => mi_items e items'
      end
  end.

Definition _extract_maintainability_index (e : env) (mi_data : pyval)
  : res Q :=
  if negb (truthy mi_data) then Ok 50%Q
  else
    match mi_data with
    | PDict d => mi_items e d
    | _ => no_attribute mi_data "items"
    end.

(** [json.loads(out)] where a [JSONDecodeError] keeps the empty dictionary. *)
Definition decode_or_empty (e : env) (out : string) : res pyval :=
  if truthy_str (strip out)
  then try_except (json_loads e out) is_JSONDecodeError (fun _ => Ok (PDict []))
  else Ok (PDict []).

Definition run_radon_complexity (e : env) : tool_dict :=
  let body : res tool_dict :=
    let* cc_result := radon_cc e in
    let* mi_result := radon_mi e in
    let* cc_data := decode_or_empty e (stdout cc_result) in
    let* mi_data := decode_or_empty e (stdout mi_result) in
    let* avg_complexity := _calculate_average_complexity cc_data in
    let* maintainability := _extract_maintainability_index e mi_data in
    Ok (RadonDict avg_complexity maintainability cc_data mi_data) in
  match body with
  | Ok d => d
  | Raise ex =>
      if is_TimeoutExpired ex
      then _create_error_result "Complexity analysis timeout" "timeout"
      else if is_FileNotFoundError ex
           then _create_error_result "Radon not installed" "environment"
           else _create_error_result (message ex) "runtime"
  end.

Definition tool_error (msg severity : string) : pyval :=
  PDict [("type", PStr "tool_error"); ("message", PStr msg);
         ("severity", PStr severity)].

(** The body of the loop over the pylint issues. *)
Definition pylint_issue (acc : list pyval * list pyval) (issue : pyval)
  : res (list pyval * list pyval) :=
  let (errors, warnings) := acc in
  let* type := py_get issue "type" (PStr "") in
  let* issue_type := py_lower type in
  let* line := py_get issue "line" (PInt 1) in
  let* column := py_get issue "column" (PInt 0) in
  let* msg := py_get issue "message" (PStr "Unknown issue") in
  let* symbol := py_get issue "symbol" (PStr "unknown") in
  let issue_data :=
    PDict [("line", line); ("column", column); ("message", msg);
           ("symbol", symbol); ("severity", PStr issue_type)] in
  if str_in issue_type ["error"; "fatal"]
  then Ok ((errors ++ [issue_data])%list, warnings)
  else Ok (errors, (warnings ++ [issue_data])%list).

Definition parse_analysis_results (pylint_result radon_result : tool_dict)
           (language : string) : res pyAnalysisResult :=
  let errors : list pyval := [] in
  let errors :=
    match get_error pylint_result with
    | Some err =>
        if truthy_str err
        then (errors ++ [tool_error ("Pylint error: " ++ err) "high"])%list
        else errors
    | None => errors
    end in
  let errors :=
    match get_error radon_result with
    | Some err =>
        if truthy_str err
        then (errors ++ [tool_error ("Complexity analysis error: " ++ err)
                                    "medium"])%list
        else errors
    | None => errors
    end in
  let* (errors, warnings) :=
    foldM pylint_issue (get_issues pylint_result) (errors, []) in
  let complexity := get_complexity radon_result 1%Q in
  let maintainability := get_maintainability_index radon_result 50%Q in
  let total_issues := (llen errors + llen warnings)%Z in
  Ok (mkResult errors warnings complexity maintainability total_issues
               language).

Definition analyze_python_code (e : env) (code : string)
  : res pyAnalysisResult :=
  let pylint_result := run_pylint e in
  let radon_result := run_radon_complexity e in
  parse_analysis_results pylint_result radon_result "Python".

(** [CodeAnalyzer.analyze_code]: [Ok None] is a call that returns Python's
    [None]. *)
Definition analyze_code (e : env) (code language : string)
  : res (option pyAnalysisResult) :=
  if String.eqb (lower language) "python"
  then let* r := analyze_python_code e code in Ok (Some r)
  else Ok None.

Definition analyze_code_py (e : env) (code language : string)
  : res (option pyAnalysisResult) :=
  analyze_code e code language.

End Py.

(* ================================================================= *)
(** ** The results of the four adapters, seen uniformly *)

Inductive analysis_result : Type :=
| CppResult (r : Cpp.CppAnalysisResult)
| JavaResult (r : Java.JavaAnalysisResult)
| JSResult (r : JS.JSAnalysisResult)
| PyResult (r : Py.pyAnalysisResult).

Definition total_issues_of (r : analysis_result) : Z :=
  match r with
  | CppResult r => Cpp.total_issues r
  | JavaResult r => Java.total_issues r
  | JSResult r => JS.total_issues r
  | PyResult r => Py.total_issues r
  end.

Definition errors_of (r : analysis_result) : list pyval :=
  match r with
  | CppResult r => Cpp.errors r
  | JavaResult r => Java.errors r
  | JSResult r => JS.errors r
  | PyResult r => Py.errors r
  end.

Definition warnings_of (r : analysis_result) : list pyval :=
  match r with
  | CppResult r => Cpp.warnings r
  | JavaResult r => Java.warnings r
  | JSResult r => JS.warnings r
  | PyResult r => Py.warnings r
  end.

Definition complexity_of (r : analysis_result) : Q :=
  match r with
  | CppResult r => Cpp.complexity r
  | JavaResult r => Java.complexity r
  | JSResult r => JS.complexity r
  | PyResult r => Py.complexity r
  end.

Definition maintainability_of (r : analysis_result) : Q :=
  match r with
  | CppResult r => Cpp.maintainability_index r
  | JavaResult r => Java.maintainability_index r
  | JSResult r => JS.maintainability_index r
  | PyResult r => Py.maintainability_index r
  end.

(** The adapters whose metrics are computed from the source text. *)
Definition from_source_text (r : analysis_result) : bool :=
  match r with
  | CppResult _ | JavaResult _ => true
  | JSResult _ | PyResult _ => false
  end.

(** The adapters that clamp or fix their metrics themselves. *)
Definition own_metrics (r : analysis_result) : bool :=
  match r with
  | CppResult _ | JavaResult _ | JSResult _ => true
  | PyResult _ => false
  end.

(** [returns code r]: some entry point of some adapter, called on the source
    text [code], returns the result [r] for some answers of the outside
    world. *)
Inductive returns (code : string) : analysis_result -> Prop :=
| ret_cpp_method e available language r :
    Cpp.analyze e available code language = Ok r ->
    returns code (CppResult r)
| ret_cpp e language r :
    Cpp.analyze_cpp_code e code language = Ok r ->
    returns code (CppResult r)
| ret_java_method e r :
    Java.analyze e code = Ok r ->
    returns code (JavaResult r)
| ret_java e language r :
    Java.analyze_code e code language = Ok r ->
    returns code (JavaResult r)
| ret_js_method e available language r :
    JS.JavaScriptAnalyzer.analyze_code e available code language = Ok r ->
    returns code (JSResult r)
| ret_js e language r :
    JS.analyze_code e code language = Ok r ->
    returns code (JSResult r)
| ret_py_method e r :
    Py.analyze_python_code e code = Ok r ->
    returns code (PyResult r)
| ret_py e language r :
    Py.analyze_code_py e code language = Ok (Some r) ->
    returns code (PyResult r).

(** [not code.strip()]. *)
Definition blank (code : string) : Prop := strip code = "".

(* ================================================================= *)
(** ** Inputs used in the statements below *)

Definition not_found : run_outcome := raise FileNotFoundError "No such file".
Definition no_yaml (s : string) : res pyval := raise YAMLError "not YAML".
Definition no_json (s : string) : res pyval := raise JSONDecodeError "not JSON".
Definition no_xml (s : string) : res element := raise ParseError "not XML".
Definition no_float (s : string) : res Q := raise ValueError "not a float".
Definition exit0 (out : string) : run_outcome := Ok (mkCompleted 0 out "").
Definition exit1 (out : string) : run_outcome := Ok (mkCompleted 1 out "").

(** The scenario of the specification for the C-family adapter. *)
Definition scenario_cpp : string :=
  "#include <iostream>" ++ String newline "int main(){ if(1){} return 0; }".

(** No clang-tidy on the machine. *)
Definition cpp_env_absent : Cpp.env :=
  Cpp.mkEnv not_found not_found not_found no_yaml.

(** clang-tidy prints one note whose text ends in square brackets. *)
Definition note_line : string :=
  "temp_code.cpp:3:5: note: candidate function [with T = int]".
Definition cpp_env_note : Cpp.env :=
  Cpp.mkEnv (exit0 "LLVM version 14") (exit1 note_line) (exit1 note_line)
            no_yaml.

Definition java_env_absent : Java.env :=
  Java.mkEnv not_found not_found no_xml.

(** ESLint is missing. *)
Definition js_env_absent : JS.env :=
  JS.mkEnv not_found not_found no_json "/tmp/tmpab12.js".

(** ESLint runs and reports one use of [eval] as an error. *)
Definition eval_message : pyval :=
  PDict [("ruleId", PStr "no-eval"); ("severity", PInt 2);
         ("message", PStr "eval can be harmful."); ("line", PInt 1);
         ("column", PInt 1)].
Definition eslint_answer : pyval :=
  PList [PDict [("filePath", PStr "/tmp/tmpab12.js");
                ("messages", PList [eval_message])]].
Definition js_env_one_error : JS.env :=
  JS.mkEnv (exit0 "v8.57.0") (exit1 "[{...}]") (fun _ => Ok eslint_answer)
           "/tmp/tmpab12.js".

(** radon answers with two file entries, the first without functions. *)
Definition cc_two_files : pyval :=
  PDict [("a.py", PList []);
         ("b.py", PList [PDict [("type", PStr "function");
                                ("name", PStr "f");
                                ("complexity", PInt 4)]])].

(** The entry that radon prints for a file that it cannot parse. *)
Definition radon_error_entry : string * pyval :=
  ("a.py", PDict [("error", PStr "invalid syntax")]).

(** ESLint reports a use of [eval] at the level that the adapter's
    configuration gives the rule, a warning (severity 1), and the issue that
    the adapter builds from the message. *)
Definition eval_warning : pyval :=
  PDict [("ruleId", PStr "no-eval"); ("severity", PInt 1);
         ("message", PStr "eval can be harmful."); ("line", PInt 1);
         ("column", PInt 1)].
Definition eslint_answer_warning : pyval :=
  PList [PDict [("filePath", PStr "/tmp/tmpab12.js");
                ("messages", PList [eval_warning])]].
Definition no_eval_issue : pyval :=
  PDict [("line", PInt 1); ("column", PInt 1);
         ("message", PStr "eval can be harmful.");
         ("severity", PStr "warning"); ("symbol", PStr "no-eval");
         ("rule_id", PStr "no-eval")].

(** What radon reports for a file with three functions. *)
Definition radon_functions : pyval :=
  PList [PDict [("type", PStr "function"); ("name", PStr "f");
                ("complexity", PInt 2)];
         PDict [("type", PStr "function"); ("name", PStr "g");
                ("complexity", PInt 4)];
         PDict [("type", PStr "method"); ("name", PStr "h");
                ("complexity", PInt 9)]].

(** radon answers both runs for the scratch file: three functions and a
    maintainability index of 71.5. *)
Definition py_env_radon : Py.env :=
  Py.mkEnv (exit0 "") (exit0 "cc") (exit0 "mi")
           (fun s => if String.eqb s "cc"
                     then Ok (PDict [("tmpab12.py", radon_functions)])
                     else Ok (PDict [("tmpab12.py",
                                      PDict [("mi", PFloat 71.5);
                                             ("rank", PStr "A")])]))
           no_float.

(** Neither pylint nor radon prints anything. *)
Definition py_env_silent : Py.env :=
  Py.mkEnv (exit0 "") (exit0 "") (exit0 "") no_json no_float.

(* ================================================================= *)
(** ** What the specification says, in its own words *)

(** The complexity value that one entry of a file's list reports, if any. *)
Definition item_complexity (item : pyval) : list pyval :=
  match item with
  | PDict d =>
      match dict_lookup "complexity" d with
      | Some c => [c]
      | None => []
      end
  | _ => []
  end.

(** Written from the words of the specification, for comparison with
    [Py._calculate_average_complexity]: the function-level complexity
    values of every file entry. *)
Definition reported_complexities (cc_data : list (string * pyval))
  : list pyval :=
  flat_map
    (fun kv =>
       match snd kv with
       | PList items => flat_map item_complexity items
       | _ => []
       end) cc_data.

(** The integers among some values. *)
Definition integers (vs : list pyval) : list Z :=
  flat_map (fun v => match v with PInt z => [z] | _ => [] end) vs.

Definition is_integer (v : pyval) : Prop := exists z, v = PInt z.

Definition total (vs : list Z) : Z := fold_right Z.add 0%Z vs.

(** The arithmetic mean of integers as Python computes it,
    [sum(vs) / len(vs)]: the float nearest to the quotient, and the
    [OverflowError] of the division when the quotient is beyond the floats;
    1.0 when there are no values. *)
Definition mean_or_one (vs : list Z) : res Q :=
  match vs with
  | [] => Ok 1%Q
  | _ => int_true_div (total vs) (llen vs)
  end.

(** The weight that the table gives to a rule identifier, 0.1 by default. *)
Definition rule_weight (rule : string) : Q :=
  match JS.table_lookup rule JS.complexity_indicators with
  | Some w => w
  | None => 0.1%Q
  end.

(** The rule identifier that an issue of a result carries. *)
Definition rule_of_issue (issue : pyval) : string :=
  match issue with
  | PDict d =>
      match dict_lookup "rule_id" d with
      | Some (PStr s) => s
      | _ => ""
      end
  | _ => ""
  end.

(** The score in the words of the specification: 1.0 plus the weights of
    the issues' rules, capped at 20.0. *)
Definition spec_complexity_score (issues : list pyval) : Q :=
  py_min (1 + fold_right (fun i acc => rule_weight (rule_of_issue i) + acc) 0 issues)%Q
         20%Q.

(* ================================================================= *)
(** ** Notions used in the proofs *)

(** [fails_on_blank r]: by its shape, [r] has to consume a character that
    is not white space. *)
Inductive fails_on_blank : regex -> Prop :=
| fob_cls f :
    (forall c, isspace c = true -> f c = false) -> fails_on_blank (Cls f)
| fob_seq_l a b : fails_on_blank a -> fails_on_blank (Seq a b)
| fob_seq_r a b : fails_on_blank b -> fails_on_blank (Seq a b)
| fob_alt a b : fails_on_blank a -> fails_on_blank b -> fails_on_blank (Alt a b)
| fob_grp a : fails_on_blank a -> fails_on_blank (Grp a).

(** Every character of the string is white space. *)
Definition all_space (s : string) : Prop := all_chars isspace s = true.

(** The bounds that the specification puts on the metrics. *)
Definition within_bounds (r : analysis_result) : Prop :=
  (0 <= maintainability_of r)%Q /\ (maintainability_of r <= 100)%Q
  /\ (0 <= complexity_of r)%Q.


(** An issue dictionary as the JavaScript adapter builds it: the rule is
    not under [ruleId] and the severity is a string. *)
Definition normalized (issue : pyval) : Prop :=
  exists d s, issue = PDict d
              /\ dict_lookup "ruleId" d = None
              /\ dict_lookup "severity" d = Some (PStr s).

(** One step of a parsing loop adds exactly one issue to exactly one of the
    two lists. *)
Definition adds_one (acc acc' : list pyval * list pyval) : Prop :=
  (exists i, fst acc' = (fst acc ++ [i])%list /\ snd acc' = snd acc)
  \/ (exists i, fst acc' = fst acc /\ snd acc' = (snd acc ++ [i])%list).

(* ================================================================= *)
(** ** The callers in [app.py] and the helpers of [analyzer_cpp.py] *)

(** [is_cpp_language] of [analyzer_cpp.py]. *)
Definition is_cpp_language (language : string) : bool :=
  str_in (lower language) ["c++"; "cpp"; "c"; "cc"; "cxx"].

Module App.

(** What the outside world answers to each adapter. *)
Record env : Type := mkEnv {
  py_env : Py.env;
  js_env : JS.env;
  java_env : Java.env;
  cpp_env : Cpp.env
}.

Definition detect_language_from_code (code : string) : string :=
  if negb (truthy_str (strip code)) then "Unknown"
  else if (contains code "def " || contains code "import "
           || contains code "print(")%bool
  then "Python"
  else if (contains code "public class"
           || contains code "System.out.println")%bool
  then "Java"
  else if (contains code "#include"
           && (contains code "int main" || contains code "cout"))%bool
  then "C++"
  else if (contains code "function" || contains code "console.log"
           || contains code "var " || contains code "let ")%bool
  then "JavaScript"
  else "Unknown".

(** [analyze_code] of [app.py]: [Ok None] is a call that falls off the end
    of the function (or gets [None] from the Python adapter). *)
Definition analyze_code (e : env) (code language : string)
  : res (option analysis_result) :=
  if String.eqb (lower language) "python"
  then let* r := Py.analyze_code_py (py_env e) code language in
       Ok (option_map PyResult r)
  else if str_in (lower language)
                 ["javascript"; "js"; "javascript (react)"; "typescript";
                  "ts"; "typescript (react)"]
  then let* r := JS.analyze_javascript_code (js_env e) code language in
       Ok (Some (JSResult r))
  else if String.eqb (lower language) "java"
  then let* r := Java.analyze_java_code (java_env e) code language in
       Ok (Some (JavaResult r))
  else if str_in (lower language) ["c++"; "cpp"]
  then let* r := Cpp.analyze_cpp_code (cpp_env e) code language in
       Ok (Some (CppResult r))
  else Ok None.

(** [perform_real_code_analysis], without its progress display: any
    exception of the analysis is shown to the user and [None] is
    returned. *)
Definition perform_real_code_analysis (e : env) (code language : string)
  : option analysis_result :=
  match analyze_code e code language with
  | Ok result => result
  | Raise _ => None
  end.

End App.

(* ================================================================= *)
(** ** Further notions used in the statements *)

(** The labels that [detect_language_from_code] can answer. *)
Definition detector_labels : list string :=
  ["Python"; "Java"; "C++"; "JavaScript"; "Unknown"].

(** A non-empty string of decimal digits. *)
Definition digits (s : string) : Prop :=
  s <> "" /\ all_chars isdecimal s = true.

(** The text that [_create_temp_cpp_file] puts before a source without
    include directive. *)
Definition include_scaffold : string :=
  "#include <iostream>" ++ String newline
  ("#include <vector>" ++ String newline
   ("#include <string>" ++ String newline (String newline ""))).

(** The value under a key of an issue dictionary. *)
Definition issue_field (issue : pyval) (k : string) : option pyval :=
  match issue with
  | PDict d => dict_lookup k d
  | _ => None
  end.


(** The pattern has no capture group. *)
Fixpoint groupless (r : regex) : bool :=
  match r with
  | Eps | Cls _ | Rep _ _ _ | WordB | Bol => true
  | Seq a b | Alt a b => (groupless a && groupless b)%bool
  | Grp _ => false
  end.

(** The issue dictionary carries the severity [sev]. *)
Definition has_severity (sev : string) (issue : pyval) : Prop :=
  issue_field issue "severity" = Some (PStr sev).

(** The sizes of the two lists of issues, added. *)
Definition issue_count (acc : list pyval * list pyval) : nat :=
  (List.length (fst acc) + List.length (snd acc))%nat.


(** A line that is blank or a [//] comment. *)
Definition comment_or_blank (line : string) : Prop :=
  strip line = "" \/ startswith (strip line) "//" = true.

(** The issue carries a line number between [lo] and [hi]. *)
Definition issue_line_in (lo hi : Z) (issue : pyval) : Prop :=
  exists i, issue_field issue "line" = Some (PInt i) /\ (lo <= i <= hi)%Z.

(** The [error] elements below the [file] elements of a Checkstyle
    report. *)
Definition xml_error_elements (root : element) : list element :=
  flat_map (fun file_elem => findall_tag file_elem "error")
           (findall_tag root "file").


(** The issue carries a severity whose lowercase form is, or is not,
    "error". *)
Definition severity_is_error (b : bool) (issue : pyval) : Prop :=
  exists s, issue_field issue "severity" = Some (PStr s)
            /\ String.eqb (lower s) "error" = b.


(** The messages of one file entry of ESLint's answer. *)
Definition eslint_messages_of (file_result : pyval) : list pyval :=
  match file_result with
  | PDict d =>
      match dict_get d "messages" (PList []) with
      | PList ms => ms
      | _ => []
      end
  | _ => []
  end.

(** ESLint's answer has the shape ESLint documents: a list of file entries,
    each a dictionary whose messages, if any, are a list of dictionaries. *)
Definition well_formed_answer (files : list pyval) : Prop :=
  Forall (fun f => exists d ms,
              f = PDict d
              /\ dict_get d "messages" (PList []) = PList ms
              /\ Forall (fun m => exists md, m = PDict md) ms) files.

(** The message has severity 2 (absent counts as 1). *)
Definition is_eslint_error (message : pyval) : bool :=
  match message with
  | PDict d => py_eq_int (dict_get d "severity" (PInt 1)) 2
  | _ => false
  end.

(** The error dictionary carries, under [ruleId], one of the critical
    rules. *)
Definition is_critical (error : pyval) : bool :=
  match error with
  | PDict d => py_in_strs (dict_get d "ruleId" PNone) JS.critical_rules
  | _ => false
  end.

Definition is_dict (v : pyval) : Prop := exists d, v = PDict d.


(** A pylint issue of the documented shape: a dictionary whose [type], if
    present, is a string. *)
Definition wf_pylint_issue (issue : pyval) : Prop :=
  exists d, issue = PDict d
            /\ (dict_lookup "type" d = None
                \/ exists s, dict_lookup "type" d = Some (PStr s)).

(** The pylint issue has type "error" or "fatal", in any letter case. *)
Definition is_py_error (issue : pyval) : bool :=
  match issue with
  | PDict d =>
      match dict_get d "type" (PStr "") with
      | PStr s => str_in (lower s) ["error"; "fatal"]
      | _ => false
      end
  | _ => false
  end.

(** The number of [tool_error] entries that a tool dictionary causes. *)
Definition reported_failure (d : Py.tool_dict) : nat :=
  match Py.get_error d with
  | Some err => if truthy_str err then 1%nat else 0%nat
  | None => 0%nat
  end.

(** An entry of radon's maintainability answer that carries no index: a
    dictionary without [mi] (radon's error entries), a string, a list or
    [null]. *)
Definition no_index (kv : string * pyval) : Prop :=
  match snd kv with
  | PDict d => dict_lookup "mi" d = None
  | PInt _ | PFloat _ | PBool _ => False
  | _ => True
  end.


(** The languages that [app.py] sends to the JavaScript adapter. *)
Definition app_js_languages : list string :=
  ["javascript"; "js"; "javascript (react)"; "typescript"; "ts";
   "typescript (react)"].


(** A maintainability index as radon reports one: a number from 0 to 100. *)
Definition index_in_range (v : pyval) : bool :=
  match as_number v with
  | Some q => (Qle_bool 0 q && Qle_bool q 100)%bool
  | None => false
  end.

(** A complexity value as radon reports one: when a number, not negative. *)
Definition complexity_in_range (v : pyval) : bool :=
  match as_number v with
  | Some q => Qle_bool 0 q
  | None => true
  end.

(** One entry of an answer of radon: the complexity values of a file's
    list, or the index of a file. *)
Definition entry_in_range (value : pyval) : bool :=
  match value with
  | PList items => forallb complexity_in_range (flat_map item_complexity items)
  | PDict d =>
      match dict_lookup "mi" d with
      | Some mi => index_in_range mi
      | None => true
      end
  | PInt _ | PFloat _ | PBool _ => index_in_range value
  | _ => true
  end.

Definition answer_in_range (v : pyval) : bool :=
  match v with
  | PDict d => forallb (fun kv => entry_in_range (snd kv)) d
  | _ => true
  end.

(** An answer of radon: what the decoder makes of the output of one of its
    two runs. *)
Definition radon_answer (e : Py.env) (v : pyval) : Prop :=
  (exists cc, Py.radon_cc e = Ok cc /\ Py.json_loads e (stdout cc) = Ok v)
  \/ (exists mi, Py.radon_mi e = Ok mi /\ Py.json_loads e (stdout mi) = Ok v).

(** radon keeps to its own ranges: in its answers the complexity values
    are not negative and the indexes lie between 0 and 100. *)
Definition radon_in_range (e : Py.env) : Prop :=
  forall v, radon_answer e v -> answer_in_range v = true.

(** A running total that is not negative. *)
Definition nonneg_total (t : number) : Prop :=
  match t with
  | NInt z => (0 <= z)%Z
  | NFloat q => (0 <= q)%Q
  end.

(** Every line of the text has at most 4300 characters, the number of
    digits that [int] accepts. *)
Definition short_lines (output : string) : bool :=
  forallb (fun line => Nat.leb (String.length line) 4300) (split_lines output).

(* ================================================================= *)
(** ** More inputs used in the statements *)

(** A Java text made of comments and a blank line. *)
Definition java_comments_only : string :=
  "// if (ready) {" ++ String newline
  ("   " ++ String newline "  // x = compute()").

(** A decoded Checkstyle report with two diagnostics. *)
Definition checkstyle_report : element :=
  Element "checkstyle" [("version", "10.12")]
    [Element "file" [("name", "/tmp/A.java")]
       [Element "error" [("line", "3"); ("column", "5");
                         ("severity", "ERROR"); ("message", "m1");
                         ("source", "a.b.FooCheck")] [];
        Element "error" [("line", "7"); ("severity", "warning");
                         ("message", "m2"); ("source", "a.b.BarCheck")] []]].
Definition java_env_report : Java.env :=
  Java.mkEnv (exit0 "") (exit1 "<checkstyle/>") (fun _ => Ok checkstyle_report).

(** Two diagnostics as clang-tidy prints them, and the line that ends its
    output. *)
Definition clang_tidy_report : string :=
  "temp_code.cpp:3:5: warning: use nullptr [modernize-use-nullptr]"
  ++ String newline
     ("temp_code.cpp:9:1: error: unknown type name 'foo' [clang-diagnostic-error]"
      ++ String newline "2 warnings generated.").

(** Checkstyle's plain output for one warning. *)
Definition checkstyle_text : string :=
  "Starting audit..." ++ String newline
  ("[WARN] /tmp/A.java:3:5: Missing a Javadoc comment. [JavadocMethod]"
   ++ String newline "Audit done.").

(* ================================================================= *)
(** * Properties *)

(** ** Fallible computations *)

Lemma bind_Ok {A B : Type} (m : res A) (k : A -> res B) (b : B) :
  bind m k = Ok b -> exists a, m = Ok a /\ k a = Ok b.
Proof.
  destruct m as [a|ex]; simpl; intro H.
  - exists a; split; [reflexivity | exact H].
  - discriminate H.
Qed.

Lemma try_except_Ok {A : Type} (m : res A) handles h (a : A) :
  try_except m handles h = Ok a ->
  m = Ok a \/ exists ex, m = Raise ex /\ handles ex = true /\ h ex = Ok a.
Proof.
  destruct m as [a'|ex]; simpl; intro H.
  - left; exact H.
  - destruct (handles ex) eqn:Hh; [|discriminate H].
    right; exists ex; repeat split; assumption.
Qed.

(** A loop whose body keeps an invariant keeps it to the end. *)
Lemma foldM_invariant {A B : Type} (P : B -> Prop) (body : B -> A -> res B) :
  (forall acc x acc', P acc -> body acc x = Ok acc' -> P acc') ->
  forall xs acc acc', P acc -> foldM body xs acc = Ok acc' -> P acc'.
Proof.
  intros Hstep xs; induction xs as [|x xs IH]; simpl; intros acc acc' Hacc H.
  - injection H as <-; exact Hacc.
  - apply bind_Ok in H as (acc1 & H1 & H2).
    eapply IH; [|exact H2]. eapply Hstep; eassumption.
Qed.

Lemma foldM_raise {A B : Type} (Q : exn -> Prop) (body : B -> A -> res B) :
  (forall acc x ex, body acc x = Raise ex -> Q ex) ->
  forall xs acc ex, foldM body xs acc = Raise ex -> Q ex.
Proof.
  intros Hstep xs. induction xs as [|x xs IH]; intros acc ex H; simpl in H.
  - discriminate H.
  - destruct (body acc x) as [acc1|ex1] eqn:E; cbn [bind] in H.
    + eapply IH; exact H.
    + injection H as <-. eapply Hstep; exact E.
Qed.

Ltac inv_bind H :=
  let a := fresh "a" in
  let Ha := fresh "Ha" in
  apply bind_Ok in H as (a & Ha & H).

(* ================================================================= *)
(** ** Rounding to the nearest float *)

Lemma pow2_pos (e : Z) : (0 < pow2 e)%Q.
Proof.
  unfold pow2. destruct (Z.leb_spec 0 e).
  - unfold Qlt, inject_Z. simpl. pose proof (Z.pow_pos_nonneg 2 e). lia.
  - reflexivity.
Qed.

Lemma scaled_pos (a d e : Z) :
  0 <= a -> 0 < d -> 0 <= fst (scaled a d e) /\ 0 < snd (scaled a d e).
Proof.
  intros Ha Hd. unfold scaled. destruct (Z.leb_spec 0 e); simpl.
  - split; [exact Ha|]. pose proof (Z.pow_pos_nonneg 2 e). nia.
  - split; [|exact Hd]. pose proof (Z.pow_pos_nonneg 2 (- e)). nia.
Qed.

Lemma round_half_even_nonneg (n m : Z) :
  0 <= n -> 0 < m -> 0 <= round_half_even n m.
Proof.
  intros Hn Hm. unfold round_half_even.
  pose proof (Z.div_pos n m Hn Hm).
  destruct (2 * (n mod m) ?= m); [destruct (Z.even _)| |]; lia.
Qed.

(** Rounding keeps the sign. *)
Lemma nearest64_nonneg (x : Q) : (0 <= x)%Q -> (0 <= nearest64 x)%Q.
Proof.
  intro Hx. unfold nearest64.
  destruct (Z.eqb_spec (Z.abs (Qnum x)) 0) as [|Hne]; [apply Qle_refl|].
  destruct (scaled (Z.abs (Qnum x)) (Z.pos (Qden x))
                   (exponent (Z.abs (Qnum x)) (Z.pos (Qden x))))
    as [n m] eqn:E.
  rewrite Qred_correct.
  assert (Hnum : 0 <= Qnum x).
  { unfold Qle in Hx. simpl in Hx. lia. }
  pose proof (scaled_pos (Z.abs (Qnum x)) (Z.pos (Qden x))
                (exponent (Z.abs (Qnum x)) (Z.pos (Qden x)))
                ltac:(lia) ltac:(lia)) as [H1 H2].
  rewrite E in H1, H2. simpl in H1, H2.
  pose proof (round_half_even_nonneg n m H1 H2) as Hk.
  apply Qmult_le_0_compat; [|apply Qlt_le_weak, pow2_pos].
  unfold Qle, inject_Z. simpl.
  replace (Z.sgn (Qnum x)) with 1 by (symmetry; apply Z.sgn_pos; lia).
  lia.
Qed.

Lemma exponent_int (a : Z) : 1 <= a -> exponent a 1 = Z.log2 a - 52.
Proof.
  intro Ha. unfold exponent. change (Z.log2 1) with 0.
  pose proof (Z.log2_nonneg a) as Hl.
  destruct (Z.log2_spec a ltac:(lia)) as [Hlo Hhi].
  unfold scaled. destruct (Z.leb_spec 0 (Z.log2 a - 0 - 53)) as [He|He].
  - assert (Hp : 2 ^ 53 * (1 * 2 ^ (Z.log2 a - 0 - 53)) <= a).
    { rewrite Z.mul_1_l, <- Z.pow_add_r by lia.
      replace (53 + (Z.log2 a - 0 - 53)) with (Z.log2 a) by lia. exact Hlo. }
    apply Z.leb_le in Hp. rewrite Hp. lia.
  - assert (Hp : 2 ^ 53 * 1 <= a * 2 ^ (- (Z.log2 a - 0 - 53))).
    { replace (2 ^ 53 * 1) with (2 ^ Z.log2 a * 2 ^ (- (Z.log2 a - 0 - 53))).
      - apply Z.mul_le_mono_nonneg_r; [|exact Hlo].
        apply Z.pow_nonneg. lia.
      - rewrite <- Z.pow_add_r by lia. rewrite Z.mul_1_r. f_equal. lia. }
    apply Z.leb_le in Hp. rewrite Hp. lia.
Qed.

Lemma round_half_even_exact (k m : Z) :
  0 < m -> round_half_even (k * m) m = k.
Proof.
  intro Hm. unfold round_half_even.
  rewrite Z.div_mul by lia. rewrite Z.mod_mul by lia.
  replace (2 * 0 ?= m) with Lt by (symmetry; apply Z.compare_lt_iff; lia).
  reflexivity.
Qed.

(** An integer of at most 53 bits is a float. *)
Lemma nearest64_int (z : Z) :
  Z.abs z <= 2 ^ 53 -> (nearest64 (inject_Z z) == inject_Z z)%Q.
Proof.
  intro Hz. unfold nearest64. cbn [Qnum Qden inject_Z].
  destruct (Z.eqb_spec (Z.abs z) 0) as [H0|Hne].
  - replace z with 0 by lia. reflexivity.
  - rewrite exponent_int by lia.
    set (a := Z.abs z) in *.
    pose proof (Z.log2_nonneg a) as Hl.
    destruct (Z.log2_spec a ltac:(lia)) as [Hlo Hhi].
    assert (Hl53 : Z.log2 a <= 53).
    { pose proof (Z.log2_le_mono a (2 ^ 53) Hz) as Hm.
      rewrite Z.log2_pow2 in Hm by lia. exact Hm. }
    assert (Hs : Z.sgn z * a = z).
    { subst a. rewrite Z.mul_comm. apply Z.abs_sgn. }
    unfold scaled, pow2.
    destruct (Z.leb_spec 0 (Z.log2 a - 52)) as [He|He];
      rewrite Qred_correct.
    + assert (Hk : a = (a / 2 ^ (Z.log2 a - 52)) * 2 ^ (Z.log2 a - 52)).
      { assert (Hc : Z.log2 a = 52 \/ Z.log2 a = 53) by lia.
        destruct Hc as [Hc|Hc]; rewrite Hc in *.
        - change (2 ^ (52 - 52)) with 1. rewrite Z.div_1_r. lia.
        - change (2 ^ (53 - 52)) with 2.
          assert (H : a = 2 ^ 53) by lia. rewrite H. reflexivity. }
      rewrite Z.mul_1_l.
      rewrite Hk at 1. rewrite round_half_even_exact
        by (apply Z.pow_pos_nonneg; lia).
      unfold Qeq, Qmult, inject_Z. cbn [Qnum Qden].
      rewrite !Z.mul_1_r. rewrite <- Z.mul_assoc, <- Hk. exact Hs.
    + rewrite <- (Z.mul_1_r (a * 2 ^ (- (Z.log2 a - 52)))) at 1.
      rewrite round_half_even_exact by lia.
      unfold Qeq, Qmult, inject_Z. cbn [Qnum Qden].
      rewrite Pos.mul_1_l, Z2Pos.id by (apply Z.pow_pos_nonneg; lia).
      rewrite !Z.mul_1_r, Z.mul_assoc, Hs. reflexivity.
Qed.









(* ================================================================= *)
(** ** Unsupported languages *)

(** C8. Through the dispatch entry point of [analyzer_java.py], every
    language whose lowercase form is not "java" (for example "Rust") gets a
    result with no error, exactly one warning whose rule is
    [NotImplemented], complexity 1.0 and maintainability index 75.0. *)
Theorem unsupported_language_is_neutral :
  forall (e : Java.env) (code language : string),
    lower language <> "java" ->
    exists r w,
      Java.analyze_code e code language = Ok r
      /\ Java.language r = language
      /\ Java.errors r = []
      /\ Java.warnings r = [w]
      /\ py_get w "symbol" PNone = Ok (PStr "NotImplemented")
      /\ py_get w "severity" PNone = Ok (PStr "warning")
      /\ Java.total_issues r = 1%Z
      /\ Java.complexity r = 1%Q
      /\ Java.maintainability_index r = 75%Q.
Proof.
  intros e code language Hlang.
  unfold Java.analyze_code, str_in; simpl existsb.
  destruct (String.eqb_spec (lower language) "java") as [Heq|_];
    [contradiction|].
  simpl orb. cbv iota.
  eexists; eexists; repeat split.
Qed.

Lemma unsupported_language_is_neutral_rust :
  exists r w,
    Java.analyze_code java_env_absent "fn main() {}" "Rust" = Ok r
    /\ Java.language r = "Rust"
    /\ Java.errors r = []
    /\ Java.warnings r = [w]
    /\ py_get w "symbol" PNone = Ok (PStr "NotImplemented")
    /\ py_get w "severity" PNone = Ok (PStr "warning")
    /\ Java.total_issues r = 1%Z
    /\ Java.complexity r = 1%Q
    /\ Java.maintainability_index r = 75%Q.
Proof.
  apply (unsupported_language_is_neutral java_env_absent "fn main() {}" "Rust").
  vm_compute; discriminate.
Defined.

(** C10. For every language whose lowercase form is not "python", the
    method [CodeAnalyzer.analyze_code] and the function [analyze_code_py]
    return Python's [None], not an analysis result. *)
Theorem non_python_language_returns_none :
  forall (e : Py.env) (code language : string),
    lower language <> "python" ->
    Py.analyze_code e code language = Ok None
    /\ Py.analyze_code_py e code language = Ok None.
Proof.
  intros e code language Hlang.
  unfold Py.analyze_code_py, Py.analyze_code.
  destruct (String.eqb_spec (lower language) "python") as [Heq|_];
    [contradiction|].
  split; reflexivity.
Qed.

Lemma non_python_language_returns_none_rust :
  Py.analyze_code py_env_silent "fn main() {}" "Rust" = Ok None
  /\ Py.analyze_code_py py_env_silent "fn main() {}" "Rust" = Ok None.
Proof.
  apply (non_python_language_returns_none py_env_silent "fn main() {}" "Rust").
  vm_compute; discriminate.
Defined.

(* ================================================================= *)
(** ** The C-family scenario *)

(** C9. On the scenario text, when the probe finds no clang-tidy, the
    adapter returns heuristic complexity 2.0, no error, no warning, and the
    availability flag is false; the maintainability index is the one of the
    formula (100 - 2 * 2 = 96). *)
Theorem scenario_cpp_without_tool :
  forall (e : Cpp.env) (language : string),
    Cpp._check_clang_tidy_availability e = Ok false ->
    exists r,
      Cpp.analyze_cpp_code e scenario_cpp language = Ok r
      /\ Cpp.complexity r = 2%Q
      /\ Cpp.errors r = []
      /\ Cpp.warnings r = []
      /\ Cpp.total_issues r = 0%Z
      /\ Cpp.clang_tidy_available r = false
      /\ (Cpp.maintainability_index r == 96)%Q.
Proof.
  intros e language Hprobe.
  unfold Cpp.analyze_cpp_code. rewrite Hprobe. simpl bind.
  eexists; split.
  - vm_compute. reflexivity.
  - repeat split.
Qed.

Lemma scenario_cpp_without_tool_absent :
  exists r,
    Cpp.analyze_cpp_code cpp_env_absent scenario_cpp "C++" = Ok r
    /\ Cpp.complexity r = 2%Q
    /\ Cpp.errors r = []
    /\ Cpp.warnings r = []
    /\ Cpp.total_issues r = 0%Z
    /\ Cpp.clang_tidy_available r = false
    /\ (Cpp.maintainability_index r == 96)%Q.
Proof.
  apply (scenario_cpp_without_tool cpp_env_absent "C++").
  reflexivity.
Defined.

(* ================================================================= *)
(** ** Exceptions that reach the caller *)

(** C2. The JavaScript adapter does not keep the promise that no exception
    reaches the caller: when ESLint runs and reports a message, the issue
    dictionaries handed to [_calculate_complexity_score] carry the rule
    under [rule_id] and the severity as a string, so [weight * severity]
    raises a [TypeError] that nothing catches. *)
Theorem js_adapter_raises_on_reported_message :
  JS.analyze_code js_env_one_error "eval('1')" "JavaScript"
  = raise TypeError "can't multiply sequence by non-int of type 'float'".
Proof. vm_compute. reflexivity. Qed.

(* ================================================================= *)
(** ** Severities *)

(** C4. A line of clang-tidy's text output with severity [note] matches the
    pattern of [_parse_clang_tidy_output], but the issue built from it is
    put in neither list: the adapter returns a result without any issue. *)
Theorem cpp_note_is_dropped :
  re_match Cpp.clang_tidy_line note_line
  = Some ["temp_code.cpp"; "3"; "5"; "note"; "candidate function";
          "with T = int"]
  /\ Cpp._parse_clang_tidy_output cpp_env_note note_line "text" = Ok ([], [])
  /\ exists r,
       Cpp.analyze_cpp_code cpp_env_note scenario_cpp "C++" = Ok r
       /\ Cpp.clang_tidy_available r = true
       /\ Cpp.errors r = []
       /\ Cpp.warnings r = []
       /\ Cpp.total_issues r = 0%Z.
Proof.
  split; [vm_compute; reflexivity|].
  split; [vm_compute; reflexivity|].
  eexists; split; [vm_compute; reflexivity|].
  repeat split.
Qed.

(** The other parsers keep every issue. *)
Lemma yaml_diagnostic_keeps_issue acc diagnostic acc' :
  Cpp.yaml_diagnostic acc diagnostic = Ok acc' -> adds_one acc acc'.
Proof.
  destruct acc as [errors warnings]. unfold Cpp.yaml_diagnostic. intro H.
  do 7 inv_bind H.
  destruct (String.eqb _ "error"); injection H as <-;
    [left|right]; eexists; split; reflexivity.
Qed.

Lemma xml_error_keeps_issue acc error_elem acc' :
  Java.xml_error acc error_elem = Ok acc' -> adds_one acc acc'.
Proof.
  destruct acc as [errors warnings]. unfold Java.xml_error. intro H.
  do 2 inv_bind H.
  destruct (String.eqb _ "error"); injection H as <-;
    [left|right]; eexists; split; reflexivity.
Qed.

Lemma eslint_message_keeps_issue acc message acc' :
  JS.eslint_message acc message = Ok acc' -> adds_one acc acc'.
Proof.
  destruct acc as [errors warnings]. unfold JS.eslint_message. intro H.
  do 7 inv_bind H.
  destruct (py_eq_int _ 2); injection H as <-;
    [left|right]; eexists; split; reflexivity.
Qed.

Lemma pylint_issue_keeps_issue acc issue acc' :
  Py.pylint_issue acc issue = Ok acc' -> adds_one acc acc'.
Proof.
  destruct acc as [errors warnings]. unfold Py.pylint_issue. intro H.
  do 6 inv_bind H.
  destruct (str_in _ _); injection H as <-;
    [left|right]; eexists; split; reflexivity.
Qed.

(* ================================================================= *)
(** ** The average complexity of the Python adapter *)

Lemma total_app (l1 l2 : list Z) :
  total (l1 ++ l2) = (total l1 + total l2)%Z.
Proof.
  unfold total. induction l1 as [|x l1 IH]; simpl; [reflexivity|].
  rewrite IH. lia.
Qed.

Lemma integers_app (vs ws : list pyval) :
  integers (vs ++ ws) = (integers vs ++ integers ws)%list.
Proof. unfold integers. apply flat_map_app. Qed.

Lemma integers_length (vs : list pyval) :
  Forall is_integer vs -> llen (integers vs) = llen vs.
Proof.
  induction 1 as [|v vs [z ->] _ IH]; [reflexivity|].
  unfold llen, integers in *. simpl. lia.
Qed.

Lemma cc_item_sum (item : pyval) (t n : Z) :
  Forall is_integer (item_complexity item) ->
  Py.cc_item (NInt t, n) item
  = Ok (NInt (t + total (integers (item_complexity item))),
        (n + llen (item_complexity item))%Z).
Proof.
  unfold Py.cc_item, item_complexity. intro H.
  destruct item as [| | | | | |d];
    try (cbn; rewrite !Z.add_0_r; reflexivity).
  destruct (dict_lookup "complexity" d) as [c|].
  - inversion H as [|? ? [z ->] _]; subst. cbn.
    rewrite Z.add_0_r. reflexivity.
  - cbn. rewrite !Z.add_0_r. reflexivity.
Qed.

Lemma cc_items_sum (items : list pyval) :
  Forall is_integer (flat_map item_complexity items) ->
  forall (t n : Z),
    foldM Py.cc_item items (NInt t, n)
    = Ok (NInt (t + total (integers (flat_map item_complexity items))),
          (n + llen (flat_map item_complexity items))%Z).
Proof.
  induction items as [|item items IH]; intros Hint t n.
  - cbn. rewrite !Z.add_0_r. reflexivity.
  - cbn [flat_map] in *. apply Forall_app in Hint as [Hhd Htl].
    cbn [foldM]. rewrite (cc_item_sum item t n Hhd). cbn [bind].
    rewrite (IH Htl). rewrite integers_app, total_app.
    unfold llen. rewrite length_app, Nat2Z.inj_add, !Z.add_assoc. reflexivity.
Qed.

(** The values of one file entry. *)
Lemma reported_one (name : string) (file_data : pyval) :
  reported_complexities [(name, file_data)]
  = match file_data with
    | PList items => flat_map item_complexity items
    | _ => []
    end.
Proof. unfold reported_complexities. cbn. apply app_nil_r. Qed.

(** On an answer with a single file entry whose complexity values are
    integers, the code returns their mean, and 1.0 when there are none. *)
Lemma average_complexity_single_file (name : string) (file_data : pyval) :
  Forall is_integer (reported_complexities [(name, file_data)]) ->
  Py._calculate_average_complexity (PDict [(name, file_data)])
  = mean_or_one (integers (reported_complexities [(name, file_data)])).
Proof.
  rewrite reported_one. intro Hint.
  unfold Py._calculate_average_complexity.
  cbn [truthy negb map snd Py.cc_files].
  destruct file_data as [| | | | |items|]; try reflexivity.
  rewrite (cc_items_sum items Hint). cbn [bind snd].
  pose proof (integers_length _ Hint) as Hlen.
  destruct (flat_map item_complexity items) as [|v vs] eqn:E;
    [reflexivity|].
  replace (Z.eqb (0 + llen (v :: vs)) 0) with false
    by (unfold llen; cbn; lia).
  cbn [bind num_div]. unfold mean_or_one.
  destruct (integers (v :: vs)) as [|x xs] eqn:Ei.
  - unfold llen in Hlen. cbn in Hlen. lia.
  - rewrite Hlen. reflexivity.
Qed.




(* ================================================================= *)
(** ** Comparisons of floats *)

Lemma Qltb_compat (a a' b b' : Q) :
  (a == a')%Q -> (b == b')%Q -> Qltb a b = Qltb a' b'.
Proof.
  intros Ha Hb. unfold Qltb. f_equal.
  destruct (Qle_bool b a) eqn:H1, (Qle_bool b' a') eqn:H2; try reflexivity.
  - apply Qle_bool_iff in H1. rewrite Ha, Hb in H1.
    apply Qle_bool_iff in H1. congruence.
  - apply Qle_bool_iff in H2. rewrite <- Ha, <- Hb in H2.
    apply Qle_bool_iff in H2. congruence.
Qed.

(* ================================================================= *)
(** ** Blank source text *)

Lemma all_space_cons (c : ascii) (s : string) :
  all_space (String c s) <-> isspace c = true /\ all_space s.
Proof. unfold all_space; simpl. apply andb_true_iff. Qed.

Lemma rstrip_nonblank_head (c : ascii) (s : string) :
  isspace c = false -> rstrip (String c s) <> "".
Proof.
  intro Hc. simpl. destruct (rstrip s); [rewrite Hc|]; discriminate.
Qed.

Lemma blank_all_space (s : string) : blank s <-> all_space s.
Proof.
  unfold blank, strip. induction s as [|c s IH].
  - split; reflexivity.
  - rewrite all_space_cons. destruct (isspace c) eqn:Hc.
    + simpl lstrip. rewrite Hc. rewrite IH. tauto.
    + simpl lstrip. rewrite Hc. split.
      * intro H. apply rstrip_nonblank_head in H; [contradiction|exact Hc].
      * intros [H _]; discriminate H.
Qed.

Lemma split_char_all_space (sep : ascii) (s : string) :
  all_space s -> Forall all_space (split_char sep s).
Proof.
  induction s as [|c s IH]; intro H; simpl.
  - constructor; [reflexivity|constructor].
  - apply all_space_cons in H as [Hc Hs]. specialize (IH Hs).
    destruct (Ascii.eqb c sep).
    + constructor; [reflexivity|exact IH].
    + destruct (split_char sep s) as [|w ws].
      * constructor; [|constructor]. apply all_space_cons; split; auto.
        reflexivity.
      * inversion IH; subst. constructor; [|assumption].
        apply all_space_cons; split; assumption.
Qed.

Lemma filter_none {A : Type} (p : A -> bool) (l : list A) :
  Forall (fun x => p x = false) l -> filter p l = [].
Proof.
  induction 1 as [|x l Hx _ IH]; simpl; [reflexivity|].
  rewrite Hx. exact IH.
Qed.

(** A blank text has no line that counts. *)
Lemma no_line_counts (code : string) (q : string -> bool) :
  blank code ->
  filter (fun line => (truthy_str (strip line) && q line)%bool)
         (split_lines code) = [].
Proof.
  intro H. apply filter_none.
  apply blank_all_space in H.
  pose proof (split_char_all_space newline code H) as Hall.
  unfold split_lines. induction Hall as [|l ls Hl _ IH]; constructor; auto.
  apply blank_all_space in Hl. unfold blank in Hl. rewrite Hl. reflexivity.
Qed.

Lemma spans_rest_all_space (f : ascii -> bool) (s : string) :
  all_space s ->
  forall cs p st, In st (spans f cs p s) -> all_space (rest st).
Proof.
  induction s as [|c s IH]; intros Hs cs p st Hin; simpl in Hin.
  - destruct Hin as [<-|[]]. exact Hs.
  - destruct Hin as [<-|Hin]; [exact Hs|].
    apply all_space_cons in Hs as [_ Hs].
    destruct (f c); [|contradiction]. eapply IH; eassumption.
Qed.

Lemma In_skipn {A : Type} (x : A) (n : nat) (l : list A) :
  In x (skipn n l) -> In x l.
Proof.
  intro H. rewrite <- (firstn_skipn n l). apply in_or_app. right; exact H.
Qed.

(** Matching only moves forward in the subject. *)
Lemma rmatch_rest_all_space (r : regex) :
  forall st st', all_space (rest st) -> In st' (rmatch r st) ->
                 all_space (rest st').
Proof.
  induction r as [|f|a IHa b IHb|a IHa b IHb|f lo greedy| | |a IHa];
    intros st st' Hst Hin; simpl in Hin.
  - destruct Hin as [<-|[]]; exact Hst.
  - destruct (rest st) as [|c s] eqn:Hr; [contradiction|].
    apply all_space_cons in Hst as [_ Hs].
    destruct (f c); [|contradiction].
    destruct Hin as [<-|[]]; exact Hs.
  - apply in_flat_map in Hin as (mid & Hmid & Hin).
    eapply IHb; [|exact Hin]. eapply IHa; eassumption.
  - apply in_app_or in Hin as [Hin|Hin]; [eapply IHa|eapply IHb]; eassumption.
  - assert (Hin' : In st' (spans f (caps st) (prev st) (rest st))).
    { destruct greedy; [apply in_rev in Hin|]; eapply In_skipn; exact Hin. }
    eapply spans_rest_all_space; eassumption.
  - destruct (xorb _ _); [|contradiction].
    destruct Hin as [<-|[]]; exact Hst.
  - destruct (prev st); [contradiction|].
    destruct Hin as [<-|[]]; exact Hst.
  - apply in_map_iff in Hin as (mid & <- & Hmid). simpl.
    eapply IHa; eassumption.
Qed.

Lemma flat_map_none {A B : Type} (f : A -> list B) (l : list A) :
  (forall x, In x l -> f x = []) -> flat_map f l = [].
Proof.
  induction l as [|x l IH]; intro H; simpl; [reflexivity|].
  rewrite (H x (or_introl eq_refl)). simpl. apply IH.
  intros y Hy. apply H. right; exact Hy.
Qed.

(** A pattern that needs a visible character finds nothing in white
    space. *)
Lemma fails_on_blank_no_match (r : regex) :
  fails_on_blank r ->
  forall st, all_space (rest st) -> rmatch r st = [].
Proof.
  induction 1 as [f Hf|a b _ IHa|a b _ IHb|a b _ IHa _ IHb|a _ IHa];
    intros st Hst; simpl.
  - destruct (rest st) as [|c s]; [reflexivity|].
    apply all_space_cons in Hst as [Hc _]. rewrite (Hf c Hc). reflexivity.
  - rewrite (IHa st Hst). reflexivity.
  - apply flat_map_none. intros mid Hmid. apply IHb.
    eapply rmatch_rest_all_space; eassumption.
  - rewrite (IHa st Hst), (IHb st Hst). reflexivity.
  - rewrite (IHa st Hst). reflexivity.
Qed.

Lemma findall_blank (r : regex) :
  fails_on_blank r ->
  forall s, all_space s -> forall p skip, findall_from r p s skip = O.
Proof.
  intros Hr s. induction s as [|c s IH]; intros Hs p skip.
  - destruct skip; simpl; [|reflexivity].
    unfold match_here.
    rewrite (fails_on_blank_no_match r Hr (mkState [] p "") Hs). reflexivity.
  - pose proof Hs as Hs'. apply all_space_cons in Hs' as [_ Htl].
    destruct skip; simpl.
    + unfold match_here.
      rewrite (fails_on_blank_no_match r Hr (mkState [] p (String c s)) Hs).
      apply IH; exact Htl.
    + apply IH; exact Htl.
Qed.

Lemma findall_count_blank (r : regex) (code : string) :
  fails_on_blank r -> blank code -> findall_count r code = 0%Z.
Proof.
  intros Hr Hb. unfold findall_count.
  rewrite (findall_blank r Hr code (proj1 (blank_all_space code) Hb)).
  reflexivity.
Qed.

Lemma fob_lit (x : ascii) :
  isspace x = false -> fails_on_blank (Cls (Ascii.eqb x)).
Proof.
  intro Hx. constructor. intros c Hc.
  destruct (Ascii.eqb_spec x c) as [->|_]; [congruence|reflexivity].
Qed.

Create HintDb blank.
#[local] Hint Resolve fob_lit fob_seq_l fob_seq_r fob_alt fob_grp : blank.

Ltac fails_on_blank_tac :=
  cbv [Java.re_if Java.re_while Java.re_for Java.re_switch Java.re_catch
       Java.re_ternary seqs word lit];
  auto 8 with blank.

Lemma java_decision_patterns_fail_on_blank :
  fails_on_blank Java.re_if /\ fails_on_blank Java.re_while
  /\ fails_on_blank Java.re_for /\ fails_on_blank Java.re_switch
  /\ fails_on_blank Java.re_catch /\ fails_on_blank Java.re_ternary.
Proof. repeat split; fails_on_blank_tac. Qed.

Lemma java_metrics_blank (code : string) :
  blank code -> Java._calculate_complexity_metrics code = (1%Q, 100%Q).
Proof.
  intro Hb.
  destruct java_decision_patterns_fail_on_blank
    as (Hif & Hwhile & Hfor & Hswitch & Hcatch & Hternary).
  unfold Java._calculate_complexity_metrics. cbv zeta.
  rewrite !findall_count_blank by assumption.
  unfold count_if. rewrite (no_line_counts code _ Hb).
  reflexivity.
Qed.

(* ================================================================= *)
(** ** Bounds of the metrics *)

Lemma Qltb_true (a b : Q) : Qltb a b = true -> (a < b)%Q.
Proof.
  unfold Qltb. intro H. apply negb_true_iff in H.
  apply Qnot_le_lt. intro Hle. apply Qle_bool_iff in Hle. congruence.
Qed.

Lemma Qltb_false (a b : Q) : Qltb a b = false -> (b <= a)%Q.
Proof.
  unfold Qltb. intro H. apply negb_false_iff in H.
  apply Qle_bool_iff. exact H.
Qed.

(** [max(0.0, min(100.0, x))] lies between 0 and 100. *)
Lemma clamp_bounds (x : Q) :
  (0 <= py_max 0 (py_min 100 x))%Q /\ (py_max 0 (py_min 100 x) <= 100)%Q.
Proof.
  unfold py_max, py_min.
  destruct (Qltb x 100) eqn:H1.
  - apply Qltb_true in H1.
    destruct (Qltb 0 x) eqn:H2.
    + apply Qltb_true in H2. split; apply Qlt_le_weak; assumption.
    + split; [apply Qle_refl | discriminate].
  - replace (Qltb 0 100) with true by reflexivity.
    split; [discriminate | apply Qle_refl].
Qed.

Lemma float_of_Z_nonneg (z : Z) : (0 <= z)%Z -> (0 <= float_of_Z z)%Q.
Proof.
  intro H. unfold float_of_Z, inject_Z, Qle. simpl. lia.
Qed.

Lemma findall_count_nonneg (r : regex) (s : string) :
  (0 <= findall_count r s)%Z.
Proof. unfold findall_count. apply Nat2Z.is_nonneg. Qed.

Lemma cpp_complexity_nonneg (code : string) :
  (0 <= Cpp._estimate_complexity_from_code code)%Q.
Proof.
  unfold Cpp._estimate_complexity_from_code. apply float_of_Z_nonneg.
  assert (H : forall ps acc, (0 <= acc)%Z ->
            (0 <= fold_left (fun complexity pattern =>
                               (complexity + findall_count pattern code)%Z)
                            ps acc)%Z).
  { induction ps as [|p ps IH]; intros acc Hacc; simpl; [exact Hacc|].
    apply IH. pose proof (findall_count_nonneg p code). lia. }
  apply H. lia.
Qed.

Lemma cpp_maintainability_bounds (code : string) (c : Q) :
  (0 <= Cpp._estimate_maintainability_index code c)%Q
  /\ (Cpp._estimate_maintainability_index code c <= 100)%Q.
Proof.
  unfold Cpp._estimate_maintainability_index. cbv zeta.
  destruct (Z.eqb _ 0).
  - split; [discriminate | apply Qle_refl].
  - apply clamp_bounds.
Qed.

Lemma java_metrics_bounds (code : string) :
  (0 <= snd (Java._calculate_complexity_metrics code))%Q
  /\ (snd (Java._calculate_complexity_metrics code) <= 100)%Q
  /\ (0 <= fst (Java._calculate_complexity_metrics code))%Q.
Proof.
  unfold Java._calculate_complexity_metrics. cbv zeta. cbn [fst snd].
  split; [|split].
  - destruct (Z.ltb 0 _); [apply clamp_bounds | discriminate].
  - destruct (Z.ltb 0 _); [apply clamp_bounds | apply Qle_refl].
  - apply float_of_Z_nonneg.
    pose proof (findall_count_nonneg Java.re_if code).
    pose proof (findall_count_nonneg Java.re_while code).
    pose proof (findall_count_nonneg Java.re_for code).
    pose proof (findall_count_nonneg Java.re_switch code).
    pose proof (findall_count_nonneg Java.re_catch code).
    pose proof (findall_count_nonneg Java.re_ternary code).
    lia.
Qed.

(* ================================================================= *)
(** ** Results of the C-family adapter *)

Lemma cpp_method_result e available code language r :
  Cpp.analyze e available code language = Ok r ->
  Cpp.total_issues r = (llen (Cpp.errors r) + llen (Cpp.warnings r))%Z
  /\ within_bounds (CppResult r).
Proof.
  unfold Cpp.analyze, within_bounds. intro H.
  destruct (negb (truthy_str (strip code))).
  - injection H as <-. simpl.
    repeat split; discriminate.
  - inv_bind H. destruct a as [errors warnings]. injection H as <-. simpl.
    split; [reflexivity|].
    pose proof (cpp_maintainability_bounds code
                  (Cpp._estimate_complexity_from_code code)) as [H1 H2].
    repeat split; try assumption. apply cpp_complexity_nonneg.
Qed.

Lemma cpp_result e code language r :
  Cpp.analyze_cpp_code e code language = Ok r ->
  Cpp.total_issues r = (llen (Cpp.errors r) + llen (Cpp.warnings r))%Z
  /\ within_bounds (CppResult r).
Proof.
  unfold Cpp.analyze_cpp_code. intro H. inv_bind H.
  eapply cpp_method_result; exact H.
Qed.

(* ================================================================= *)
(** ** Results of the Java adapter *)

Lemma java_basic_result (code : string) :
  let r := Java._basic_java_analysis code in
  Java.total_issues r = (llen (Java.errors r) + llen (Java.warnings r))%Z
  /\ within_bounds (JavaResult r)
  /\ (Java.complexity r, Java.maintainability_index r)
     = Java._calculate_complexity_metrics code.
Proof.
  unfold Java._basic_java_analysis, within_bounds.
  pose proof (java_metrics_bounds code) as Hb.
  destruct (Java.basic_lines _ _ _) as [errors warnings].
  destruct (Java._calculate_complexity_metrics code) as [c m].
  simpl in *. repeat split; tauto.
Qed.

Lemma java_method_result e code r :
  Java.analyze e code = Ok r ->
  Java.total_issues r = (llen (Java.errors r) + llen (Java.warnings r))%Z
  /\ within_bounds (JavaResult r)
  /\ (Java.complexity r, Java.maintainability_index r)
     = Java._calculate_complexity_metrics code.
Proof.
  unfold Java.analyze. intro H. inv_bind H.
  destruct (negb a).
  - injection H as <-. apply java_basic_result.
  - apply try_except_Ok in H as [H|(ex & _ & _ & H)].
    + inv_bind H. inv_bind H. destruct a1 as [errors warnings].
      pose proof (java_metrics_bounds code) as Hb.
      destruct (Java._calculate_complexity_metrics code) as [c m].
      injection H as <-. unfold within_bounds. simpl in *.
      repeat split; tauto.
    + injection H as <-. apply java_basic_result.
Qed.

(** The Java adapter keeps the promise of C2 once its probe has answered:
    whatever Checkstyle or the XML decoder does, a result comes back. *)
Lemma java_analyze_returns e code available :
  Java._check_checkstyle_availability e = Ok available ->
  exists r, Java.analyze e code = Ok r.
Proof.
  intro Hprobe. unfold Java.analyze. rewrite Hprobe. cbn [bind].
  destruct (negb available); [eexists; reflexivity|].
  match goal with
  | |- exists r, try_except ?m _ _ = Ok r => destruct m as [r|ex]
  end; eexists; reflexivity.
Qed.

Lemma java_result e code language r :
  Java.analyze_code e code language = Ok r ->
  Java.total_issues r = (llen (Java.errors r) + llen (Java.warnings r))%Z
  /\ within_bounds (JavaResult r).
Proof.
  unfold Java.analyze_code, Java.analyze_java_code. intro H.
  destruct (str_in (lower language) ["java"]).
  - apply java_method_result in H. tauto.
  - injection H as <-. unfold within_bounds. simpl.
    repeat split; discriminate.
Qed.

(* ================================================================= *)
(** ** Results of the JavaScript adapter *)

Lemma eslint_message_normalized acc message acc' :
  Forall normalized (fst acc) /\ Forall normalized (snd acc) ->
  JS.eslint_message acc message = Ok acc' ->
  Forall normalized (fst acc') /\ Forall normalized (snd acc').
Proof.
  destruct acc as [errors warnings]. simpl. intros [He Hw] H.
  unfold JS.eslint_message in H.
  do 7 inv_bind H.
  match type of H with
  | (if _ then Ok (_ ++ [?i], _)%list else _) = _ =>
      assert (Hn : normalized i)
        by (eexists; eexists; split; [reflexivity|]; split; reflexivity)
  end.
  destruct (py_eq_int a5 2); injection H as <-; simpl; split;
    try assumption; apply Forall_app; split; auto.
Qed.

Lemma parse_eslint_output_result eslint_result errors warnings total :
  JS._parse_eslint_output eslint_result = Ok (errors, warnings, total) ->
  Forall normalized errors /\ Forall normalized warnings
  /\ total = (llen errors + llen warnings)%Z.
Proof.
  unfold JS._parse_eslint_output. intro H.
  inv_bind H. inv_bind H. destruct a0 as [all_errors all_warnings].
  injection H as <- <- <-.
  assert (Hinv : Forall normalized (fst (all_errors, all_warnings))
                 /\ Forall normalized (snd (all_errors, all_warnings))).
  { eapply (foldM_invariant
              (fun acc => Forall normalized (fst acc)
                          /\ Forall normalized (snd acc)));
      [| |exact Ha0].
    - intros acc file_result acc' Hacc Hbody.
      inv_bind Hbody. inv_bind Hbody.
      eapply (foldM_invariant
                (fun acc => Forall normalized (fst acc)
                            /\ Forall normalized (snd acc)));
        [|exact Hacc|exact Hbody].
      intros; eapply eslint_message_normalized; eassumption.
    - split; constructor. }
  simpl in Hinv. tauto.
Qed.

Lemma complexity_step_normalized (t : Q) (issue : pyval) :
  normalized issue ->
  JS.complexity_step t issue
  = raise TypeError "can't multiply sequence by non-int of type 'float'".
Proof.
  intros (d & s & -> & Hr & Hs).
  unfold JS.complexity_step, py_get, dict_get. rewrite Hr, Hs.
  reflexivity.
Qed.

(** On the issues that the adapter builds, the score exists only for the
    empty list. *)
Lemma complexity_score_normalized (issues : list pyval) (c : Q) :
  Forall normalized issues ->
  JS._calculate_complexity_score issues = Ok c ->
  issues = [] /\ c = 1%Q.
Proof.
  intros Hn H. unfold JS._calculate_complexity_score in H.
  destruct issues as [|issue issues]; simpl in H.
  - injection H as <-. split; reflexivity.
  - inversion Hn as [|? ? Hhd Htl]; subst.
    rewrite (complexity_step_normalized 1%Q issue Hhd) in H.
    discriminate H.
Qed.

Lemma js_maintainability_bounds errors warnings (m : Q) :
  JS._calculate_maintainability_index errors warnings = Ok m ->
  (0 <= m)%Q /\ (m <= 100)%Q.
Proof.
  unfold JS._calculate_maintainability_index. cbv zeta. intro H.
  inv_bind H. injection H as <-. apply clamp_bounds.
Qed.

Lemma js_analysis_result e language eslint_result r :
  bind (JS._parse_eslint_output eslint_result)
       (fun '(errors, warnings, total) =>
          bind (JS._calculate_complexity_score (errors ++ warnings)%list)
               (fun complexity =>
                  bind (JS._calculate_maintainability_index errors warnings)
                       (fun maintainability =>
                          Ok (JS.mkResult language errors warnings total
                                          complexity maintainability
                                          (Some (JS.temp_path e))))))
  = Ok r ->
  JS.total_issues r = (llen (JS.errors r) + llen (JS.warnings r))%Z
  /\ within_bounds (JSResult r).
Proof.
  intro H. inv_bind H. destruct a as [[errors warnings] total].
  inv_bind H. inv_bind H. injection H as <-.
  apply parse_eslint_output_result in Ha as (He & Hw & ->).
  apply complexity_score_normalized in Ha0 as [_ ->];
    [|apply Forall_app; split; assumption].
  apply js_maintainability_bounds in Ha1 as [H1 H2].
  unfold within_bounds. simpl. repeat split; try assumption. discriminate.
Qed.

Lemma js_method_result e available code language r :
  JS.JavaScriptAnalyzer.analyze_code e available code language = Ok r ->
  JS.total_issues r = (llen (JS.errors r) + llen (JS.warnings r))%Z
  /\ within_bounds (JSResult r).
Proof.
  unfold JS.JavaScriptAnalyzer.analyze_code. intro H.
  destruct (JS._run_eslint e available);
    try (eapply js_analysis_result; exact H).
  injection H as <-. unfold within_bounds. simpl. repeat split; discriminate.
Qed.

(** On the issues that the adapter builds, the score is a [TypeError] as
    soon as there is one issue. *)
Lemma complexity_score_raises_normalized (issues : list pyval) :
  Forall normalized issues ->
  issues <> [] ->
  JS._calculate_complexity_score issues
  = raise TypeError "can't multiply sequence by non-int of type 'float'".
Proof.
  intros Hn Hne. unfold JS._calculate_complexity_score.
  destruct issues as [|issue issues]; [contradiction|].
  inversion Hn as [|? ? Hhd _]; subst.
  cbn [is_nil foldM]. rewrite (complexity_step_normalized 1%Q issue Hhd).
  reflexivity.
Qed.

(** C7. For the issue lists that the adapter builds from a successful
    ESLint run, [_calculate_complexity_score] gives no score at all as soon
    as there is one issue: the adapter stores the rule under [rule_id] and
    the severity as a string, the score reads [ruleId] and multiplies the
    weight by the severity, and a float times a string is a [TypeError].
    The weighted sum of the specification is never computed. *)
Theorem complexity_score_fails_on_the_adapters_issues :
  forall (eslint_result : pyval) (errors warnings : list pyval) (total : Z),
    JS._parse_eslint_output eslint_result = Ok (errors, warnings, total) ->
    (errors ++ warnings)%list <> [] ->
    JS._calculate_complexity_score (errors ++ warnings)
    = raise TypeError "can't multiply sequence by non-int of type 'float'".
Proof.
  intros eslint_result errors warnings total Hparse Hne.
  apply parse_eslint_output_result in Hparse as (He & Hw & _).
  apply complexity_score_raises_normalized; [|exact Hne].
  apply Forall_app. split; assumption.
Qed.

(** On ESLint's report of one use of [eval], the specification asks for
    1.0 + 1.5 = 2.5. *)
Lemma complexity_score_fails_on_the_adapters_issues_eval :
  JS._parse_eslint_output eslint_answer_warning = Ok ([], [no_eval_issue], 1%Z)
  /\ JS._calculate_complexity_score ([] ++ [no_eval_issue])
     = raise TypeError "can't multiply sequence by non-int of type 'float'"
  /\ (spec_complexity_score ([] ++ [no_eval_issue]) == 2.5)%Q.
Proof.
  split; [vm_compute; reflexivity|]. split.
  - apply (complexity_score_fails_on_the_adapters_issues
             eslint_answer_warning [] [no_eval_issue] 1%Z).
    + vm_compute. reflexivity.
    + discriminate.
  - vm_compute. reflexivity.
Defined.

(** The defect behind C2 is systematic: whenever ESLint's answer yields at
    least one issue, the method raises the [TypeError]. *)
Lemma js_method_raises_on_any_issue e available code language
      errors warnings total :
  JS._parse_eslint_output (JS._run_eslint e available)
  = Ok (errors, warnings, total) ->
  (errors ++ warnings)%list <> [] ->
  JS.JavaScriptAnalyzer.analyze_code e available code language
  = raise TypeError "can't multiply sequence by non-int of type 'float'".
Proof.
  intros Hparse Hne.
  pose proof (parse_eslint_output_result _ _ _ _ Hparse) as (He & Hw & _).
  assert (Hscore : JS._calculate_complexity_score (errors ++ warnings)%list
                   = raise TypeError
                       "can't multiply sequence by non-int of type 'float'").
  { apply complexity_score_raises_normalized; [|exact Hne].
    apply Forall_app; split; assumption. }
  unfold JS.JavaScriptAnalyzer.analyze_code.
  revert Hparse.
  destruct (JS._run_eslint e available); intro Hparse;
    try (rewrite Hparse; cbn [bind]; rewrite Hscore; reflexivity).
  vm_compute in Hparse. discriminate Hparse.
Qed.

Lemma js_result e code language r :
  JS.analyze_code e code language = Ok r ->
  JS.total_issues r = (llen (JS.errors r) + llen (JS.warnings r))%Z
  /\ within_bounds (JSResult r).
Proof.
  unfold JS.analyze_code, JS.analyze_javascript_code. intro H.
  destruct (str_in _ _).
  - inv_bind H. eapply js_method_result; exact H.
  - injection H as <-. unfold within_bounds. simpl.
    repeat split; discriminate.
Qed.

(* ================================================================= *)
(** ** Results of the Python adapter *)

Lemma py_parse_result pylint_result radon_result language r :
  Py.parse_analysis_results pylint_result radon_result language = Ok r ->
  Py.total_issues r = (llen (Py.errors r) + llen (Py.warnings r))%Z
  /\ Py.complexity r = Py.get_complexity radon_result 1%Q
  /\ Py.maintainability_index r
     = Py.get_maintainability_index radon_result 50%Q.
Proof.
  unfold Py.parse_analysis_results. cbv zeta. intro H.
  inv_bind H. destruct a as [errors warnings]. injection H as <-.
  simpl. repeat split.
Qed.

Lemma py_method_result e code r :
  Py.analyze_python_code e code = Ok r ->
  Py.total_issues r = (llen (Py.errors r) + llen (Py.warnings r))%Z
  /\ Py.complexity r = Py.get_complexity (Py.run_radon_complexity e) 1%Q
  /\ Py.maintainability_index r
     = Py.get_maintainability_index (Py.run_radon_complexity e) 50%Q.
Proof. unfold Py.analyze_python_code. apply py_parse_result. Qed.

Lemma py_result e code language r :
  Py.analyze_code_py e code language = Ok (Some r) ->
  Py.analyze_python_code e code = Ok r.
Proof.
  unfold Py.analyze_code_py, Py.analyze_code. intro H.
  destruct (String.eqb _ _); [|discriminate H].
  inv_bind H. injection H as ->. exact Ha.
Qed.

(* ================================================================= *)
(** ** The count of issues *)

(** C1. Whatever entry point of whatever adapter returns a result, its
    [total_issues] is the number of its errors plus the number of its
    warnings. *)
Theorem total_issues_counts_errors_and_warnings :
  forall (code : string) (r : analysis_result),
    returns code r ->
    total_issues_of r = (llen (errors_of r) + llen (warnings_of r))%Z.
Proof.
  intros code r H. destruct H as [e a l r H|e l r H|e r H|e l r H
                                 |e a l r H|e l r H|e r H|e l r H]; simpl.
  - apply cpp_method_result in H; tauto.
  - apply cpp_result in H; tauto.
  - apply java_method_result in H; tauto.
  - apply java_result in H; tauto.
  - apply js_method_result in H; tauto.
  - apply js_result in H; tauto.
  - apply py_method_result in H; tauto.
  - apply py_result in H. apply py_method_result in H; tauto.
Qed.

Lemma total_issues_counts_errors_and_warnings_java :
  total_issues_of
    (JavaResult (Java._basic_java_analysis "if (x);"))
  = (llen (errors_of (JavaResult (Java._basic_java_analysis "if (x);")))
     + llen (warnings_of (JavaResult (Java._basic_java_analysis "if (x);"))))%Z.
Proof.
  apply (total_issues_counts_errors_and_warnings "if (x);").
  apply (ret_java_method "if (x);" java_env_absent).
  vm_compute. reflexivity.
Defined.

(* ================================================================= *)
(** ** The metrics that the Python adapter takes from radon *)

Lemma float_of_int_nonneg (z : Z) (x : Q) :
  0 <= z -> float_of_int z = Ok x -> (0 <= x)%Q.
Proof.
  intros Hz. unfold float_of_int.
  destruct (beyond_floats _); [discriminate|]. intro H. injection H as <-.
  apply nearest64_nonneg. unfold Qle, inject_Z. simpl. lia.
Qed.

Lemma inject_Z_nonneg (z : Z) : Qle_bool 0 (inject_Z z) = true -> 0 <= z.
Proof.
  intro H. apply Qle_bool_iff in H. unfold Qle, inject_Z in H. simpl in H. lia.
Qed.

Lemma num_add_nonneg (t : number) (c : pyval) (t' : number) :
  nonneg_total t -> complexity_in_range c = true ->
  num_add t c = Ok t' -> nonneg_total t'.
Proof.
  unfold complexity_in_range.
  destruct t as [a|x], c as [| b | b | q | | |]; simpl;
    intros Ht Hc H; try discriminate H.
  - injection H as <-. simpl. destruct b; lia.
  - injection H as <-. simpl. apply inject_Z_nonneg in Hc. lia.
  - apply bind_Ok in H as (x & Hx & H). injection H as <-. simpl.
    apply nearest64_nonneg. apply Qle_bool_iff in Hc.
    pose proof (float_of_int_nonneg a x Ht Hx).
    apply (Qplus_le_compat 0 x 0 q); assumption.
  - injection H as <-. simpl. apply nearest64_nonneg.
    apply (Qplus_le_compat 0 x 0 _); [assumption|]. destruct b; discriminate.
  - apply bind_Ok in H as (y & Hy & H). injection H as <-. simpl.
    apply nearest64_nonneg. apply inject_Z_nonneg in Hc.
    pose proof (float_of_int_nonneg b y Hc Hy).
    apply (Qplus_le_compat 0 x 0 y); assumption.
  - injection H as <-. simpl. apply nearest64_nonneg.
    apply Qle_bool_iff in Hc.
    apply (Qplus_le_compat 0 x 0 q); assumption.
Qed.

Lemma cc_item_nonneg (acc acc' : number * Z) (item : pyval) :
  forallb complexity_in_range (item_complexity item) = true ->
  nonneg_total (fst acc) /\ 0 <= snd acc ->
  Py.cc_item acc item = Ok acc' ->
  nonneg_total (fst acc') /\ 0 <= snd acc'.
Proof.
  destruct acc as [t n]. unfold Py.cc_item, item_complexity.
  intros Hr [Ht Hn] H. cbn [fst snd] in *.
  destruct item as [| | | | | |d]; try (injection H as <-; split; assumption).
  destruct (dict_lookup "complexity" d) as [c|];
    [|injection H as <-; split; assumption].
  cbn in Hr. rewrite andb_true_r in Hr.
  apply bind_Ok in H as (t' & Ht' & H). injection H as <-. cbn [fst snd].
  split; [|lia]. eapply num_add_nonneg; eassumption.
Qed.

Lemma cc_items_nonneg (items : list pyval) :
  forall acc acc',
    forallb complexity_in_range (flat_map item_complexity items) = true ->
    nonneg_total (fst acc) /\ 0 <= snd acc ->
    foldM Py.cc_item items acc = Ok acc' ->
    nonneg_total (fst acc') /\ 0 <= snd acc'.
Proof.
  induction items as [|item items IH]; intros acc acc' Hr Hacc H.
  - cbn in H. injection H as <-. exact Hacc.
  - cbn [flat_map] in Hr. rewrite forallb_app in Hr.
    apply andb_true_iff in Hr as [Hhd Htl].
    cbn [foldM] in H. apply bind_Ok in H as (acc1 & H1 & H).
    eapply IH; [exact Htl| |exact H].
    eapply cc_item_nonneg; eassumption.
Qed.

Lemma cc_files_nonneg (files : list (string * pyval)) :
  forall acc r,
    forallb (fun kv => entry_in_range (snd kv)) files = true ->
    nonneg_total (fst acc) /\ 0 <= snd acc ->
    Py.cc_files acc (map snd files) = Ok r ->
    match r with
    | inl early => early = 1%Q
    | inr acc' => nonneg_total (fst acc') /\ 0 <= snd acc'
    end.
Proof.
  induction files as [|[k v] files IH]; intros acc r Hr Hacc H.
  - cbn in H. injection H as <-. exact Hacc.
  - cbn [forallb snd] in Hr. apply andb_true_iff in Hr as [Hhd Htl].
    cbn [map snd Py.cc_files] in H.
    apply bind_Ok in H as (acc1 & H1 & H).
    assert (Hacc1 : nonneg_total (fst acc1) /\ 0 <= snd acc1).
    { destruct v as [| | | | |items|]; try (injection H1 as <-; exact Hacc).
      eapply cc_items_nonneg; [exact Hhd|exact Hacc|exact H1]. }
    destruct (Z.eqb (snd acc1) 0).
    + injection H as <-. reflexivity.
    + eapply IH; [exact Htl|exact Hacc1|exact H].
Qed.

Lemma Qdiv_nonneg (x y : Q) : (0 <= x)%Q -> (0 <= y)%Q -> (0 <= x / y)%Q.
Proof.
  intros Hx Hy. unfold Qdiv. apply Qmult_le_0_compat; [exact Hx|].
  apply Qinv_le_0_compat. exact Hy.
Qed.

Lemma num_div_nonneg (t : number) (n : Z) (c : Q) :
  nonneg_total t -> 0 <= n -> num_div t n = Ok c -> (0 <= c)%Q.
Proof.
  intros Ht Hn. destruct t as [a|x]; simpl in *.
  - unfold int_true_div. destruct (n =? 0); [discriminate|].
    destruct (beyond_floats _); [discriminate|]. intro H. injection H as <-.
    apply nearest64_nonneg.
    apply Qdiv_nonneg; unfold Qle, inject_Z; simpl; lia.
  - intro H. apply bind_Ok in H as (y & Hy & H).
    unfold float_div in H. destruct (Qeq_bool y 0); [discriminate|].
    injection H as <-. apply nearest64_nonneg.
    apply Qdiv_nonneg; [exact Ht|]. eapply float_of_int_nonneg; eassumption.
Qed.

Lemma average_complexity_nonneg (cc_data : pyval) (c : Q) :
  answer_in_range cc_data = true ->
  Py._calculate_average_complexity cc_data = Ok c ->
  (0 <= c)%Q.
Proof.
  intros Hr. unfold Py._calculate_average_complexity.
  destruct (negb (truthy cc_data)); [intro H; injection H as <-; discriminate|].
  destruct cc_data as [| | | | | |d]; try discriminate.
  intro H. apply bind_Ok in H as (r & Hfiles & H).
  pose proof (cc_files_nonneg d (NInt 0, 0) r Hr
                ltac:(cbn; split; lia) Hfiles) as Hinv.
  destruct r as [early|[t n]].
  - injection H as <-. rewrite Hinv. discriminate.
  - destruct Hinv as [Ht Hn]. eapply num_div_nonneg; eassumption.
Qed.

Lemma py_float_in_range (e : Py.env) (v : pyval) (m : Q) :
  index_in_range v = true -> Py.py_float e v = Ok m ->
  (0 <= m)%Q /\ (m <= 100)%Q.
Proof.
  unfold index_in_range.
  destruct v as [| b | z | q | | |]; simpl; intros Hr H; try discriminate Hr.
  - injection H as <-. destruct b; split; discriminate.
  - apply andb_true_iff in Hr as [H0 H100].
    apply Qle_bool_iff in H0, H100.
    assert (Hz : 0 <= z <= 100).
    { unfold Qle, inject_Z in *. simpl in *. lia. }
    unfold float_of_int in H. destruct (beyond_floats _); [discriminate|].
    injection H as <-. rewrite nearest64_int by lia. split; assumption.
  - injection H as <-. apply andb_true_iff in Hr as [H0 H100].
    apply Qle_bool_iff in H0, H100. split; assumption.
Qed.

Lemma mi_items_in_range (e : Py.env) (d : list (string * pyval)) (m : Q) :
  forallb (fun kv => entry_in_range (snd kv)) d = true ->
  Py.mi_items e d = Ok m ->
  (0 <= m)%Q /\ (m <= 100)%Q.
Proof.
  induction d as [|[k v] d IH]; intros Hr H.
  - cbn in H. injection H as <-. split; discriminate.
  - cbn [forallb snd] in Hr. apply andb_true_iff in Hr as [Hhd Htl].
    cbn [Py.mi_items] in H.
    destruct v as [| b | z | q | | |d'];
      try (apply IH; assumption);
      try (eapply py_float_in_range; [exact Hhd|exact H]).
    cbn [entry_in_range] in Hhd.
    destruct (dict_lookup "mi" d') as [mi|]; [|apply IH; assumption].
    eapply py_float_in_range; eassumption.
Qed.

Lemma maintainability_index_in_range (e : Py.env) (mi_data : pyval) (m : Q) :
  answer_in_range mi_data = true ->
  Py._extract_maintainability_index e mi_data = Ok m ->
  (0 <= m)%Q /\ (m <= 100)%Q.
Proof.
  intro Hr. unfold Py._extract_maintainability_index.
  destruct (negb (truthy mi_data));
    [intro H; injection H as <-; split; discriminate|].
  destruct mi_data as [| | | | | |d]; try discriminate.
  apply mi_items_in_range. exact Hr.
Qed.

Lemma decode_or_empty_in_range (e : Py.env) (out : string) (v : pyval) :
  (Py.json_loads e out = Ok v -> answer_in_range v = true) ->
  Py.decode_or_empty e out = Ok v ->
  answer_in_range v = true.
Proof.
  intros He. unfold Py.decode_or_empty.
  destruct (truthy_str (strip out)); [|intro H; injection H as <-; reflexivity].
  destruct (Py.json_loads e out) as [v'|ex] eqn:E; cbn [try_except].
  - intro H. injection H as <-. apply He. reflexivity.
  - destruct (is_JSONDecodeError ex); [|discriminate].
    intro H. injection H as <-. reflexivity.
Qed.

Lemma radon_result_in_range (e : Py.env) :
  radon_in_range e ->
  (0 <= Py.get_complexity (Py.run_radon_complexity e) 1)%Q
  /\ (0 <= Py.get_maintainability_index (Py.run_radon_complexity e) 50)%Q
  /\ (Py.get_maintainability_index (Py.run_radon_complexity e) 50 <= 100)%Q.
Proof.
  intro He. unfold Py.run_radon_complexity.
  match goal with
  | |- context [match ?b with Ok d => d | Raise ex => _ end] =>
      destruct b as [d|ex] eqn:E
  end.
  - apply bind_Ok in E as (cc & Hrcc & E).
    apply bind_Ok in E as (mi & Hrmi & E).
    apply bind_Ok in E as (cc_data & Hcc & E).
    apply bind_Ok in E as (mi_data & Hmi & E).
    apply bind_Ok in E as (avg & Havg & E).
    apply bind_Ok in E as (m & Hm & E). injection E as <-.
    cbn [Py.get_complexity Py.get_maintainability_index].
    split.
    + eapply average_complexity_nonneg; [|exact Havg].
      eapply decode_or_empty_in_range; [|exact Hcc].
      intro Hv. apply He. left. exists cc. split; assumption.
    + eapply maintainability_index_in_range; [|exact Hm].
      eapply decode_or_empty_in_range; [|exact Hmi].
      intro Hv. apply He. right. exists mi. split; assumption.
  - destruct (is_TimeoutExpired ex), (is_FileNotFoundError ex);
      cbn; repeat split; discriminate.
Qed.

(* ================================================================= *)
(** ** The bounds of the metrics *)

(** C5. Every result has a maintainability index between 0 and 100 and a
    complexity that is not negative.  The C-family, Java and JavaScript
    adapters see to it themselves, whatever their tools answer.  The Python
    adapter reports the metrics of radon (1.0 and 50.0 when there are
    none): its results are within the bounds for every answer of radon that
    is within radon's own ranges, complexity values that are not negative
    and indexes from 0 to 100. *)
Theorem metrics_are_within_bounds :
  (forall (code : string) (r : analysis_result),
      returns code r -> own_metrics r = true -> within_bounds r)
  /\ (forall (e : Py.env) (code : string) (r : Py.pyAnalysisResult),
         radon_in_range e ->
         Py.analyze_python_code e code = Ok r ->
         within_bounds (PyResult r))
  /\ (forall (e : Py.env) (code language : string) (r : Py.pyAnalysisResult),
         radon_in_range e ->
         Py.analyze_code_py e code language = Ok (Some r) ->
         within_bounds (PyResult r)).
Proof.
  assert (Hpy : forall e code r,
             radon_in_range e ->
             Py.analyze_python_code e code = Ok r ->
             within_bounds (PyResult r)).
  { intros e code r He H. apply py_method_result in H as (_ & Hc & Hm).
    unfold within_bounds. cbn [maintainability_of complexity_of].
    rewrite Hc, Hm. pose proof (radon_result_in_range e He). tauto. }
  split; [|split; [exact Hpy|]].
  - intros code r H Hown.
    destruct H as [e a l r H|e l r H|e r H|e l r H
                  |e a l r H|e l r H|e r H|e l r H];
      try discriminate Hown.
    + apply cpp_method_result in H; tauto.
    + apply cpp_result in H; tauto.
    + apply java_method_result in H; tauto.
    + apply java_result in H; tauto.
    + apply js_method_result in H; tauto.
    + apply js_result in H; tauto.
  - intros e code language r He H. apply py_result in H.
    eapply Hpy; eassumption.
Qed.

Lemma metrics_are_within_bounds_examples :
  within_bounds (JavaResult (Java._basic_java_analysis "if (x);"))
  /\ exists r,
       Py.analyze_python_code py_env_radon "def f(): pass" = Ok r
       /\ within_bounds (PyResult r).
Proof.
  split.
  - apply (proj1 metrics_are_within_bounds "if (x);").
    + apply (ret_java_method "if (x);" java_env_absent).
      vm_compute. reflexivity.
    + reflexivity.
  - eexists. split.
    + vm_compute. reflexivity.
    + apply (proj1 (proj2 metrics_are_within_bounds)
                   py_env_radon "def f(): pass").
      * intros v [(cc & Hrun & H)|(mi & Hrun & H)];
          injection Hrun as <-; injection H as <-; reflexivity.
      * vm_compute. reflexivity.
Defined.

(* ================================================================= *)
(** ** Blank source text: the metrics *)

(** C3, as the code has it.  On empty or white-space-only source text the
    C-family adapter returns complexity 1.0 and maintainability index 100.0
    without running anything, and so does the Java adapter whenever it
    returns, with or without Checkstyle.  The other two adapters do not
    look at the text: the JavaScript adapter returns these values when
    ESLint answered without any message and its defaults 5.0 and 50.0 when
    there is no answer; the Python adapter returns what it extracted from
    radon's answer, 1.0 and 50.0 by default. *)
Theorem blank_source_metrics :
  forall (code : string),
    blank code ->
    (forall e available language,
        Cpp.analyze e available code language
        = Ok (Cpp.mkResult language 0 [] [] 1%Q 100%Q available PNone))
    /\ (forall e language r,
           Cpp.analyze_cpp_code e code language = Ok r ->
           Cpp.complexity r = 1%Q /\ Cpp.maintainability_index r = 100%Q)
    /\ (forall e r,
           Java.analyze e code = Ok r ->
           Java.complexity r = 1%Q /\ Java.maintainability_index r = 100%Q)
    /\ (forall e available language total,
           JS._parse_eslint_output (JS._run_eslint e available)
           = Ok ([], [], total) ->
           exists r,
             JS.JavaScriptAnalyzer.analyze_code e available code language
             = Ok r
             /\ JS.complexity r = 1%Q
             /\ (JS.maintainability_index r == 100)%Q)
    /\ (forall e available language,
           JS._run_eslint e available = PNone ->
           exists r,
             JS.JavaScriptAnalyzer.analyze_code e available code language
             = Ok r
             /\ JS.complexity r = 5%Q
             /\ JS.maintainability_index r = 50%Q)
    /\ (forall e r,
           Py.analyze_python_code e code = Ok r ->
           Py.complexity r
           = Py.get_complexity (Py.run_radon_complexity e) 1%Q
           /\ Py.maintainability_index r
              = Py.get_maintainability_index (Py.run_radon_complexity e)
                                             50%Q).
Proof.
  intros code Hb.
  assert (Hcpp : forall e available language,
             Cpp.analyze e available code language
             = Ok (Cpp.mkResult language 0 [] [] 1%Q 100%Q available PNone)).
  { intros. unfold Cpp.analyze. unfold blank in Hb. rewrite Hb. reflexivity. }
  split; [exact Hcpp|]. split; [|split; [|split; [|split]]].
  - intros e language r H. unfold Cpp.analyze_cpp_code in H. inv_bind H.
    rewrite Hcpp in H. injection H as <-. split; reflexivity.
  - intros e r H. apply java_method_result in H as (_ & _ & H).
    rewrite (java_metrics_blank code Hb) in H. injection H as -> ->.
    split; reflexivity.
  - intros e available language total H.
    unfold JS.JavaScriptAnalyzer.analyze_code.
    destruct (JS._run_eslint e available) eqn:E;
      try (rewrite H; eexists; split;
           [reflexivity | split; vm_compute; reflexivity]).
    vm_compute in H. discriminate H.
  - intros e available language H.
    unfold JS.JavaScriptAnalyzer.analyze_code. rewrite H.
    eexists; repeat split.
  - intros e r H. apply py_method_result in H. tauto.
Qed.

Lemma blank_source_metrics_spaces :
  (forall e available language,
      Cpp.analyze e available "  " language
      = Ok (Cpp.mkResult language 0 [] [] 1%Q 100%Q available PNone))
  /\ (forall e language r,
         Cpp.analyze_cpp_code e "  " language = Ok r ->
         Cpp.complexity r = 1%Q /\ Cpp.maintainability_index r = 100%Q)
  /\ (forall e r,
         Java.analyze e "  " = Ok r ->
         Java.complexity r = 1%Q /\ Java.maintainability_index r = 100%Q)
  /\ (forall e available language total,
         JS._parse_eslint_output (JS._run_eslint e available)
         = Ok ([], [], total) ->
         exists r,
           JS.JavaScriptAnalyzer.analyze_code e available "  " language
           = Ok r
           /\ JS.complexity r = 1%Q
           /\ (JS.maintainability_index r == 100)%Q)
  /\ (forall e available language,
         JS._run_eslint e available = PNone ->
         exists r,
           JS.JavaScriptAnalyzer.analyze_code e available "  " language
           = Ok r
           /\ JS.complexity r = 5%Q
           /\ JS.maintainability_index r = 50%Q)
  /\ (forall e r,
         Py.analyze_python_code e "  " = Ok r ->
         Py.complexity r
         = Py.get_complexity (Py.run_radon_complexity e) 1%Q
         /\ Py.maintainability_index r
            = Py.get_maintainability_index (Py.run_radon_complexity e)
                                           50%Q).
Proof.
  apply (blank_source_metrics "  ").
  reflexivity.
Defined.

(** C3, as the specification words it, fails: without ESLint the
    JavaScript adapter answers the empty text with complexity 5.0 and
    maintainability index 50.0. *)
Lemma blank_source_without_eslint :
  ~ (forall (code : string) (r : analysis_result),
       blank code -> returns code r ->
       (complexity_of r == 1)%Q /\ (maintainability_of r == 100)%Q).
Proof.
  intro H.
  assert (Hr : exists r, JS.analyze_code js_env_absent "" "JavaScript" = Ok r
                         /\ JS.complexity r = 5%Q).
  { eexists. split; vm_compute; reflexivity. }
  destruct Hr as (r & Hr & Hc).
  destruct (H "" (JSResult r) eq_refl (ret_js _ _ _ _ Hr)) as (Hone & _).
  simpl in Hone. rewrite Hc in Hone. vm_compute in Hone. discriminate Hone.
Qed.

(* ================================================================= *)
(** * Further properties of the code *)

(** ** The scratch file of the C-family adapter *)

Lemma scaffold_has_include (code : string) :
  existsb (fun line => contains line "#include")
          (firstn 10 (split_lines (include_scaffold ++ code))) = true.
Proof. vm_compute. reflexivity. Qed.

(** X1. The text that [_create_temp_cpp_file] writes always has an include
    directive among its first ten lines and ends with the submitted source,
    unchanged; what comes before is nothing or the three standard includes
    and an empty line.  Writing it twice changes nothing more. *)
Theorem scratch_text_is_scaffolded_once :
  forall (code : string),
    existsb (fun line => contains line "#include")
            (firstn 10 (split_lines (Cpp._create_temp_cpp_file code))) = true
    /\ (Cpp._create_temp_cpp_file code = code
        \/ Cpp._create_temp_cpp_file code = include_scaffold ++ code)
    /\ Cpp._create_temp_cpp_file (Cpp._create_temp_cpp_file code)
       = Cpp._create_temp_cpp_file code.
Proof.
  intro code.
  assert (Hshape : Cpp._create_temp_cpp_file code = code
                   /\ existsb (fun line => contains line "#include")
                              (firstn 10 (split_lines code)) = true
                   \/ Cpp._create_temp_cpp_file code = include_scaffold ++ code).
  { unfold Cpp._create_temp_cpp_file.
    destruct (existsb _ (firstn 10 (split_lines code))) eqn:H.
    - left. split; reflexivity.
    - right. reflexivity. }
  assert (Hinc : existsb (fun line => contains line "#include")
                   (firstn 10 (split_lines (Cpp._create_temp_cpp_file code)))
                 = true).
  { destruct Hshape as [[-> H]| ->]; [exact H | apply scaffold_has_include]. }
  split; [exact Hinc|]. split; [tauto|].
  unfold Cpp._create_temp_cpp_file at 1. rewrite Hinc. reflexivity.
Qed.

(* ================================================================= *)
(** ** The C-family adapter and its tool *)

Lemma cpp_complexity_at_least_one (code : string) :
  (1 <= Cpp._estimate_complexity_from_code code)%Q.
Proof.
  unfold Cpp._estimate_complexity_from_code, float_of_Z.
  assert (H : forall ps acc, (1 <= acc)%Z ->
            (1 <= fold_left (fun complexity pattern =>
                               (complexity + findall_count pattern code)%Z)
                            ps acc)%Z).
  { induction ps as [|p ps IH]; intros acc Hacc; simpl; [exact Hacc|].
    apply IH. pose proof (findall_count_nonneg p code). lia. }
  specialize (H Cpp.patterns 1%Z (Z.le_refl 1)).
  match goal with
  | |- (1 <= inject_Z ?z)%Q => change (inject_Z 1 <= inject_Z z)%Q
  end.
  rewrite <- Zle_Qle. exact H.
Qed.

(** X2. Without clang-tidy the adapter answers every source text: no error,
    no warning, [total_issues] 0, the flag false, the language echoed, and a
    heuristic complexity of at least 1 with a maintainability index between
    0 and 100. *)
Theorem cpp_without_tool_reports_no_issue :
  forall (e : Cpp.env) (code language : string),
    Cpp._check_clang_tidy_availability e = Ok false ->
    exists r,
      Cpp.analyze_cpp_code e code language = Ok r
      /\ Cpp.language r = language
      /\ Cpp.errors r = [] /\ Cpp.warnings r = []
      /\ Cpp.total_issues r = 0%Z
      /\ Cpp.clang_tidy_available r = false
      /\ (1 <= Cpp.complexity r)%Q
      /\ (0 <= Cpp.maintainability_index r)%Q
      /\ (Cpp.maintainability_index r <= 100)%Q.
Proof.
  intros e code language Hprobe.
  unfold Cpp.analyze_cpp_code. rewrite Hprobe. cbn [bind].
  unfold Cpp.analyze. destruct (negb (truthy_str (strip code))).
  - eexists. split; [reflexivity|]. cbn.
    repeat split; discriminate.
  - cbn [Cpp._run_clang_tidy_analysis negb bind].
    eexists. split; [reflexivity|]. cbn.
    pose proof (cpp_maintainability_bounds code
                  (Cpp._estimate_complexity_from_code code)) as [H1 H2].
    repeat split; try assumption. apply cpp_complexity_at_least_one.
Qed.

Lemma cpp_without_tool_reports_no_issue_example :
  exists r,
    Cpp.analyze_cpp_code cpp_env_absent "while (x && y) { x--; }" "C++" = Ok r
    /\ Cpp.language r = "C++"
    /\ Cpp.errors r = [] /\ Cpp.warnings r = []
    /\ Cpp.total_issues r = 0%Z
    /\ Cpp.clang_tidy_available r = false
    /\ (1 <= Cpp.complexity r)%Q
    /\ (0 <= Cpp.maintainability_index r)%Q
    /\ (Cpp.maintainability_index r <= 100)%Q.
Proof.
  apply (cpp_without_tool_reports_no_issue
           cpp_env_absent "while (x && y) { x--; }" "C++").
  reflexivity.
Defined.

(** X3. When the first clang-tidy run does not complete, the analysis of a
    non-blank source still returns, with the heuristic metrics: a timeout
    gives exactly one warning with rule [timeout], another
    [SubprocessError] exactly one error with rule [analysis-error] that
    quotes the exception; any other exception (an [OSError], say) is not
    caught and reaches the caller. *)
Theorem cpp_first_run_failure :
  forall (e : Cpp.env) (code language : string) (ex : exn),
    ~ blank code ->
    Cpp.tidy_text e = Raise ex ->
    match kind ex with
    | TimeoutExpired =>
        exists r,
          Cpp.analyze e true code language = Ok r
          /\ Cpp.errors r = [] /\ Cpp.warnings r = [Cpp.timeout_issue]
          /\ Cpp.total_issues r = 1%Z
          /\ Cpp.complexity r = Cpp._estimate_complexity_from_code code
    | SubprocessError =>
        exists r,
          Cpp.analyze e true code language = Ok r
          /\ Cpp.errors r = [Cpp.analysis_error_issue ex]
          /\ Cpp.warnings r = []
          /\ Cpp.total_issues r = 1%Z
          /\ Cpp.complexity r = Cpp._estimate_complexity_from_code code
    | _ => Cpp.analyze e true code language = Raise ex
    end.
Proof.
  intros e code language ex Hcode Hrun.
  assert (Hnb : negb (truthy_str (strip code)) = false).
  { unfold blank in Hcode. destruct (strip code); [contradiction|reflexivity]. }
  unfold Cpp.analyze. rewrite Hnb.
  unfold Cpp._run_clang_tidy_analysis. cbn [negb]. rewrite Hrun.
  cbn [bind try_except]. unfold is_SubprocessError, is_TimeoutExpired.
  destruct (kind ex); cbn; try reflexivity;
    eexists; (split; [reflexivity|]); cbn; repeat split.
Qed.

Lemma cpp_first_run_failure_timeout :
  exists r,
    Cpp.analyze
      (Cpp.mkEnv (exit0 "") (raise TimeoutExpired "timed out after 30 seconds")
                 not_found no_yaml)
      true "int main() {}" "C++" = Ok r
    /\ Cpp.errors r = [] /\ Cpp.warnings r = [Cpp.timeout_issue]
    /\ Cpp.total_issues r = 1%Z
    /\ Cpp.complexity r = Cpp._estimate_complexity_from_code "int main() {}".
Proof.
  apply (cpp_first_run_failure
           (Cpp.mkEnv (exit0 "")
                      (raise TimeoutExpired "timed out after 30 seconds")
                      not_found no_yaml)
           "int main() {}" "C++"
           (mkExn TimeoutExpired "timed out after 30 seconds")).
  - vm_compute. discriminate.
  - reflexivity.
Defined.

(** X4. A failure of the second (YAML) run is not reported at all: when the
    first run completed without any recognised issue and the second one
    raises a [SubprocessError], a timeout included, the adapter returns no
    error and no warning. *)
Theorem cpp_second_run_failure_is_silent :
  forall (e : Cpp.env) (first : completed) (ex : exn),
    Cpp.tidy_text e = Ok first ->
    Cpp._parse_clang_tidy_output e (stdout first ++ stderr first) "text"
    = Ok ([], []) ->
    Cpp.tidy_yaml e = Raise ex ->
    is_SubprocessError ex = true ->
    Cpp._run_clang_tidy_analysis e true = Ok ([], []).
Proof.
  intros e first ex Hfirst Hparse Hyaml Hsub.
  unfold Cpp._run_clang_tidy_analysis. cbn [negb]. rewrite Hfirst.
  cbn [bind]. rewrite Hparse.
  destruct (truthy_str (stdout first) || truthy_str (stderr first))%bool;
    cbn [bind is_nil andb]; rewrite Hyaml; cbn [bind try_except];
    rewrite Hsub; reflexivity.
Qed.

Lemma cpp_second_run_failure_is_silent_timeout :
  Cpp._run_clang_tidy_analysis
    (Cpp.mkEnv (exit0 "") (exit0 "1 warning generated.")
               (raise TimeoutExpired "timed out after 30 seconds") no_yaml)
    true = Ok ([], []).
Proof.
  apply (cpp_second_run_failure_is_silent
           (Cpp.mkEnv (exit0 "") (exit0 "1 warning generated.")
                      (raise TimeoutExpired "timed out after 30 seconds")
                      no_yaml)
           (mkCompleted 0 "1 warning generated." "")
           (mkExn TimeoutExpired "timed out after 30 seconds")).
  - reflexivity.
  - vm_compute. reflexivity.
  - reflexivity.
  - reflexivity.
Defined.

(* ================================================================= *)
(** ** What the patterns capture *)

Lemma in_rmatch_seq a b st st' :
  In st' (rmatch (Seq a b) st) ->
  exists mid, In mid (rmatch a st) /\ In st' (rmatch b mid).
Proof. simpl. intro H. apply in_flat_map in H. exact H. Qed.

Lemma spans_prefix (f : ascii -> bool) (cs : list string) (s : string) :
  forall p st',
    In st' (spans f cs p s) ->
    caps st' = cs
    /\ exists pre, s = pre ++ rest st' /\ all_chars f pre = true.
Proof.
  induction s as [|c s IH]; intros p st' Hin; simpl in Hin.
  - destruct Hin as [<-|[]]. split; [reflexivity|].
    exists "". split; reflexivity.
  - destruct Hin as [<-|Hin].
    + split; [reflexivity|]. exists "". split; reflexivity.
    + destruct (f c) eqn:Hc; [|contradiction].
      apply IH in Hin as (Hcaps & pre & Hs & Hall).
      split; [exact Hcaps|]. exists (String c pre). split.
      * simpl. rewrite <- Hs. reflexivity.
      * simpl. rewrite Hc, Hall. reflexivity.
Qed.

Lemma groupless_caps (r : regex) :
  groupless r = true ->
  forall st st', In st' (rmatch r st) -> caps st' = caps st.
Proof.
  induction r as [|f|a IHa b IHb|a IHa b IHb|f lo greedy| | |a IHa];
    intros Hg st st' Hin; simpl in Hg.
  - destruct Hin as [<-|[]]; reflexivity.
  - simpl in Hin. destruct (rest st) as [|c s]; [contradiction|].
    destruct (f c); [|contradiction]. destruct Hin as [<-|[]]; reflexivity.
  - apply andb_true_iff in Hg as [Ha Hb].
    apply in_rmatch_seq in Hin as (mid & Hmid & Hin).
    rewrite (IHb Hb mid st' Hin). apply (IHa Ha st mid Hmid).
  - apply andb_true_iff in Hg as [Ha Hb]. simpl in Hin.
    apply in_app_or in Hin as [Hin|Hin]; [apply (IHa Ha)|apply (IHb Hb)];
      exact Hin.
  - simpl in Hin.
    assert (Hin' : In st' (spans f (caps st) (prev st) (rest st))).
    { destruct greedy; [apply in_rev in Hin|]; eapply In_skipn; exact Hin. }
    apply spans_prefix in Hin'. tauto.
  - simpl in Hin. destruct (xorb _ _); [|contradiction].
    destruct Hin as [<-|[]]; reflexivity.
  - simpl in Hin. destruct (prev st); [contradiction|].
    destruct Hin as [<-|[]]; reflexivity.
  - discriminate Hg.
Qed.

Lemma string_length_app (a b : string) :
  String.length (a ++ b) = (String.length a + String.length b)%nat.
Proof. induction a as [|c a IH]; simpl; [reflexivity|]. rewrite IH. reflexivity. Qed.

Lemma substring_prefix (pre r : string) :
  String.substring 0 (String.length pre) (pre ++ r) = pre.
Proof.
  induction pre as [|c pre IH]; simpl.
  - destruct r; reflexivity.
  - rewrite IH. reflexivity.
Qed.

Lemma consumed_app (pre r : string) : consumed (pre ++ r) r = pre.
Proof.
  unfold consumed. rewrite string_length_app.
  replace (String.length pre + String.length r - String.length r)%nat
    with (String.length pre) by lia.
  apply substring_prefix.
Qed.

(** A group around a pattern without groups adds one capture. *)
Lemma grp_adds_one_capture (a : regex) st st' :
  groupless a = true ->
  In st' (rmatch (Grp a) st) ->
  exists x, caps st' = (caps st ++ [x])%list.
Proof.
  intros Hg Hin. simpl in Hin. apply in_map_iff in Hin as (mid & <- & Hmid).
  simpl. rewrite (groupless_caps a Hg st mid Hmid). eexists. reflexivity.
Qed.

(** Matching only consumes: what is left never grows. *)
Lemma rmatch_rest_le (r : regex) :
  forall st st',
    In st' (rmatch r st) ->
    (String.length (rest st') <= String.length (rest st))%nat.
Proof.
  induction r as [|f|a IHa b IHb|a IHa b IHb|f lo greedy| | |a IHa];
    intros st st' Hin.
  - destruct Hin as [<-|[]]. lia.
  - simpl in Hin. destruct (rest st) as [|c s] eqn:E; [contradiction|].
    destruct (f c); [|contradiction]. destruct Hin as [<-|[]]. simpl. lia.
  - apply in_rmatch_seq in Hin as (mid & Hmid & Hin).
    apply IHa in Hmid. apply IHb in Hin. lia.
  - simpl in Hin. apply in_app_or in Hin as [Hin|Hin];
      [apply IHa|apply IHb]; exact Hin.
  - simpl in Hin.
    assert (Hin' : In st' (spans f (caps st) (prev st) (rest st))).
    { destruct greedy; [apply in_rev in Hin|]; eapply In_skipn; exact Hin. }
    apply spans_prefix in Hin' as (_ & pre & Hs & _).
    rewrite Hs, string_length_app. lia.
  - simpl in Hin. destruct (xorb _ _); [|contradiction].
    destruct Hin as [<-|[]]. lia.
  - simpl in Hin. destruct (prev st); [contradiction|].
    destruct Hin as [<-|[]]. lia.
  - simpl in Hin. apply in_map_iff in Hin as (mid & <- & Hmid).
    simpl. apply IHa. exact Hmid.
Qed.

(** The group [(\d+)] captures a non-empty string of digits, no longer than
    what was left of the subject. *)
Lemma grp_digits_capture (greedy : bool) st st' :
  In st' (rmatch (Grp (Rep isdecimal 1 greedy)) st) ->
  exists x, caps st' = (caps st ++ [x])%list /\ digits x
            /\ (String.length x <= String.length (rest st))%nat.
Proof.
  intro Hin. simpl in Hin. apply in_map_iff in Hin as (mid & <- & Hmid).
  simpl.
  assert (Htl : exists c s, rest st = String c s /\ isdecimal c = true
                            /\ In mid (spans isdecimal (caps st) (Some c) s)).
  { destruct (rest st) as [|c s]; simpl in Hmid.
    - destruct greedy; contradiction.
    - destruct (isdecimal c) eqn:Hc.
      + exists c, s. repeat split; try assumption.
        destruct greedy; [apply in_rev in Hmid|]; exact Hmid.
      + destruct greedy; contradiction. }
  destruct Htl as (c & s & Hrest & Hc & Hspan).
  apply spans_prefix in Hspan as (Hcaps & pre & Hs & Hall).
  rewrite Hcaps, Hrest, Hs.
  change (String c (pre ++ rest mid)) with (String c pre ++ rest mid).
  rewrite consumed_app. eexists. split; [reflexivity|]. split.
  - split; [discriminate|]. simpl. rewrite Hc, Hall. reflexivity.
  - rewrite string_length_app. lia.
Qed.

Lemma re_match_In (r : regex) (s : string) (cs : list string) :
  re_match r s = Some cs ->
  exists st, In st (rmatch r (mkState [] None s)) /\ caps st = cs.
Proof.
  unfold re_match. destruct (rmatch r _) as [|st l]; [discriminate|].
  intro H. injection H as <-. exists st. split; [left|]; reflexivity.
Qed.

(** Follow a match through a sequence, one element at a time. *)
Ltac walk_seq H :=
  repeat
    (let mid := fresh "mid" in
     let Hmid := fresh "Hmid" in
     apply in_rmatch_seq in H as (mid & Hmid & H)).

Ltac caps_of H :=
  first
    [ apply grp_digits_capture in H as (? & H & ? & ?)
    | apply grp_adds_one_capture in H as (? & H); [|reflexivity]
    | apply groupless_caps in H; [|reflexivity] ].

(** The states along a match of a sequence, with what is left at each. *)
Ltac rest_le H :=
  let L := fresh "L" in
  pose proof (rmatch_rest_le _ _ _ H) as L; cbn [rest] in L.

(** What a matching line of clang-tidy's text output captures. *)
Lemma clang_tidy_line_captures (line : string) (cs : list string) :
  re_match Cpp.clang_tidy_line line = Some cs ->
  exists file_path line_num col_num severity message check_name,
    cs = [file_path; line_num; col_num; severity; message; check_name]
    /\ digits line_num /\ digits col_num
    /\ (String.length line_num <= String.length line)%nat
    /\ (String.length col_num <= String.length line)%nat.
Proof.
  intro H. apply re_match_In in H as (st & H & <-).
  cbv [Cpp.clang_tidy_line seqs plus plus_lazy star star_lazy lit] in H.
  walk_seq H.
  rest_le Hmid. rest_le Hmid0. rest_le Hmid1. rest_le Hmid2. rest_le Hmid3.
  caps_of Hmid. caps_of Hmid0. caps_of Hmid1. caps_of Hmid2. caps_of Hmid3.
  caps_of Hmid4. caps_of Hmid5. caps_of Hmid6. caps_of Hmid7. caps_of Hmid8.
  caps_of Hmid9. caps_of Hmid10. caps_of Hmid11. caps_of Hmid12.
  caps_of Hmid13. caps_of H.
  rewrite H, Hmid13, Hmid12, Hmid11, Hmid10, Hmid9, Hmid8, Hmid7, Hmid6,
    Hmid5, Hmid4, Hmid3, Hmid2, Hmid1, Hmid0, Hmid.
  simpl. do 6 eexists. split; [reflexivity|].
  split; [assumption|]. split; [assumption|]. split; lia.
Qed.

(** What a matching line of Checkstyle's plain text output captures. *)
Lemma checkstyle_line_captures (line : string) (cs : list string) :
  re_match Java.checkstyle_line line = Some cs ->
  exists severity line_num col_num message rule,
    cs = [severity; line_num; col_num; message; rule]
    /\ digits line_num /\ digits col_num
    /\ (String.length line_num <= String.length line)%nat
    /\ (String.length col_num <= String.length line)%nat.
Proof.
  intro H. apply re_match_In in H as (st & H & <-).
  cbv [Java.checkstyle_line seqs plus plus_lazy star star_lazy lit] in H.
  walk_seq H.
  rest_le Hmid. rest_le Hmid0. rest_le Hmid1. rest_le Hmid2. rest_le Hmid3.
  rest_le Hmid4. rest_le Hmid5. rest_le Hmid6. rest_le Hmid7.
  caps_of Hmid. caps_of Hmid0. caps_of Hmid1. caps_of Hmid2. caps_of Hmid3.
  caps_of Hmid4. caps_of Hmid5. caps_of Hmid6. caps_of Hmid7. caps_of Hmid8.
  caps_of Hmid9. caps_of Hmid10. caps_of Hmid11. caps_of Hmid12.
  caps_of Hmid13. caps_of H.
  rewrite H, Hmid13, Hmid12, Hmid11, Hmid10, Hmid9, Hmid8, Hmid7, Hmid6,
    Hmid5, Hmid4, Hmid3, Hmid2, Hmid1, Hmid0, Hmid.
  simpl. do 5 eexists. split; [reflexivity|].
  split; [assumption|]. split; [assumption|]. split; lia.
Qed.

(* ================================================================= *)
(** ** Integers read from text *)

Lemma isdecimal_not_space (c : ascii) : isdecimal c = true -> isspace c = false.
Proof.
  unfold isdecimal, isspace, in_range, code_is. intro H.
  apply andb_true_iff in H as [H1 H2].
  apply N.leb_le in H1. apply N.leb_le in H2.
  repeat (apply orb_false_iff; split);
    try (apply andb_false_iff;
         destruct (N.leb_spec 9 (code c)), (N.leb_spec (code c) 13),
           (N.leb_spec 28 (code c)), (N.leb_spec (code c) 32);
         try (left; reflexivity); try (right; reflexivity); lia);
    apply N.eqb_neq; lia.
Qed.

Lemma isdecimal_not_sign (c : ascii) :
  isdecimal c = true -> code_is 45 c = false /\ code_is 43 c = false.
Proof.
  unfold isdecimal, in_range, code_is. intro H.
  apply andb_true_iff in H as [H1 H2].
  apply N.leb_le in H1. apply N.leb_le in H2.
  split; apply N.eqb_neq; lia.
Qed.

Lemma isdecimal_not_int_space (c : ascii) :
  isdecimal c = true -> int_space c = false.
Proof.
  intro H. unfold int_space. rewrite (isdecimal_not_space c H). reflexivity.
Qed.

Lemma int_rstrip_digits (s : string) :
  all_chars isdecimal s = true -> int_rstrip s = s.
Proof.
  induction s as [|c s IH]; intro H; [reflexivity|].
  simpl in H. apply andb_true_iff in H as [Hc Hs].
  simpl. rewrite (IH Hs). destruct s; [|reflexivity].
  rewrite (isdecimal_not_int_space c Hc). reflexivity.
Qed.

Lemma int_strip_digits (s : string) :
  digits s -> int_rstrip (int_lstrip s) = s.
Proof.
  intros [Hne Hall].
  destruct s as [|c s]; [contradiction|].
  pose proof Hall as Hall'. simpl in Hall'.
  apply andb_true_iff in Hall' as [Hc _].
  simpl int_lstrip. rewrite (isdecimal_not_int_space c Hc).
  apply int_rstrip_digits. exact Hall.
Qed.

Lemma digits_value_all (s : string) :
  all_chars isdecimal s = true ->
  forall acc, (0 <= acc)%Z ->
              exists v, digits_value acc s = Some v /\ (0 <= v)%Z.
Proof.
  induction s as [|c s IH]; intros H acc Hacc.
  - exists acc. split; [reflexivity|exact Hacc].
  - simpl in H. apply andb_true_iff in H as [Hc Hs].
    cbn [digits_value]. rewrite Hc. apply IH; [exact Hs|].
    pose proof (N2Z.is_nonneg (code c - 48)). lia.
Qed.

Lemma digit_run_all (s : string) :
  all_chars isdecimal s = true -> digit_run s = (s, "").
Proof.
  induction s as [|c s IH]; intro H; [reflexivity|].
  simpl in H. apply andb_true_iff in H as [Hc Hs].
  cbn [digit_run]. rewrite Hc, (IH Hs). reflexivity.
Qed.

Lemma count_chars_all (f : ascii -> bool) (s : string) :
  all_chars f s = true -> count_chars f s = Z.of_nat (String.length s).
Proof.
  induction s as [|c s IH]; intro H; [reflexivity|].
  simpl in H. apply andb_true_iff in H as [Hc Hs].
  cbn [count_chars String.length]. rewrite Hc, (IH Hs). lia.
Qed.

(** [int] accepts every non-empty string of at most 4300 digits. *)
Lemma int_of_str_digits (s : string) :
  digits s ->
  (String.length s <= 4300)%nat ->
  exists z, int_of_str s = Ok z /\ (0 <= z)%Z.
Proof.
  intros Hd Hlen. unfold int_of_str. rewrite (int_strip_digits s Hd).
  destruct Hd as [Hne Hall]. destruct s as [|c s]; [contradiction|].
  pose proof Hall as Hall'. simpl in Hall'.
  apply andb_true_iff in Hall' as [Hc _].
  destruct (isdecimal_not_sign c Hc) as [-> ->]. rewrite Hc.
  rewrite (digit_run_all _ Hall).
  destruct (digits_value_all (String c s) Hall 0%Z (Z.le_refl 0))
    as (v & -> & Hv).
  rewrite (count_chars_all _ _ Hall).
  replace (int_max_str_digits <? Z.of_nat (String.length (String c s)))%Z
    with false
    by (symmetry; apply Z.ltb_ge; unfold int_max_str_digits; lia).
  exists (1 * v)%Z. split; [reflexivity|lia].
Qed.

(** [int] refuses every string of more than 4300 digits. *)
Lemma int_of_str_beyond_limit (s : string) :
  digits s ->
  (4300 < String.length s)%nat ->
  exists ex, int_of_str s = Raise ex /\ kind ex = ValueError.
Proof.
  intros Hd Hlen. unfold int_of_str. rewrite (int_strip_digits s Hd).
  destruct Hd as [Hne Hall]. destruct s as [|c s]; [contradiction|].
  pose proof Hall as Hall'. simpl in Hall'.
  apply andb_true_iff in Hall' as [Hc _].
  destruct (isdecimal_not_sign c Hc) as [-> ->]. rewrite Hc.
  rewrite (digit_run_all _ Hall).
  destruct (digits_value_all (String c s) Hall 0%Z (Z.le_refl 0))
    as (v & -> & Hv).
  rewrite (count_chars_all _ _ Hall).
  replace (int_max_str_digits <? Z.of_nat (String.length (String c s)))%Z
    with true
    by (symmetry; apply Z.ltb_lt; unfold int_max_str_digits; lia).
  eexists. split; reflexivity.
Qed.

(** The only exception of [int] on a string is a [ValueError]. *)
Lemma int_of_str_raises_ValueError (s : string) (ex : exn) :
  int_of_str s = Raise ex -> kind ex = ValueError.
Proof.
  unfold int_of_str.
  destruct (match int_rstrip (int_lstrip s) with
            | String c t' =>
                if code_is 45 c then ((-1)%Z, t')
                else if code_is 43 c
                     then (1%Z, t') else (1%Z, int_rstrip (int_lstrip s))
            | EmptyString => (1%Z, int_rstrip (int_lstrip s))
            end) as [sign body].
  destruct body as [|c body]; [intro H; injection H as <-; reflexivity|].
  destruct (isdecimal c); [|intro H; injection H as <-; reflexivity].
  destruct (digit_run (String c body)) as [run after].
  destruct (digits_value 0 run);
    [|intro H; injection H as <-; reflexivity].
  destruct (_ <? _)%Z; [intro H; injection H as <-; reflexivity|].
  destruct (is_empty after);
    [discriminate | intro H; injection H as <-; reflexivity].
Qed.

(* ================================================================= *)
(** ** When the line parsers fail *)

(** A loop whose every step succeeds and moves a counted invariant on by
    one succeeds, with the invariant moved on by the number of steps. *)
Lemma foldM_counted_on {A B : Type} (R : A -> Prop) (P : B -> nat -> Prop)
      (body : B -> A -> res B) :
  (forall acc n x,
      R x -> P acc n -> exists acc', body acc x = Ok acc' /\ P acc' (S n)) ->
  forall xs acc n,
    Forall R xs ->
    P acc n ->
    exists acc', foldM body xs acc = Ok acc' /\ P acc' (n + List.length xs)%nat.
Proof.
  intros Hstep xs. induction xs as [|x xs IH]; intros acc n HR Hacc; simpl.
  - exists acc. split; [reflexivity|]. rewrite Nat.add_0_r. exact Hacc.
  - inversion HR as [|? ? Hx Hxs]; subst.
    destruct (Hstep acc n x Hx Hacc) as (acc1 & -> & H1). cbn [bind].
    destruct (IH acc1 (S n) Hxs H1) as (acc' & -> & H').
    exists acc'. split; [reflexivity|].
    replace (n + S (List.length xs))%nat with (S n + List.length xs)%nat by lia.
    exact H'.
Qed.

Lemma foldM_counted {A B : Type} (P : B -> nat -> Prop)
      (body : B -> A -> res B) :
  (forall acc n x, P acc n -> exists acc', body acc x = Ok acc' /\ P acc' (S n)) ->
  forall xs acc n,
    P acc n ->
    exists acc', foldM body xs acc = Ok acc' /\ P acc' (n + List.length xs)%nat.
Proof.
  intros Hstep xs acc n Hacc.
  apply (foldM_counted_on (fun _ => True) P body); auto.
  clear. induction xs; constructor; auto.
Qed.

Lemma short_lines_Forall (output : string) :
  short_lines output = true ->
  Forall (fun line => (String.length line <= 4300)%nat) (split_lines output).
Proof.
  unfold short_lines. intro H. apply Forall_forall. intros line Hin.
  apply Nat.leb_le. revert line Hin. apply forallb_forall. exact H.
Qed.

Lemma issue_count_snoc_l errors warnings i :
  issue_count ((errors ++ [i])%list, warnings)
  = S (issue_count (errors, warnings)).
Proof. unfold issue_count. simpl. rewrite length_app. simpl. lia. Qed.

Lemma issue_count_snoc_r errors warnings i :
  issue_count (errors, (warnings ++ [i])%list)
  = S (issue_count (errors, warnings)).
Proof. unfold issue_count. simpl. rewrite length_app. simpl. lia. Qed.

Lemma cpp_text_line_step acc n line :
  (String.length line <= 4300)%nat ->
  (issue_count acc <= n)%nat
  /\ Forall (has_severity "error") (fst acc)
  /\ Forall (has_severity "warning") (snd acc) ->
  exists acc',
    Cpp.text_line acc line = Ok acc'
    /\ (issue_count acc' <= S n)%nat
    /\ Forall (has_severity "error") (fst acc')
    /\ Forall (has_severity "warning") (snd acc').
Proof.
  destruct acc as [errors warnings]. simpl. intros Hshort (Hn & He & Hw).
  unfold Cpp.text_line.
  destruct (re_match Cpp.clang_tidy_line line) as [cs|] eqn:Hm.
  - destruct (clang_tidy_line_captures line cs Hm)
      as (fp & ln & cn & sev & msg & chk & -> & Hln & Hcn & Lln & Lcn).
    destruct (int_of_str_digits ln Hln) as (l & -> & _); [lia|].
    destruct (int_of_str_digits cn Hcn) as (c & -> & _); [lia|].
    cbn [bind]. unfold str_in. cbn [existsb].
    destruct (String.eqb_spec (lower sev) "error") as [->|_]; cbn [orb].
    + eexists. split; [reflexivity|]. rewrite issue_count_snoc_l.
      simpl. repeat split; [lia| |exact Hw].
      apply Forall_app. split; [exact He|]. constructor; [reflexivity|constructor].
    + destruct (String.eqb_spec (lower sev) "warning") as [->|_].
      * eexists. split; [reflexivity|]. rewrite issue_count_snoc_r.
        simpl. repeat split; [lia|exact He|].
        apply Forall_app. split; [exact Hw|].
        constructor; [reflexivity|constructor].
      * eexists. split; [reflexivity|]. simpl. repeat split; auto.
  - eexists. split; [reflexivity|]. simpl. repeat split; auto.
Qed.

Lemma cpp_text_line_raises acc line ex :
  Cpp.text_line acc line = Raise ex -> kind ex = ValueError.
Proof.
  destruct acc as [errors warnings]. unfold Cpp.text_line.
  destruct (re_match Cpp.clang_tidy_line line) as [cs|] eqn:Hm;
    [|discriminate].
  destruct (clang_tidy_line_captures line cs Hm)
    as (fp & ln & cn & sev & msg & chk & -> & _).
  destruct (int_of_str ln) as [l|ex1] eqn:E1; cbn [bind].
  - destruct (int_of_str cn) as [c|ex2] eqn:E2; cbn [bind].
    + destruct (str_in _ _); [discriminate|].
      destruct (str_in _ _); discriminate.
    + intro H. injection H as <-.
      eapply int_of_str_raises_ValueError. exact E2.
  - intro H. injection H as <-.
    eapply int_of_str_raises_ValueError. exact E1.
Qed.

(** X5. The text parser of the C-family adapter fails in one way only.
    The groups matched by [(\d+)] always are digits, so [int] can only
    refuse them for their length: on an output whose lines have at most
    4300 characters the parser returns, with at most one issue per line,
    every issue among the errors of severity [error] and every issue among
    the warnings of severity [warning]; and whatever the output, the only
    exception is the [ValueError] of [int]. *)
Theorem cpp_text_parser_fails_only_on_huge_numbers :
  forall (e : Cpp.env) (output : string),
    (forall ex,
        Cpp._parse_clang_tidy_output e output "text" = Raise ex ->
        kind ex = ValueError)
    /\ (short_lines output = true ->
        exists errors warnings,
          Cpp._parse_clang_tidy_output e output "text" = Ok (errors, warnings)
          /\ (List.length errors + List.length warnings
              <= List.length (split_lines output))%nat
          /\ Forall (has_severity "error") errors
          /\ Forall (has_severity "warning") warnings).
Proof.
  intros e output. unfold Cpp._parse_clang_tidy_output.
  change (String.eqb "text" "yaml") with false. cbn [bind is_nil andb].
  split.
  - apply (foldM_raise (fun ex => kind ex = ValueError)).
    intros acc x ex. apply cpp_text_line_raises.
  - intro Hshort. apply short_lines_Forall in Hshort.
    destruct (foldM_counted_on
                (fun line => (String.length line <= 4300)%nat)
                (fun acc n =>
                   (issue_count acc <= n)%nat
                   /\ Forall (has_severity "error") (fst acc)
                   /\ Forall (has_severity "warning") (snd acc))
                Cpp.text_line
                (fun acc n x Hx H => cpp_text_line_step acc n x Hx H)
                (split_lines output) ([], []) 0%nat Hshort)
      as ([errors warnings] & Hrun & Hn & He & Hw).
    { simpl. repeat split; auto. }
    exists errors, warnings. split; [exact Hrun|].
    unfold issue_count in Hn. simpl in *. repeat split; assumption.
Qed.

Lemma cpp_text_parser_fails_only_on_huge_numbers_example :
  exists errors warnings,
    Cpp._parse_clang_tidy_output cpp_env_absent clang_tidy_report "text"
    = Ok (errors, warnings)
    /\ (List.length errors + List.length warnings
        <= List.length (split_lines clang_tidy_report))%nat
    /\ Forall (has_severity "error") errors
    /\ Forall (has_severity "warning") warnings.
Proof.
  apply (proj2 (cpp_text_parser_fails_only_on_huge_numbers
                  cpp_env_absent clang_tidy_report)).
  reflexivity.
Defined.

Lemma lstrip_length (s : string) :
  (String.length (lstrip s) <= String.length s)%nat.
Proof.
  induction s as [|c s IH]; simpl; [lia|].
  destruct (isspace c); simpl; lia.
Qed.

Lemma rstrip_length (s : string) :
  (String.length (rstrip s) <= String.length s)%nat.
Proof.
  induction s as [|c s IH]; simpl; [lia|].
  destruct (rstrip s); [destruct (isspace c)|]; simpl in *; lia.
Qed.

Lemma strip_length (s : string) :
  (String.length (strip s) <= String.length s)%nat.
Proof.
  unfold strip. pose proof (rstrip_length (lstrip s)).
  pose proof (lstrip_length s). lia.
Qed.

Lemma java_text_line_step acc n line :
  (String.length line <= 4300)%nat ->
  (issue_count acc <= n)%nat ->
  exists acc', Java.text_line acc line = Ok acc' /\ (issue_count acc' <= S n)%nat.
Proof.
  destruct acc as [errors warnings]. intros Hshort Hn. unfold Java.text_line.
  destruct (_ || _ || _)%bool.
  - eexists. split; [reflexivity|]. lia.
  - destruct (re_match Java.checkstyle_line (strip line)) as [cs|] eqn:Hm.
    + destruct (checkstyle_line_captures _ cs Hm)
        as (sev & ln & cn & msg & rule & -> & Hln & Hcn & Lln & Lcn).
      pose proof (strip_length line) as Hstrip.
      destruct (int_of_str_digits ln Hln) as (l & -> & _); [lia|].
      destruct (int_of_str_digits cn Hcn) as (c & -> & _); [lia|].
      cbn [bind].
      destruct (String.eqb (lower sev) "error");
        eexists; (split; [reflexivity|]);
        [rewrite issue_count_snoc_l | rewrite issue_count_snoc_r]; lia.
    + eexists. split; [reflexivity|]. lia.
Qed.

Lemma java_text_line_raises acc line ex :
  Java.text_line acc line = Raise ex -> kind ex = ValueError.
Proof.
  destruct acc as [errors warnings]. unfold Java.text_line.
  destruct (_ || _ || _)%bool; [discriminate|].
  destruct (re_match Java.checkstyle_line (strip line)) as [cs|] eqn:Hm;
    [|discriminate].
  destruct (checkstyle_line_captures _ cs Hm)
    as (sev & ln & cn & msg & rule & -> & _).
  destruct (int_of_str ln) as [l|ex1] eqn:E1; cbn [bind].
  - destruct (int_of_str cn) as [c|ex2] eqn:E2; cbn [bind].
    + destruct (String.eqb _ _); discriminate.
    + intro H. injection H as <-.
      eapply int_of_str_raises_ValueError. exact E2.
  - intro H. injection H as <-.
    eapply int_of_str_raises_ValueError. exact E1.
Qed.

(** X6. The plain-text fallback parser of the Java adapter fails in the
    same single way: on a text whose lines have at most 4300 characters it
    returns, with at most one issue per line, and whatever the text its
    only exception is the [ValueError] of [int] on a number of more than
    4300 digits. *)
Theorem java_text_parser_fails_only_on_huge_numbers :
  forall (text_output : string),
    (forall ex,
        Java._parse_checkstyle_text text_output = Raise ex ->
        kind ex = ValueError)
    /\ (short_lines text_output = true ->
        exists errors warnings,
          Java._parse_checkstyle_text text_output = Ok (errors, warnings)
          /\ (List.length errors + List.length warnings
              <= List.length (split_lines text_output))%nat).
Proof.
  intro text_output. unfold Java._parse_checkstyle_text. split.
  - apply (foldM_raise (fun ex => kind ex = ValueError)).
    intros acc x ex. apply java_text_line_raises.
  - intro Hshort. apply short_lines_Forall in Hshort.
    destruct (foldM_counted_on
                (fun line => (String.length line <= 4300)%nat)
                (fun acc n => (issue_count acc <= n)%nat)
                Java.text_line
                (fun acc n x Hx H => java_text_line_step acc n x Hx H)
                (split_lines text_output) ([], []) 0%nat Hshort)
      as ([errors warnings] & Hrun & Hn).
    { unfold issue_count. simpl. lia. }
    exists errors, warnings. split; [exact Hrun|exact Hn].
Qed.

Lemma java_text_parser_fails_only_on_huge_numbers_example :
  exists errors warnings,
    Java._parse_checkstyle_text checkstyle_text = Ok (errors, warnings)
    /\ (List.length errors + List.length warnings
        <= List.length (split_lines checkstyle_text))%nat.
Proof.
  apply (proj2 (java_text_parser_fails_only_on_huge_numbers checkstyle_text)).
  reflexivity.
Defined.

Lemma pylint_text_line_step issues n line :
  (List.length issues <= n)%nat ->
  exists issues',
    Py.pylint_text_line issues line = Ok issues'
    /\ (List.length issues' <= S n)%nat.
Proof.
  intro Hn. unfold Py.pylint_text_line.
  destruct (_ && _)%bool; [|exists issues; split; [reflexivity|lia]].
  destruct (Z.leb 4 _); [|exists issues; split; [reflexivity|lia]].
  assert (Hint : forall (p : string) (d : Z),
             (exists z, (if isdigit p then int_of_str p else Ok d) = Ok z)
             \/ (exists ex, (if isdigit p then int_of_str p else Ok d) = Raise ex
                            /\ kind ex = ValueError)).
  { intros p d. destruct (isdigit p); [|left; eexists; reflexivity].
    destruct (int_of_str p) as [z|ex] eqn:E.
    - left. eexists. reflexivity.
    - right. exists ex. split; [reflexivity|].
      eapply int_of_str_raises_ValueError. exact E. }
  destruct (Hint (nth 1 (split_char_max ":" 4 line) "") 1%Z)
    as [(l & ->)|(ex & -> & Hk)].
  - destruct (Hint (nth 2 (split_char_max ":" 4 line) "") 0%Z)
      as [(c & ->)|(ex & -> & Hk)].
    + cbn [bind try_except]. eexists. split; [reflexivity|].
      rewrite length_app. simpl. lia.
    + cbn [bind try_except]. rewrite Hk.
      exists issues. split; [reflexivity|lia].
  - cbn [bind try_except]. rewrite Hk.
    exists issues. split; [reflexivity|lia].
Qed.

(** X7. The text fallback of the pylint parser never raises: a line whose
    number passes [isdigit] but not [int] is skipped.  It returns at most
    one issue per line. *)
Theorem pylint_text_parser_never_raises :
  forall (output : string),
    exists issues,
      Py._parse_pylint_text output = Ok issues
      /\ (List.length issues <= List.length (split_lines output))%nat.
Proof.
  intro output. unfold Py._parse_pylint_text.
  destruct (foldM_counted (fun issues n => (List.length issues <= n)%nat)
              Py.pylint_text_line pylint_text_line_step
              (split_lines output) [] 0%nat)
    as (issues & Hrun & Hn); [simpl; lia|].
  exists issues. split; [exact Hrun|exact Hn].
Qed.

(* ================================================================= *)
(** ** The Java adapter and its tool *)

(** X8. Checkstyle is optional in every way: when the probe says it is not
    there, when its run raises anything at all (a timeout, a missing
    executable, any other exception), or when it exits with a code other
    than 0 and 1, [analyze] returns exactly the basic analysis of the
    source. *)
Theorem java_falls_back_to_basic_analysis :
  forall (e : Java.env) (code : string) (available : bool),
    Java._check_checkstyle_availability e = Ok available ->
    (available = false
     \/ (exists ex, Java.checkstyle e = Raise ex)
     \/ (exists c, Java.checkstyle e = Ok c
                   /\ returncode c <> 0%Z /\ returncode c <> 1%Z)) ->
    Java.analyze e code = Ok (Java._basic_java_analysis code).
Proof.
  intros e code available Hprobe H.
  unfold Java.analyze. rewrite Hprobe. cbn [bind].
  destruct available; cbn [negb]; [|reflexivity].
  destruct H as [H|[(ex & H)|(c & H & H0 & H1)]]; [discriminate H| |].
  - unfold Java._run_checkstyle_analysis. rewrite H. cbn [bind try_except].
    destruct (is_TimeoutExpired ex || is_FileNotFoundError ex)%bool;
      [destruct (is_TimeoutExpired ex)|]; reflexivity.
  - unfold Java._run_checkstyle_analysis. rewrite H. cbn [bind].
    apply Z.eqb_neq in H0. apply Z.eqb_neq in H1. rewrite H0, H1.
    reflexivity.
Qed.

Lemma java_falls_back_to_basic_analysis_exit_2 :
  Java.analyze
    (Java.mkEnv (exit0 "Checkstyle version: 10.12")
                (Ok (mkCompleted 2 "" "Unable to create Root Module"))
                no_xml)
    "class A { }"
  = Ok (Java._basic_java_analysis "class A { }").
Proof.
  apply (java_falls_back_to_basic_analysis
           (Java.mkEnv (exit0 "Checkstyle version: 10.12")
                       (Ok (mkCompleted 2 "" "Unable to create Root Module"))
                       no_xml)
           "class A { }" true).
  - reflexivity.
  - right. right. eexists. split; [reflexivity|]. split; discriminate.
Defined.

Lemma java_basic_language (code : string) :
  Java.language (Java._basic_java_analysis code) = "Java".
Proof.
  unfold Java._basic_java_analysis.
  destruct (Java.basic_lines _ _ _), (Java._calculate_complexity_metrics code).
  reflexivity.
Qed.

Lemma java_complexity_at_least_one (code : string) :
  (1 <= fst (Java._calculate_complexity_metrics code))%Q.
Proof.
  unfold Java._calculate_complexity_metrics. cbv zeta. cbn [fst].
  unfold float_of_Z.
  match goal with
  | |- (1 <= inject_Z ?z)%Q => change (inject_Z 1 <= inject_Z z)%Q
  end.
  rewrite <- Zle_Qle.
  pose proof (findall_count_nonneg Java.re_if code).
  pose proof (findall_count_nonneg Java.re_while code).
  pose proof (findall_count_nonneg Java.re_for code).
  pose proof (findall_count_nonneg Java.re_switch code).
  pose proof (findall_count_nonneg Java.re_catch code).
  pose proof (findall_count_nonneg Java.re_ternary code).
  lia.
Qed.

(** X9. The metrics of the Java adapter never depend on Checkstyle: every
    result of [analyze] carries the complexity and maintainability index
    that [_calculate_complexity_metrics] computes from the source text, a
    complexity of at least 1, and the language label "Java" whatever label
    the caller used. *)
Theorem java_metrics_come_from_the_source :
  forall (e : Java.env) (code language : string) (r : Java.JavaAnalysisResult),
    Java.analyze_java_code e code language = Ok r ->
    Java.language r = "Java"
    /\ Java.complexity r = fst (Java._calculate_complexity_metrics code)
    /\ Java.maintainability_index r
       = snd (Java._calculate_complexity_metrics code)
    /\ (1 <= Java.complexity r)%Q.
Proof.
  intros e code language r H. unfold Java.analyze_java_code in H.
  pose proof (java_method_result e code r H) as (_ & _ & Hm).
  assert (Hl : Java.language r = "Java").
  { unfold Java.analyze in H. inv_bind H. destruct (negb a).
    - injection H as <-. apply java_basic_language.
    - apply try_except_Ok in H as [H|(ex & _ & _ & H)].
      + inv_bind H. inv_bind H. destruct a1.
        destruct (Java._calculate_complexity_metrics code).
        injection H as <-. reflexivity.
      + injection H as <-. apply java_basic_language. }
  split; [exact Hl|].
  pose proof (java_complexity_at_least_one code) as Hc.
  rewrite <- Hm in *. cbn [fst snd] in *. repeat split. exact Hc.
Qed.

Lemma java_metrics_come_from_the_source_example :
  Java.language (Java._basic_java_analysis "if (a) { b(); }") = "Java"
  /\ Java.complexity (Java._basic_java_analysis "if (a) { b(); }")
     = fst (Java._calculate_complexity_metrics "if (a) { b(); }")
  /\ Java.maintainability_index (Java._basic_java_analysis "if (a) { b(); }")
     = snd (Java._calculate_complexity_metrics "if (a) { b(); }")
  /\ (1 <= Java.complexity (Java._basic_java_analysis "if (a) { b(); }"))%Q.
Proof.
  apply (java_metrics_come_from_the_source
           java_env_absent "if (a) { b(); }" "JAVA").
  vm_compute. reflexivity.
Defined.

(* ================================================================= *)
(** ** Rule names *)

Lemma split_char_parts (sep : ascii) (s : string) :
  Forall (fun w => all_chars (not_char sep) w = true) (split_char sep s).
Proof.
  induction s as [|c s IH]; simpl.
  - constructor; [reflexivity|constructor].
  - destruct (Ascii.eqb c sep) eqn:Hc.
    + constructor; [reflexivity|exact IH].
    + destruct (split_char sep s) as [|w ws].
      * constructor; [|constructor]. simpl. unfold not_char. rewrite Hc.
        reflexivity.
      * inversion IH; subst. constructor; [|assumption].
        simpl. unfold not_char at 1. rewrite Hc. assumption.
Qed.

Lemma split_char_nonempty (sep : ascii) (s : string) : split_char sep s <> [].
Proof.
  destruct s as [|c s]; simpl; [discriminate|].
  destruct (Ascii.eqb c sep); [discriminate|].
  destruct (split_char sep s); discriminate.
Qed.

Lemma last_In {A : Type} (l : list A) (d : A) : l <> [] -> In (last l d) l.
Proof.
  induction l as [|x l IH]; intro H; [contradiction|].
  destruct l as [|y l]; [left; reflexivity|].
  right. apply IH. discriminate.
Qed.

Lemma contains_char_false (x : ascii) (w : string) :
  all_chars (not_char x) w = true -> contains w (String x "") = false.
Proof.
  induction w as [|c w IH]; intro H; [reflexivity|].
  simpl in H. apply andb_true_iff in H as [Hc Hw].
  simpl. destruct (ascii_dec x c) as [->|_].
  - unfold not_char in Hc. rewrite Ascii.eqb_refl in Hc. discriminate Hc.
  - apply IH. exact Hw.
Qed.

(** Joining the parts of a split with the separator gives the string
    back. *)
Lemma concat_split_char (sep : ascii) (s : string) :
  String.concat (String sep "") (split_char sep s) = s.
Proof.
  induction s as [|c s IH]; [reflexivity|].
  pose proof (split_char_nonempty sep s) as Hne.
  simpl split_char. destruct (Ascii.eqb_spec c sep) as [->|_].
  - destruct (split_char sep s) as [|w ws]; [contradiction|].
    cbn [String.concat] in *. rewrite IH. reflexivity.
  - destruct (split_char sep s) as [|w ws]; [contradiction|].
    destruct ws as [|w' ws].
    + cbn [String.concat] in *. rewrite IH. reflexivity.
    + change (String.concat (String sep "") (String c w :: w' :: ws))
        with (String c (String.concat (String sep "") (w :: w' :: ws))).
      rewrite IH. reflexivity.
Qed.

Lemma string_app_assoc (a b c : string) : (a ++ b) ++ c = a ++ (b ++ c).
Proof. induction a as [|x a IH]; simpl; [reflexivity|]. rewrite IH. reflexivity. Qed.

Lemma last_is_suffix_of_concat (sep : string) (l : list string) (d : string) :
  l <> [] -> exists pre, String.concat sep l = pre ++ last l d.
Proof.
  induction l as [|x l IH]; intro H; [contradiction|].
  destruct l as [|y l].
  - exists "". reflexivity.
  - destruct IH as (pre & IH); [discriminate|].
    exists (x ++ sep ++ pre).
    change (String.concat sep (x :: y :: l))
      with (x ++ sep ++ String.concat sep (y :: l)).
    change (last (x :: y :: l) d) with (last (y :: l) d).
    rewrite IH, !string_app_assoc. reflexivity.
Qed.

Lemma last_split_is_suffix (sep : ascii) (s d : string) :
  exists pre, s = pre ++ last (split_char sep s) d.
Proof.
  destruct (last_is_suffix_of_concat (String sep "") (split_char sep s) d
                                     (split_char_nonempty sep s))
    as (pre & H).
  rewrite concat_split_char in H. exists pre. exact H.
Qed.

(** X10. [_extract_rule_name] never returns a name with a dot in it: for the
    empty source it answers "unknown", otherwise the end of the source after
    its last dot. *)
Theorem rule_name_has_no_dot :
  forall (source : string),
    contains (Java._extract_rule_name source) "." = false
    /\ (source = "" -> Java._extract_rule_name source = "unknown")
    /\ (source <> "" ->
        exists pre, source = pre ++ Java._extract_rule_name source).
Proof.
  intro source. unfold Java._extract_rule_name.
  destruct source as [|c s].
  { split; [reflexivity|]. split; [reflexivity|]. intro H. contradiction. }
  cbn [truthy_str is_empty negb].
  split; [|split; [discriminate|intros _; apply last_split_is_suffix]].
  apply contains_char_false.
  pose proof (split_char_parts "." (String c s)) as Hparts.
  pose proof (last_In (split_char "." (String c s)) (String c s)
                      (split_char_nonempty "." (String c s))) as Hin.
  rewrite Forall_forall in Hparts. apply Hparts. exact Hin.
Qed.

(* ================================================================= *)
(** ** The basic analysis of the Java adapter *)

Lemma basic_line_skips_comment acc i line :
  comment_or_blank line -> Java.basic_line acc i line = acc.
Proof.
  destruct acc as [errors warnings]. unfold Java.basic_line.
  intros [H|H]; rewrite H; [reflexivity|].
  rewrite andb_false_r. reflexivity.
Qed.

Lemma basic_lines_skip_comments lines :
  Forall comment_or_blank lines ->
  forall acc i, Java.basic_lines acc i lines = acc.
Proof.
  induction 1 as [|line lines Hl _ IH]; intros acc i; simpl; [reflexivity|].
  rewrite (basic_line_skips_comment acc i line Hl). apply IH.
Qed.

(** X11. A Java source whose every line is blank or a [//] comment gets a
    clean basic analysis: no error, no warning, and a maintainability index
    of exactly 100, even when the comments contain code. *)
Theorem java_comments_are_clean :
  forall (code : string),
    Forall comment_or_blank (split_lines code) ->
    Java.errors (Java._basic_java_analysis code) = []
    /\ Java.warnings (Java._basic_java_analysis code) = []
    /\ Java.total_issues (Java._basic_java_analysis code) = 0%Z
    /\ Java.maintainability_index (Java._basic_java_analysis code) = 100%Q.
Proof.
  intros code H.
  assert (Hm : snd (Java._calculate_complexity_metrics code) = 100%Q).
  { unfold Java._calculate_complexity_metrics. cbv zeta. cbn [snd].
    unfold count_if. rewrite filter_none; [reflexivity|].
    induction H as [|line lines [Hl|Hl] _ IH]; constructor; auto;
      rewrite Hl; [reflexivity|apply andb_false_r]. }
  unfold Java._basic_java_analysis.
  rewrite (basic_lines_skip_comments _ H).
  destruct (Java._calculate_complexity_metrics code) as [c m].
  cbn in *. subst m. repeat split.
Qed.

Lemma java_comments_are_clean_example :
  Java.errors (Java._basic_java_analysis java_comments_only) = []
  /\ Java.warnings (Java._basic_java_analysis java_comments_only) = []
  /\ Java.total_issues (Java._basic_java_analysis java_comments_only) = 0%Z
  /\ Java.maintainability_index (Java._basic_java_analysis java_comments_only)
     = 100%Q.
Proof.
  apply (java_comments_are_clean java_comments_only).
  match goal with
  | |- Forall _ ?l =>
      let l' := eval vm_compute in l in change (Forall comment_or_blank l')
  end.
  apply Forall_cons; [right; reflexivity|].
  apply Forall_cons; [left; reflexivity|].
  apply Forall_cons; [right; reflexivity|].
  apply Forall_nil.
Defined.

Lemma issue_line_in_widen lo hi hi' issue :
  (hi <= hi')%Z -> issue_line_in lo hi issue -> issue_line_in lo hi' issue.
Proof. intros Hle (i & Hi & Hr). exists i. split; [exact Hi|lia]. Qed.

Lemma mk_issue_line (i c : Z) (sev msg src sym : string) (lo hi : Z) :
  (lo <= i <= hi)%Z -> issue_line_in lo hi (Java.mk_issue i c sev msg src sym).
Proof. intro H. exists i. split; [reflexivity|exact H]. Qed.

Lemma basic_line_keeps_lines acc i line hi :
  (1 <= i <= hi)%Z ->
  Forall (issue_line_in 1 hi) (fst acc)
  /\ Forall (issue_line_in 1 hi) (snd acc) ->
  Forall (issue_line_in 1 hi) (fst (Java.basic_line acc i line))
  /\ Forall (issue_line_in 1 hi) (snd (Java.basic_line acc i line)).
Proof.
  destruct acc as [errors warnings]. simpl. intros Hi [He Hw].
  unfold Java.basic_line.
  repeat match goal with
         | |- context [if ?c then _ else _] => destruct c
         | |- context [match re_match ?r ?l with _ => _ end] =>
             destruct (re_match r l)
         end;
    simpl; split;
    repeat (apply Forall_app; split);
    try assumption;
    repeat constructor; apply mk_issue_line; exact Hi.
Qed.

Lemma basic_lines_keep_lines lines :
  forall acc i hi,
    (1 <= i)%Z -> (i + llen lines - 1 <= hi)%Z ->
    Forall (issue_line_in 1 hi) (fst acc)
    /\ Forall (issue_line_in 1 hi) (snd acc) ->
    Forall (issue_line_in 1 hi) (fst (Java.basic_lines acc i lines))
    /\ Forall (issue_line_in 1 hi) (snd (Java.basic_lines acc i lines)).
Proof.
  induction lines as [|line lines IH]; intros acc i hi Hi Hhi Hacc;
    [exact Hacc|].
  unfold llen in *. cbn [Java.basic_lines List.length] in *.
  apply IH; [lia|lia|].
  apply basic_line_keeps_lines; [lia|exact Hacc].
Qed.

(** X12. Every issue of the basic Java analysis points into the source: its
    line number lies between 1 and the number of lines of the text. *)
Theorem java_basic_issues_point_into_the_source :
  forall (code : string),
    Forall (issue_line_in 1 (llen (split_lines code)))
           (Java.errors (Java._basic_java_analysis code))
    /\ Forall (issue_line_in 1 (llen (split_lines code)))
              (Java.warnings (Java._basic_java_analysis code)).
Proof.
  intro code. unfold Java._basic_java_analysis.
  pose proof (basic_lines_keep_lines (split_lines code) ([], []) 1
                (llen (split_lines code)) (Z.le_refl 1)) as H.
  destruct (Java.basic_lines ([], []) 1 (split_lines code)) as [errors warnings].
  destruct (Java._calculate_complexity_metrics code).
  apply H; [lia|]. split; constructor.
Qed.

(* ================================================================= *)
(** ** Checkstyle's XML report *)

Lemma xml_error_raises_ValueError acc error_elem ex :
  Java.xml_error acc error_elem = Raise ex -> kind ex = ValueError.
Proof.
  destruct acc as [errors warnings]. unfold Java.xml_error, Java.int_attr.
  intro H.
  destruct (attr_lookup "line" _) as [v|].
  - destruct (int_of_str v) eqn:E1; cbn [bind] in H.
    + destruct (attr_lookup "column" _) as [v'|].
      * destruct (int_of_str v') eqn:E2; cbn [bind] in H.
        -- destruct (String.eqb _ _); discriminate H.
        -- injection H as <-. eapply int_of_str_raises_ValueError; exact E2.
      * cbn [bind] in H. destruct (String.eqb _ _); discriminate H.
    + injection H as <-. eapply int_of_str_raises_ValueError; exact E1.
  - cbn [bind] in H. destruct (attr_lookup "column" _) as [v'|].
    + destruct (int_of_str v') eqn:E2; cbn [bind] in H.
      * destruct (String.eqb _ _); discriminate H.
      * injection H as <-. eapply int_of_str_raises_ValueError; exact E2.
    + cbn [bind] in H. destruct (String.eqb _ _); discriminate H.
Qed.

Lemma xml_error_step acc error_elem acc' :
  Forall (severity_is_error true) (fst acc)
  /\ Forall (severity_is_error false) (snd acc) ->
  Java.xml_error acc error_elem = Ok acc' ->
  issue_count acc' = S (issue_count acc)
  /\ Forall (severity_is_error true) (fst acc')
  /\ Forall (severity_is_error false) (snd acc').
Proof.
  destruct acc as [errors warnings]. simpl. intros [He Hw] H.
  unfold Java.xml_error in H. do 2 inv_bind H.
  destruct (String.eqb (lower _) "error") eqn:Hs; injection H as <-.
  - rewrite issue_count_snoc_l. simpl. repeat split; [|exact Hw].
    apply Forall_app. split; [exact He|]. constructor; [|constructor].
    eexists. split; [reflexivity|exact Hs].
  - rewrite issue_count_snoc_r. simpl. repeat split; [exact He|].
    apply Forall_app. split; [exact Hw|]. constructor; [|constructor].
    eexists. split; [reflexivity|exact Hs].
Qed.

Lemma xml_errors_loop elems :
  forall acc acc',
    Forall (severity_is_error true) (fst acc)
    /\ Forall (severity_is_error false) (snd acc) ->
    foldM Java.xml_error elems acc = Ok acc' ->
    issue_count acc' = (issue_count acc + List.length elems)%nat
    /\ Forall (severity_is_error true) (fst acc')
    /\ Forall (severity_is_error false) (snd acc').
Proof.
  induction elems as [|x elems IH]; intros acc acc' Hacc H; simpl in H.
  - injection H as <-. simpl. rewrite Nat.add_0_r. tauto.
  - inv_bind H. destruct (xml_error_step acc x a Hacc Ha) as (Hc & Hinv).
    destruct (IH a acc' Hinv H) as (Hc' & Hinv').
    split; [|exact Hinv']. simpl. lia.
Qed.

Lemma xml_files_loop files :
  forall acc acc',
    Forall (severity_is_error true) (fst acc)
    /\ Forall (severity_is_error false) (snd acc) ->
    foldM (fun acc file_elem =>
             foldM Java.xml_error (findall_tag file_elem "error") acc)
          files acc = Ok acc' ->
    issue_count acc'
    = (issue_count acc
       + List.length (flat_map (fun f => findall_tag f "error") files))%nat
    /\ Forall (severity_is_error true) (fst acc')
    /\ Forall (severity_is_error false) (snd acc').
Proof.
  induction files as [|f files IH]; intros acc acc' Hacc H; simpl in H.
  - injection H as <-. simpl. rewrite Nat.add_0_r. tauto.
  - inv_bind H. destruct (xml_errors_loop _ acc a Hacc Ha) as (Hc & Hinv).
    destruct (IH a acc' Hinv H) as (Hc' & Hinv').
    split; [|exact Hinv']. simpl. rewrite length_app. lia.
Qed.

(** X13. When Checkstyle's report decodes as XML and the parser returns,
    no diagnostic is lost: it returns as many issues as there are [error]
    elements under the [file] elements of the report, those whose severity
    is "error" in any letter case among the errors and all others among the
    warnings. *)
Theorem checkstyle_report_is_kept_whole :
  forall (e : Java.env) (xml_output : string) (root : element)
         (errors warnings : list pyval),
    ~ blank xml_output ->
    Java.ET_fromstring e xml_output = Ok root ->
    Java._parse_checkstyle_xml e xml_output = Ok (errors, warnings) ->
    (List.length errors + List.length warnings)%nat
    = List.length (xml_error_elements root)
    /\ Forall (severity_is_error true) errors
    /\ Forall (severity_is_error false) warnings.
Proof.
  intros e xml_output root errors warnings Hnb Hroot H.
  unfold Java._parse_checkstyle_xml in H.
  assert (Ht : negb (truthy_str (strip xml_output)) = false).
  { unfold blank in Hnb. destruct (strip xml_output);
      [contradiction|reflexivity]. }
  rewrite Ht, Hroot in H. cbn [bind] in H.
  apply try_except_Ok in H as [H|(ex & H & Hp & _)].
  - apply xml_files_loop in H; [|split; constructor].
    exact H.
  - exfalso.
    assert (Hk : kind ex = ValueError).
    { eapply (foldM_raise (fun ex => kind ex = ValueError)); [|exact H].
      intros acc f ex' H'.
      eapply (foldM_raise (fun ex => kind ex = ValueError)); [|exact H'].
      intros acc' x ex''. apply xml_error_raises_ValueError. }
    unfold is_ParseError in Hp. rewrite Hk in Hp. discriminate Hp.
Qed.

Lemma checkstyle_report_is_kept_whole_example :
  exists errors warnings,
    Java._parse_checkstyle_xml java_env_report "<checkstyle/>"
    = Ok (errors, warnings)
    /\ (List.length errors + List.length warnings)%nat
       = List.length (xml_error_elements checkstyle_report)
    /\ Forall (severity_is_error true) errors
    /\ Forall (severity_is_error false) warnings.
Proof.
  eexists. eexists. split.
  - vm_compute. reflexivity.
  - apply (checkstyle_report_is_kept_whole
             java_env_report "<checkstyle/>" checkstyle_report).
    + vm_compute. discriminate.
    + reflexivity.
    + vm_compute. reflexivity.
Defined.

(* ================================================================= *)
(** ** The JavaScript adapter: ESLint's answer *)

Lemma eslint_message_counts acc message :
  is_dict message ->
  exists acc',
    JS.eslint_message acc message = Ok acc'
    /\ List.length (fst acc')
       = (List.length (fst acc)
          + List.length (filter is_eslint_error [message]))%nat
    /\ List.length (snd acc')
       = (List.length (snd acc)
          + List.length (filter (fun m => negb (is_eslint_error m))
                                [message]))%nat.
Proof.
  destruct acc as [errors warnings]. intros (d & ->).
  unfold JS.eslint_message. cbn [py_get bind filter is_eslint_error].
  destruct (py_eq_int (dict_get d "severity" (PInt 1)) 2);
    eexists; (split; [reflexivity|]); cbn; rewrite length_app; cbn; lia.
Qed.

Lemma eslint_messages_count ms :
  Forall is_dict ms ->
  forall acc, exists acc',
    foldM JS.eslint_message ms acc = Ok acc'
    /\ List.length (fst acc')
       = (List.length (fst acc) + List.length (filter is_eslint_error ms))%nat
    /\ List.length (snd acc')
       = (List.length (snd acc)
          + List.length (filter (fun m => negb (is_eslint_error m)) ms))%nat.
Proof.
  induction 1 as [|m ms Hm _ IH]; intro acc.
  - exists acc. cbn. split; [reflexivity|]. lia.
  - destruct (eslint_message_counts acc m Hm) as (acc1 & H1 & He1 & Hw1).
    destruct (IH acc1) as (acc' & H' & He' & Hw').
    exists acc'. cbn [foldM]. rewrite H1. cbn [bind].
    split; [exact H'|].
    change (m :: ms) with ([m] ++ ms)%list. rewrite !filter_app, !length_app.
    lia.
Qed.

Lemma eslint_files_count files :
  well_formed_answer files ->
  forall acc, exists acc',
    foldM (fun acc file_result =>
             let* messages := py_get file_result "messages" (PList []) in
             let* ms := py_iter messages in
             foldM JS.eslint_message ms acc) files acc = Ok acc'
    /\ List.length (fst acc')
       = (List.length (fst acc)
          + List.length (filter is_eslint_error
                                (flat_map eslint_messages_of files)))%nat
    /\ List.length (snd acc')
       = (List.length (snd acc)
          + List.length (filter (fun m => negb (is_eslint_error m))
                                (flat_map eslint_messages_of files)))%nat.
Proof.
  induction 1 as [|f files (d & ms & -> & Hms & Hdicts) _ IH]; intro acc.
  - exists acc. cbn. split; [reflexivity|]. lia.
  - destruct (eslint_messages_count ms Hdicts acc) as (acc1 & H1 & He1 & Hw1).
    destruct (IH acc1) as (acc' & H' & He' & Hw').
    exists acc'. cbn [foldM py_get bind]. rewrite Hms. cbn [py_iter bind].
    rewrite H1. cbn [bind]. split; [exact H'|].
    cbn [flat_map eslint_messages_of]. rewrite Hms.
    rewrite !filter_app, !length_app. lia.
Qed.

(** X14. On an answer of the documented shape, [_parse_eslint_output] loses
    no message: the errors are as many as the messages of severity 2, the
    warnings as many as all the others, and [total_issues] is the number of
    messages of all the files. *)
Theorem eslint_answer_is_kept_whole :
  forall (files : list pyval),
    well_formed_answer files ->
    exists errors warnings,
      JS._parse_eslint_output (PList files)
      = Ok (errors, warnings, llen (flat_map eslint_messages_of files))
      /\ List.length errors
         = List.length (filter is_eslint_error
                               (flat_map eslint_messages_of files))
      /\ List.length warnings
         = List.length (filter (fun m => negb (is_eslint_error m))
                               (flat_map eslint_messages_of files)).
Proof.
  intros files Hwf. unfold JS._parse_eslint_output. cbn [py_iter bind].
  destruct (eslint_files_count files Hwf ([], []))
    as ([errors warnings] & H & He & Hw).
  rewrite H. cbn [bind fst snd List.length Nat.add] in *.
  exists errors, warnings. split; [|split; assumption].
  do 2 f_equal. unfold llen. rewrite He, Hw.
  rewrite <- Nat2Z.inj_add. f_equal.
  set (l := flat_map eslint_messages_of files).
  clearbody l. clear. induction l as [|x l IH]; [reflexivity|].
  cbn [filter]. destruct (is_eslint_error x); cbn [negb List.length]; lia.
Qed.

Lemma eslint_answer_is_kept_whole_example :
  exists errors warnings,
    JS._parse_eslint_output
      (PList [PDict [("filePath", PStr "a.js");
                     ("messages",
                      PList [PDict [("ruleId", PStr "no-undef");
                                    ("severity", PInt 2)];
                             PDict [("ruleId", PStr "semi");
                                    ("severity", PInt 1)]])];
              PDict [("filePath", PStr "b.js")]])
    = Ok (errors, warnings, 2%Z)
    /\ List.length errors = 1%nat
    /\ List.length warnings = 1%nat.
Proof.
  apply (eslint_answer_is_kept_whole
           [PDict [("filePath", PStr "a.js");
                   ("messages",
                    PList [PDict [("ruleId", PStr "no-undef");
                                  ("severity", PInt 2)];
                           PDict [("ruleId", PStr "semi");
                                  ("severity", PInt 1)]])];
            PDict [("filePath", PStr "b.js")]]).
  repeat constructor; eexists; eexists;
    (split; [reflexivity|]); (split; [reflexivity|]);
    repeat constructor; eexists; reflexivity.
Defined.

Lemma js_method_never_returns_a_finding e available code language r :
  JS.JavaScriptAnalyzer.analyze_code e available code language = Ok r ->
  JS.errors r = []
  /\ ((JS.warnings r = [] /\ JS.complexity r = 1%Q)
      \/ (JS.warnings r = [JS.eslint_unavailable_issue]
          /\ JS.complexity r = 5%Q /\ JS.maintainability_index r = 50%Q)).
Proof.
  unfold JS.JavaScriptAnalyzer.analyze_code. intro H.
  assert (Hrun : forall x,
             bind (JS._parse_eslint_output x)
                  (fun '(errors, warnings, total) =>
                     bind (JS._calculate_complexity_score
                             (errors ++ warnings)%list)
                          (fun complexity =>
                             bind (JS._calculate_maintainability_index
                                     errors warnings)
                                  (fun maintainability =>
                                     Ok (JS.mkResult language errors warnings
                                           total complexity maintainability
                                           (Some (JS.temp_path e))))))
             = Ok r ->
             JS.errors r = [] /\ JS.warnings r = [] /\ JS.complexity r = 1%Q).
  { intros x Hx. inv_bind Hx. destruct a as [[errors warnings] total].
    inv_bind Hx. inv_bind Hx. injection Hx as <-.
    apply parse_eslint_output_result in Ha as (He & Hw & _).
    apply complexity_score_normalized in Ha0 as [Hnil ->];
      [|apply Forall_app; split; assumption].
    apply app_eq_nil in Hnil as [-> ->]. repeat split. }
  destruct (JS._run_eslint e available);
    try (destruct (Hrun _ H) as (He & Hw & Hc); split; [exact He|];
         left; split; assumption).
  injection H as <-. split; [reflexivity|]. right. repeat split.
Qed.

(** X15. The JavaScript adapter never returns an ESLint finding.  Every
    result that [analyze_javascript_code] or the dispatcher [analyze_code]
    of [analyzer_js.py] returns has no error at all, and its warnings are
    none (complexity 1.0) or the single synthetic warning that ESLint is
    unavailable or the language unsupported (complexity 5.0,
    maintainability index 50.0). *)
Theorem js_adapter_never_returns_a_finding :
  forall (e : JS.env) (code language : string) (r : JS.JSAnalysisResult),
    JS.analyze_javascript_code e code language = Ok r
    \/ JS.analyze_code e code language = Ok r ->
    JS.errors r = []
    /\ ((JS.warnings r = [] /\ JS.complexity r = 1%Q)
        \/ (JS.warnings r = [JS.eslint_unavailable_issue]
            /\ JS.complexity r = 5%Q /\ JS.maintainability_index r = 50%Q)
        \/ (JS.warnings r = [JS.unsupported_issue language]
            /\ JS.complexity r = 5%Q /\ JS.maintainability_index r = 50%Q)).
Proof.
  intros e code language r H.
  assert (Hjs : JS.analyze_javascript_code e code language = Ok r ->
                JS.errors r = []
                /\ ((JS.warnings r = [] /\ JS.complexity r = 1%Q)
                    \/ (JS.warnings r = [JS.eslint_unavailable_issue]
                        /\ JS.complexity r = 5%Q
                        /\ JS.maintainability_index r = 50%Q)
                    \/ (JS.warnings r = [JS.unsupported_issue language]
                        /\ JS.complexity r = 5%Q
                        /\ JS.maintainability_index r = 50%Q))).
  { unfold JS.analyze_javascript_code. intro H'. inv_bind H'.
    apply js_method_never_returns_a_finding in H'. tauto. }
  destruct H as [H|H]; [exact (Hjs H)|].
  unfold JS.analyze_code in H. destruct (str_in _ _); [exact (Hjs H)|].
  injection H as <-. split; [reflexivity|]. right. right. repeat split.
Qed.

Lemma js_adapter_never_returns_a_finding_example :
  exists r,
    JS.analyze_code js_env_absent "var x = 1" "JavaScript" = Ok r
    /\ JS.errors r = []
    /\ ((JS.warnings r = [] /\ JS.complexity r = 1%Q)
        \/ (JS.warnings r = [JS.eslint_unavailable_issue]
            /\ JS.complexity r = 5%Q /\ JS.maintainability_index r = 50%Q)
        \/ (JS.warnings r = [JS.unsupported_issue "JavaScript"]
            /\ JS.complexity r = 5%Q /\ JS.maintainability_index r = 50%Q)).
Proof.
  eexists. split; [vm_compute; reflexivity|].
  apply (js_adapter_never_returns_a_finding js_env_absent "var x = 1"
                                            "JavaScript").
  right. vm_compute. reflexivity.
Defined.

(* ================================================================= *)
(** ** The JavaScript adapter: the maintainability index *)

Lemma py_min_compat_r (a b b' : Q) :
  (b == b')%Q -> (py_min a b == py_min a b')%Q.
Proof.
  intro Hb. unfold py_min.
  rewrite (Qltb_compat b b' a a Hb (Qeq_refl a)).
  destruct (Qltb b' a); [exact Hb | reflexivity].
Qed.

Lemma py_max_compat_r (a b b' : Q) :
  (b == b')%Q -> (py_max a b == py_max a b')%Q.
Proof.
  intro Hb. unfold py_max.
  rewrite (Qltb_compat a a b b' (Qeq_refl a) Hb).
  destruct (Qltb a b'); [exact Hb | reflexivity].
Qed.

Lemma count_if_cons {A : Type} (p : A -> bool) (x : A) (l : list A) :
  count_if p (x :: l) = ((if p x then 1 else 0) + count_if p l)%Z.
Proof.
  unfold count_if. cbn [filter]. destruct (p x); cbn [List.length]; lia.
Qed.

Lemma critical_deduction_loop errors :
  Forall is_dict errors ->
  forall d0 : Q, exists d',
    foldM (fun error_deduction error =>
             let* rule := py_get error "ruleId" PNone in
             if py_in_strs rule JS.critical_rules
             then Ok (error_deduction + 3)%Q
             else Ok error_deduction) errors d0 = Ok d'
    /\ (d' == d0 + 3 * inject_Z (count_if is_critical errors))%Q.
Proof.
  induction 1 as [|x errors (d & ->) _ IH]; intro d0.
  - exists d0. split; [reflexivity|]. unfold count_if. cbn. ring.
  - cbn [foldM py_get bind]. rewrite count_if_cons. cbn [is_critical].
    destruct (py_in_strs (dict_get d "ruleId" PNone) JS.critical_rules).
    + destruct (IH (d0 + 3)%Q) as (d' & H & E). exists d'.
      cbn [bind]. split; [exact H|].
      rewrite E, inject_Z_plus. change (inject_Z 1) with 1%Q. ring.
    + destruct (IH d0) as (d' & H & E). exists d'.
      cbn [bind]. split; [exact H|].
      rewrite E, inject_Z_plus. change (inject_Z 0) with 0%Q. ring.
Qed.

(** X16. On error dictionaries, [_calculate_maintainability_index] is
    100 minus 5 per error, minus 3 more per error whose [ruleId] is a
    critical rule, minus 2 per warning, clamped to the interval from 0 to
    100. *)
Theorem js_maintainability_formula :
  forall (errors warnings : list pyval),
    Forall is_dict errors ->
    exists m,
      JS._calculate_maintainability_index errors warnings = Ok m
      /\ (m == py_max 0 (py_min 100
                 (100 - (5 * inject_Z (llen errors)
                         + 3 * inject_Z (count_if is_critical errors))
                  - 2 * inject_Z (llen warnings))))%Q.
Proof.
  intros errors warnings Hd.
  unfold JS._calculate_maintainability_index. cbv zeta.
  destruct (critical_deduction_loop errors Hd
              (inject_Z (llen errors) * 5)%Q) as (d' & -> & E).
  cbn [bind]. eexists. split; [reflexivity|].
  apply py_max_compat_r, py_min_compat_r. rewrite E. ring.
Qed.

Lemma js_maintainability_formula_example :
  exists m,
    JS._calculate_maintainability_index
      [eval_message; PDict [("ruleId", PStr "no-empty"); ("severity", PInt 2)]]
      [PDict [("ruleId", PStr "semi"); ("severity", PInt 1)]]
    = Ok m
    /\ (m == py_max 0 (py_min 100 (100 - (5 * 2 + 3 * 1) - 2 * 1)))%Q.
Proof.
  apply (js_maintainability_formula
           [eval_message;
            PDict [("ruleId", PStr "no-empty"); ("severity", PInt 2)]]
           [PDict [("ruleId", PStr "semi"); ("severity", PInt 1)]]).
  repeat constructor; eexists; reflexivity.
Defined.

(* ================================================================= *)
(** ** The JavaScript adapter: no answer, empty answer, other languages *)

(** X17. Whenever ESLint gives no usable answer (the probe found none, the
    run raised anything at all, its output did not decode, or decoded to
    [null]) the adapter returns one and the same neutral result: no error,
    the single warning [eslint-unavailable], [total_issues] 1, complexity
    5.0 and maintainability index 50.0. *)
Theorem js_no_answer_gives_the_neutral_result :
  forall (e : JS.env) (available : bool) (code language : string),
    (available = false
     \/ (exists ex, JS.eslint e = Raise ex)
     \/ (exists c, JS.eslint e = Ok c /\ stdout c <> ""
                   /\ ((exists ex, JS.json_loads e (stdout c) = Raise ex)
                       \/ JS.json_loads e (stdout c) = Ok PNone))) ->
    JS.JavaScriptAnalyzer.analyze_code e available code language
    = Ok (JS.mkResult language [] [JS.eslint_unavailable_issue] 1 5%Q 50%Q
                      (Some (JS.temp_path e))).
Proof.
  intros e available code language H.
  assert (Hnone : JS._run_eslint e available = PNone).
  { unfold JS._run_eslint.
    destruct available; cbn [negb]; [|reflexivity].
    destruct H as [H|[(ex & ->)|(c & -> & Hout & Hdec)]];
      [discriminate H|reflexivity|].
    destruct (stdout c) as [|x out] eqn:Hs; [contradiction|].
    cbn [truthy_str is_empty negb].
    destruct Hdec as [(ex & ->)| ->]; reflexivity. }
  unfold JS.JavaScriptAnalyzer.analyze_code. rewrite Hnone. reflexivity.
Qed.

Lemma js_no_answer_gives_the_neutral_result_example :
  JS.JavaScriptAnalyzer.analyze_code
    (JS.mkEnv (exit0 "v8.57.0") (exit1 "Oops! Something went wrong!")
              no_json "/tmp/tmpab12.js")
    true "let a = 1" "JavaScript"
  = Ok (JS.mkResult "JavaScript" [] [JS.eslint_unavailable_issue] 1 5%Q 50%Q
                    (Some "/tmp/tmpab12.js")).
Proof.
  apply (js_no_answer_gives_the_neutral_result
           (JS.mkEnv (exit0 "v8.57.0") (exit1 "Oops! Something went wrong!")
                     no_json "/tmp/tmpab12.js")
           true "let a = 1" "JavaScript").
  right. right. eexists. split; [reflexivity|]. split; [discriminate|].
  left. eexists. reflexivity.
Defined.

(** X18. When ESLint completes and prints nothing on its standard output,
    the adapter reports a clean file (no issue, complexity 1.0,
    maintainability index 100.0) whatever the exit code and the error
    output of ESLint were. *)
Theorem js_silent_eslint_counts_as_clean :
  forall (e : JS.env) (code language : string) (c : completed),
    JS.eslint e = Ok c ->
    stdout c = "" ->
    exists r,
      JS.JavaScriptAnalyzer.analyze_code e true code language = Ok r
      /\ JS.errors r = [] /\ JS.warnings r = []
      /\ JS.total_issues r = 0%Z
      /\ JS.complexity r = 1%Q
      /\ (JS.maintainability_index r == 100)%Q.
Proof.
  intros e code language c Hrun Hout.
  unfold JS.JavaScriptAnalyzer.analyze_code, JS._run_eslint.
  cbn [negb]. rewrite Hrun, Hout. cbn [truthy_str is_empty negb].
  eexists. split; [vm_compute; reflexivity|].
  repeat split.
Qed.

Lemma js_silent_eslint_counts_as_clean_example :
  exists r,
    JS.JavaScriptAnalyzer.analyze_code
      (JS.mkEnv (exit0 "v9.0.0")
                (Ok (mkCompleted 2 "" "Invalid option '--no-eslintrc'"))
                no_json "/tmp/tmpab12.js")
      true "eval('1')" "JavaScript" = Ok r
    /\ JS.errors r = [] /\ JS.warnings r = []
    /\ JS.total_issues r = 0%Z
    /\ JS.complexity r = 1%Q
    /\ (JS.maintainability_index r == 100)%Q.
Proof.
  apply (js_silent_eslint_counts_as_clean
           (JS.mkEnv (exit0 "v9.0.0")
                     (Ok (mkCompleted 2 "" "Invalid option '--no-eslintrc'"))
                     no_json "/tmp/tmpab12.js")
           "eval('1')" "JavaScript"
           (mkCompleted 2 "" "Invalid option '--no-eslintrc'")).
  - reflexivity.
  - reflexivity.
Defined.

(* ================================================================= *)
(** ** The Python adapter: failing tools *)

(** X20. A pylint run that times out does not stop the analysis: the
    result comes back with the tool error "Pylint error: Analysis timeout"
    of severity [high] first among the errors, at most one more error (the
    one of radon), no warning, and the metrics that radon gave. *)
Theorem pylint_timeout_becomes_a_tool_error :
  forall (e : Py.env) (code : string) (ex : exn),
    Py.pylint e = Raise ex ->
    is_TimeoutExpired ex = true ->
    exists r rest,
      Py.analyze_python_code e code = Ok r
      /\ Py.errors r
         = Py.tool_error "Pylint error: Analysis timeout" "high" :: rest
      /\ (List.length rest <= 1)%nat
      /\ Py.warnings r = []
      /\ Py.complexity r = Py.get_complexity (Py.run_radon_complexity e) 1%Q
      /\ Py.maintainability_index r
         = Py.get_maintainability_index (Py.run_radon_complexity e) 50%Q.
Proof.
  intros e code ex Hrun Ht.
  unfold Py.analyze_python_code.
  assert (Hp : Py.run_pylint e
               = Py._create_error_result "Analysis timeout" "timeout").
  { unfold Py.run_pylint. rewrite Hrun. cbn [bind]. rewrite Ht. reflexivity. }
  rewrite Hp. unfold Py.parse_analysis_results. cbv zeta.
  cbn [Py._create_error_result Py.get_error Py.get_issues truthy_str
       is_empty negb].
  destruct (Py.get_error (Py.run_radon_complexity e)) as [err|];
    [destruct (truthy_str err)|];
    cbn [app foldM bind]; eexists; eexists;
    (split; [reflexivity|]); cbn; (split; [reflexivity|]);
    (split; [cbn; lia|]); repeat split.
Qed.

Lemma pylint_timeout_becomes_a_tool_error_example :
  exists r rest,
    Py.analyze_python_code
      (Py.mkEnv (raise TimeoutExpired "timed out after 30 seconds")
                (exit0 "") (exit0 "") no_json no_float) "x = 1" = Ok r
    /\ Py.errors r
       = Py.tool_error "Pylint error: Analysis timeout" "high" :: rest
    /\ (List.length rest <= 1)%nat
    /\ Py.warnings r = []
    /\ Py.complexity r
       = Py.get_complexity
           (Py.run_radon_complexity
              (Py.mkEnv (raise TimeoutExpired "timed out after 30 seconds")
                        (exit0 "") (exit0 "") no_json no_float)) 1%Q
    /\ Py.maintainability_index r
       = Py.get_maintainability_index
           (Py.run_radon_complexity
              (Py.mkEnv (raise TimeoutExpired "timed out after 30 seconds")
                        (exit0 "") (exit0 "") no_json no_float)) 50%Q.
Proof.
  apply (pylint_timeout_becomes_a_tool_error
           (Py.mkEnv (raise TimeoutExpired "timed out after 30 seconds")
                     (exit0 "") (exit0 "") no_json no_float)
           "x = 1" (mkExn TimeoutExpired "timed out after 30 seconds")).
  - reflexivity.
  - reflexivity.
Defined.

(** X21. A failure of either radon run costs both metrics: when the
    complexity run or the maintainability run raises, every result of the
    analysis has the defaults, complexity 1.0 and maintainability index
    50.0, also when the other run had answered. *)
Theorem radon_failure_gives_default_metrics :
  forall (e : Py.env) (code : string) (r : Py.pyAnalysisResult),
    ((exists ex, Py.radon_cc e = Raise ex)
     \/ (exists ex, Py.radon_mi e = Raise ex)) ->
    Py.analyze_python_code e code = Ok r ->
    Py.complexity r = 1%Q /\ Py.maintainability_index r = 50%Q.
Proof.
  intros e code r Hfail H.
  apply py_method_result in H as (_ & -> & ->).
  assert (Herr : exists i s m t,
             Py.run_radon_complexity e = Py.ErrorDict i s m t).
  { unfold Py.run_radon_complexity.
    destruct Hfail as [(ex & ->)|(ex & Hmi)].
    - cbn [bind].
      destruct (is_TimeoutExpired ex); [|destruct (is_FileNotFoundError ex)];
        do 4 eexists; reflexivity.
    - destruct (Py.radon_cc e) as [c|ex']; cbn [bind].
      + rewrite Hmi. cbn [bind].
        destruct (is_TimeoutExpired ex); [|destruct (is_FileNotFoundError ex)];
          do 4 eexists; reflexivity.
      + destruct (is_TimeoutExpired ex'); [|destruct (is_FileNotFoundError ex')];
          do 4 eexists; reflexivity. }
  destruct Herr as (i & s & m & t & ->). split; reflexivity.
Qed.

Lemma radon_failure_gives_default_metrics_example :
  exists r,
    Py.analyze_python_code
      (Py.mkEnv (exit0 "") (exit0 "{...}")
                (raise TimeoutExpired "timed out after 15 seconds")
                (fun _ => Ok cc_two_files) no_float) "def f(): pass" = Ok r
    /\ Py.complexity r = 1%Q /\ Py.maintainability_index r = 50%Q.
Proof.
  eexists. split; [vm_compute; reflexivity|].
  apply (radon_failure_gives_default_metrics
           (Py.mkEnv (exit0 "") (exit0 "{...}")
                     (raise TimeoutExpired "timed out after 15 seconds")
                     (fun _ => Ok cc_two_files) no_float) "def f(): pass").
  - right. eexists. reflexivity.
  - vm_compute. reflexivity.
Defined.

(* ================================================================= *)
(** ** The Python adapter: pylint's issues *)

Lemma pylint_issue_counts acc issue :
  wf_pylint_issue issue ->
  exists acc',
    Py.pylint_issue acc issue = Ok acc'
    /\ List.length (fst acc')
       = (List.length (fst acc)
          + List.length (filter is_py_error [issue]))%nat
    /\ List.length (snd acc')
       = (List.length (snd acc)
          + List.length (filter (fun i => negb (is_py_error i)) [issue]))%nat.
Proof.
  destruct acc as [errors warnings]. intros (d & -> & Ht).
  assert (Hty : exists s, dict_get d "type" (PStr "") = PStr s).
  { unfold dict_get. destruct Ht as [->|(s & ->)]; eexists; reflexivity. }
  destruct Hty as (s & Hty).
  unfold Py.pylint_issue. cbn [py_get bind filter is_py_error].
  rewrite Hty. cbn [py_lower bind].
  destruct (str_in (lower s) ["error"; "fatal"]); cbn [negb];
    eexists; (split; [reflexivity|]); cbn [fst snd List.length];
    rewrite ?length_app; cbn [List.length]; lia.
Qed.

Lemma pylint_issues_count issues :
  Forall wf_pylint_issue issues ->
  forall acc, exists acc',
    foldM Py.pylint_issue issues acc = Ok acc'
    /\ List.length (fst acc')
       = (List.length (fst acc) + List.length (filter is_py_error issues))%nat
    /\ List.length (snd acc')
       = (List.length (snd acc)
          + List.length (filter (fun i => negb (is_py_error i)) issues))%nat.
Proof.
  induction 1 as [|i issues Hi _ IH]; intro acc.
  - exists acc. cbn. split; [reflexivity|]. lia.
  - destruct (pylint_issue_counts acc i Hi) as (acc1 & H1 & He1 & Hw1).
    destruct (IH acc1) as (acc' & H' & He' & Hw').
    exists acc'. cbn [foldM]. rewrite H1. cbn [bind].
    split; [exact H'|].
    change (i :: issues) with ([i] ++ issues)%list.
    rewrite !filter_app, !length_app. lia.
Qed.

(** X22. [parse_analysis_results] keeps every pylint issue of the
    documented shape: those of type "error" or "fatal", in any letter case,
    follow the tool errors among the errors; all the others, whatever their
    type, are warnings. *)
Theorem pylint_issues_are_kept_whole :
  forall (pylint_result radon_result : Py.tool_dict) (language : string),
    Forall wf_pylint_issue (Py.get_issues pylint_result) ->
    exists r,
      Py.parse_analysis_results pylint_result radon_result language = Ok r
      /\ List.length (Py.errors r)
         = (reported_failure pylint_result + reported_failure radon_result
            + List.length (filter is_py_error (Py.get_issues pylint_result)))%nat
      /\ List.length (Py.warnings r)
         = List.length (filter (fun i => negb (is_py_error i))
                               (Py.get_issues pylint_result))
      /\ Py.language r = language.
Proof.
  intros p rd language Hwf. unfold Py.parse_analysis_results. cbv zeta.
  match goal with
  | |- context [foldM Py.pylint_issue _ (?errs, [])] =>
      destruct (pylint_issues_count _ Hwf (errs, []))
        as ([errors warnings] & H & He & Hw);
      assert (Hlen : List.length errs
                     = (reported_failure p + reported_failure rd)%nat)
  end.
  { unfold reported_failure.
    destruct (Py.get_error p) as [e1|]; [destruct (truthy_str e1)|];
      (destruct (Py.get_error rd) as [e2|]; [destruct (truthy_str e2)|]);
      reflexivity. }
  rewrite H. cbn [bind]. eexists. split; [reflexivity|].
  cbn [Py.errors Py.warnings Py.language fst snd] in *.
  rewrite He, Hw, Hlen. repeat split.
Qed.

Lemma pylint_issues_are_kept_whole_example :
  exists r,
    Py.parse_analysis_results
      (Py.PylintDict
         [PDict [("type", PStr "convention"); ("line", PInt 3)];
          PDict [("type", PStr "Fatal"); ("line", PInt 9)];
          PDict [("line", PInt 12)]] 7.5%Q "" "")
      (Py._create_error_result "Radon not installed" "environment")
      "Python" = Ok r
    /\ List.length (Py.errors r) = 2%nat
    /\ List.length (Py.warnings r) = 2%nat
    /\ Py.language r = "Python".
Proof.
  apply (pylint_issues_are_kept_whole
           (Py.PylintDict
              [PDict [("type", PStr "convention"); ("line", PInt 3)];
               PDict [("type", PStr "Fatal"); ("line", PInt 9)];
               PDict [("line", PInt 12)]] 7.5%Q "" "")
           (Py._create_error_result "Radon not installed" "environment")
           "Python").
  repeat constructor; eexists; (split; [reflexivity|]);
    first [left; reflexivity | right; eexists; reflexivity].
Defined.

Lemma pylint_issue_raises_AttributeError acc issue ex :
  Py.pylint_issue acc issue = Raise ex -> kind ex = AttributeError.
Proof.
  destruct acc as [errors warnings]. unfold Py.pylint_issue. intro H.
  destruct issue as [| | | | | |d];
    try (injection H as <-; reflexivity).
  cbn [py_get bind] in H.
  destruct (dict_get d "type" (PStr "")) as [| | | |s| |];
    try (injection H as <-; reflexivity).
  cbn [py_lower bind] in H. destruct (str_in _ _); discriminate H.
Qed.

(** X23. A pylint issue that is not a dictionary makes
    [parse_analysis_results] raise, and what it raises is an
    [AttributeError]. *)
Theorem malformed_pylint_issue_raises :
  forall (pylint_result radon_result : Py.tool_dict) (language : string),
    Exists (fun issue => ~ is_dict issue) (Py.get_issues pylint_result) ->
    exists ex,
      Py.parse_analysis_results pylint_result radon_result language = Raise ex
      /\ kind ex = AttributeError.
Proof.
  intros p rd language Hex. unfold Py.parse_analysis_results. cbv zeta.
  match goal with
  | |- context [foldM Py.pylint_issue _ (?errs, [])] =>
      generalize (errs, @nil pyval)
  end.
  induction Hex as [i issues Hi|i issues _ IH]; intro acc.
  - cbn [foldM].
    assert (Hr : exists ex, Py.pylint_issue acc i = Raise ex).
    { destruct acc as [errors warnings]. unfold Py.pylint_issue.
      destruct i as [| | | | | |d]; try (eexists; reflexivity).
      exfalso. apply Hi. eexists. reflexivity. }
    destruct Hr as (ex & Hr). rewrite Hr. cbn [bind].
    exists ex. split; [reflexivity|].
    eapply pylint_issue_raises_AttributeError; exact Hr.
  - cbn [foldM]. destruct (Py.pylint_issue acc i) as [acc1|ex] eqn:E.
    + cbn [bind]. apply IH.
    + cbn [bind]. exists ex. split; [reflexivity|].
      eapply pylint_issue_raises_AttributeError; exact E.
Qed.

Lemma malformed_pylint_issue_raises_example :
  exists ex,
    Py.parse_analysis_results
      (Py.PylintDict [PDict [("type", PStr "error")]; PStr "E0001"] 5%Q "" "")
      (Py.RadonDict 1%Q 50%Q (PDict []) (PDict [])) "Python" = Raise ex
    /\ kind ex = AttributeError.
Proof.
  apply (malformed_pylint_issue_raises
           (Py.PylintDict [PDict [("type", PStr "error")]; PStr "E0001"]
                          5%Q "" "")
           (Py.RadonDict 1%Q 50%Q (PDict []) (PDict [])) "Python").
  apply Exists_cons_tl. apply Exists_cons_hd.
  intros (d & H). discriminate H.
Defined.

(* ================================================================= *)
(** ** The Python adapter: radon's answers *)

Lemma mi_items_skip (e : Py.env) skipped :
  Forall no_index skipped ->
  forall l, Py.mi_items e (skipped ++ l) = Py.mi_items e l.
Proof.
  induction 1 as [|[k v] skipped Hkv _ IH]; intro l; [reflexivity|].
  cbn [app Py.mi_items]. unfold no_index in Hkv. cbn [snd] in Hkv.
  destruct v as [| | | | | |d]; try contradiction; try apply IH.
  rewrite Hkv. apply IH.
Qed.

(** X24. [_extract_maintainability_index] returns the first index that
    radon's answer carries: entries without one (radon's error entries,
    strings, lists, [null]) are passed over; when no entry has an index the
    answer is the default 50.0; otherwise it is [float] of the first index,
    whatever follows: the index itself when it is a float, and what [float]
    makes of it, or raises for it, when it is anything else. *)
Theorem maintainability_index_is_the_first_found :
  forall (e : Py.env) (skipped : list (string * pyval)),
    Forall no_index skipped ->
    Py._extract_maintainability_index e (PDict skipped) = Ok 50%Q
    /\ (forall key d v rest,
           dict_lookup "mi" d = Some v ->
           Py._extract_maintainability_index
             e (PDict (skipped ++ (key, PDict d) :: rest)) = Py.py_float e v)
    /\ (forall key d q rest,
           dict_lookup "mi" d = Some (PFloat q) ->
           Py._extract_maintainability_index
             e (PDict (skipped ++ (key, PDict d) :: rest)) = Ok q)
    /\ (forall key q rest,
           Py._extract_maintainability_index
             e (PDict (skipped ++ (key, PFloat q) :: rest)) = Ok q).
Proof.
  intros e skipped Hs.
  assert (Hfirst : forall key d v rest,
             dict_lookup "mi" d = Some v ->
             Py._extract_maintainability_index
               e (PDict (skipped ++ (key, PDict d) :: rest)) = Py.py_float e v).
  { intros key d v rest Hmi.
    unfold Py._extract_maintainability_index.
    assert (Ht : truthy (PDict (skipped ++ (key, PDict d) :: rest)) = true)
      by (destruct skipped; reflexivity).
    rewrite Ht. cbn [negb]. rewrite (mi_items_skip e _ Hs).
    cbn [Py.mi_items]. rewrite Hmi. reflexivity. }
  split; [|split; [exact Hfirst|split]].
  - unfold Py._extract_maintainability_index.
    destruct skipped as [|kv skipped]; [reflexivity|].
    cbn [truthy negb]. rewrite <- (app_nil_r (kv :: skipped)).
    rewrite (mi_items_skip e _ Hs). reflexivity.
  - intros key d q rest Hmi. rewrite (Hfirst key d _ rest Hmi). reflexivity.
  - intros key q rest.
    unfold Py._extract_maintainability_index.
    assert (Ht : truthy (PDict (skipped ++ (key, PFloat q) :: rest)) = true)
      by (destruct skipped; reflexivity).
    rewrite Ht. cbn [negb]. rewrite (mi_items_skip e _ Hs). reflexivity.
Qed.

Lemma maintainability_index_is_the_first_found_example :
  Py._extract_maintainability_index py_env_silent (PDict [radon_error_entry])
  = Ok 50%Q
  /\ (forall key d v rest,
         dict_lookup "mi" d = Some v ->
         Py._extract_maintainability_index
           py_env_silent (PDict ([radon_error_entry] ++ (key, PDict d) :: rest))
         = Py.py_float py_env_silent v)
  /\ (forall key d q rest,
         dict_lookup "mi" d = Some (PFloat q) ->
         Py._extract_maintainability_index
           py_env_silent (PDict ([radon_error_entry] ++ (key, PDict d) :: rest))
         = Ok q)
  /\ (forall key q rest,
         Py._extract_maintainability_index
           py_env_silent (PDict ([radon_error_entry] ++ (key, PFloat q) :: rest))
         = Ok q).
Proof.
  apply (maintainability_index_is_the_first_found
           py_env_silent [radon_error_entry]).
  repeat constructor.
Defined.

Lemma llen_nonneg {A : Type} (l : list A) : (0 <= llen l)%Z.
Proof. unfold llen. apply Nat2Z.is_nonneg. Qed.

Lemma llen_app {A : Type} (l1 l2 : list A) :
  llen (l1 ++ l2) = (llen l1 + llen l2)%Z.
Proof. unfold llen. rewrite length_app. lia. Qed.

Lemma reported_cons (name : string) (file_data : pyval)
      (rest : list (string * pyval)) :
  reported_complexities ((name, file_data) :: rest)
  = (reported_complexities [(name, file_data)]
     ++ reported_complexities rest)%list.
Proof. rewrite reported_one. reflexivity. Qed.

Lemma cc_files_sum files :
  Forall is_integer (reported_complexities files) ->
  forall (t n : Z),
    (0 < n)%Z ->
    Py.cc_files (NInt t, n) (map snd files)
    = Ok (inr (NInt (t + total (integers (reported_complexities files))),
               (n + llen (reported_complexities files))%Z)).
Proof.
  induction files as [|[k v] files IH]; intros Hint t n Hn.
  - cbn. rewrite !Z.add_0_r. reflexivity.
  - rewrite (reported_cons k v files) in *.
    rewrite (reported_one k v) in *.
    apply Forall_app in Hint as [Hhd Htl].
    cbn [map snd Py.cc_files].
    set (m := match v with
              | PList items => flat_map item_complexity items
              | _ => []
              end) in *.
    assert (Hfirst : (match v with
                      | PList items => foldM Py.cc_item items (NInt t, n)
                      | _ => Ok (NInt t, n)
                      end)
                     = Ok (NInt (t + total (integers m)), (n + llen m)%Z)).
    { subst m. destruct v as [| | | | |items|];
        try (cbn; rewrite !Z.add_0_r; reflexivity).
      apply cc_items_sum. exact Hhd. }
    rewrite Hfirst. cbn [bind snd].
    pose proof (llen_nonneg m) as Hm.
    replace (Z.eqb (n + llen m) 0) with false by (symmetry; apply Z.eqb_neq; lia).
    rewrite (IH Htl); [|lia].
    rewrite integers_app, total_app, llen_app, !Z.add_assoc. reflexivity.
Qed.

(** X25. With several file entries in radon's answer, the first one
    decides.  When it reports no complexity value,
    [_calculate_average_complexity] returns 1.0 whatever the later entries
    report; when it reports one and all reported values are integers, the
    result is the mean of the values of every entry. *)
Theorem average_complexity_over_several_files :
  forall (name : string) (file_data : pyval) (rest : list (string * pyval)),
    (reported_complexities [(name, file_data)] = [] ->
     Py._calculate_average_complexity (PDict ((name, file_data) :: rest))
     = Ok 1%Q)
    /\ (reported_complexities [(name, file_data)] <> [] ->
        Forall is_integer (reported_complexities ((name, file_data) :: rest)) ->
        Py._calculate_average_complexity (PDict ((name, file_data) :: rest))
        = mean_or_one
            (integers (reported_complexities ((name, file_data) :: rest)))).
Proof.
  intros name file_data rest.
  unfold Py._calculate_average_complexity.
  cbn [truthy negb map snd Py.cc_files]. split.
  - rewrite reported_one. intro Hnone.
    destruct file_data as [| | | | |items|]; try reflexivity.
    rewrite (cc_items_sum items); [|rewrite Hnone; constructor].
    rewrite Hnone. reflexivity.
  - intros Hne Hint.
    rewrite (reported_cons name file_data rest) in *.
    rewrite (reported_one name file_data) in *.
    pose proof (integers_length _ Hint) as Hlen.
    apply Forall_app in Hint as [Hhd Htl].
    destruct file_data as [| | | | |items|]; try contradiction.
    rewrite (cc_items_sum items Hhd). cbn [bind snd].
    set (m := flat_map item_complexity items) in *.
    assert (Hm : (0 < llen m)%Z).
    { unfold llen. destruct m; [contradiction|]. cbn [List.length]. lia. }
    replace (Z.eqb (0 + llen m) 0) with false
      by (symmetry; apply Z.eqb_neq; lia).
    rewrite (cc_files_sum rest Htl); [|lia].
    cbn [bind num_div]. unfold mean_or_one.
    pose proof (llen_nonneg (reported_complexities rest)) as Hr.
    destruct (integers (m ++ reported_complexities rest)) as [|x xs] eqn:Ei.
    + rewrite llen_app in Hlen. unfold llen at 1 in Hlen. cbn in Hlen. lia.
    + rewrite Hlen, <- Ei, integers_app, total_app, llen_app, !Z.add_0_l.
      reflexivity.
Qed.

Lemma average_complexity_over_several_files_example :
  Py._calculate_average_complexity cc_two_files = Ok 1%Q
  /\ Py._calculate_average_complexity
       (PDict [("a.py", radon_functions); ("b.py", radon_functions)])
     = mean_or_one [2; 4; 9; 2; 4; 9]%Z.
Proof.
  split.
  - apply (proj1 (average_complexity_over_several_files
                    "a.py" (PList [])
                    [("b.py", PList [PDict [("type", PStr "function");
                                            ("name", PStr "f");
                                            ("complexity", PInt 4)]])])).
    reflexivity.
  - apply (proj2 (average_complexity_over_several_files
                    "a.py" radon_functions [("b.py", radon_functions)])).
    + discriminate.
    + repeat constructor; eexists; reflexivity.
Defined.

(** X27. A failure whose message is empty leaves no trace: when the pylint
    run raises an exception other than a timeout or a missing file and
    [str(e)] is empty, the result has no warning and no error about pylint,
    as if pylint had found nothing. *)
Theorem silent_exception_is_not_reported :
  forall (e : Py.env) (code : string) (ex : exn),
    Py.pylint e = Raise ex ->
    is_TimeoutExpired ex = false ->
    is_FileNotFoundError ex = false ->
    message ex = "" ->
    exists r,
      Py.analyze_python_code e code = Ok r
      /\ Py.warnings r = []
      /\ List.length (Py.errors r)
         = reported_failure (Py.run_radon_complexity e).
Proof.
  intros e code ex Hrun Ht Hf Hm.
  unfold Py.analyze_python_code.
  assert (Hp : Py.run_pylint e = Py._create_error_result "" "runtime").
  { unfold Py.run_pylint. rewrite Hrun. cbn [bind]. rewrite Ht, Hf, Hm.
    reflexivity. }
  rewrite Hp. unfold Py.parse_analysis_results, reported_failure. cbv zeta.
  cbn [Py._create_error_result Py.get_error Py.get_issues truthy_str
       is_empty negb].
  destruct (Py.get_error (Py.run_radon_complexity e)) as [err|];
    [destruct (truthy_str err)|];
    cbn [app foldM bind]; eexists; repeat split.
Qed.

Lemma silent_exception_is_not_reported_example :
  exists r,
    Py.analyze_python_code
      (Py.mkEnv (raise OSError "") (exit0 "") (exit0 "") no_json no_float)
      "x = 1" = Ok r
    /\ Py.warnings r = []
    /\ List.length (Py.errors r)
       = reported_failure
           (Py.run_radon_complexity
              (Py.mkEnv (raise OSError "") (exit0 "") (exit0 "") no_json
                        no_float)).
Proof.
  apply (silent_exception_is_not_reported
           (Py.mkEnv (raise OSError "") (exit0 "") (exit0 "") no_json no_float)
           "x = 1" (mkExn OSError "")); reflexivity.
Defined.

(* ================================================================= *)
(** ** The callers in [app.py] *)

Lemma prefix_all_space (sub : string) :
  forall s, String.prefix sub s = true -> all_space s -> all_space sub.
Proof.
  induction sub as [|a sub IH]; intros s Hp Hs; [reflexivity|].
  destruct s as [|b s]; [discriminate Hp|].
  simpl in Hp. destruct (ascii_dec a b) as [->|_]; [|discriminate Hp].
  apply all_space_cons in Hs as [Hb Hs].
  apply all_space_cons. split; [exact Hb|]. eapply IH; eassumption.
Qed.

Lemma contains_all_space (s sub : string) :
  contains s sub = true -> all_space s -> all_space sub.
Proof.
  induction s as [|c s IH]; intros Hc Hs.
  - destruct sub; [reflexivity|discriminate Hc].
  - cbn [contains] in Hc. destruct (String.prefix sub (String c s)) eqn:Hp.
    + eapply prefix_all_space; eassumption.
    + apply all_space_cons in Hs as [_ Hs]. apply IH; assumption.
Qed.

(** A text that contains a marker with a visible character is not blank. *)
Lemma marker_not_blank (code marker : string) :
  all_chars isspace marker = false ->
  contains code marker = true ->
  negb (truthy_str (strip code)) = false.
Proof.
  intros Hm Hc. destruct (strip code) eqn:Hs; [|reflexivity].
  exfalso. apply blank_all_space in Hs.
  pose proof (contains_all_space code marker Hc Hs) as H.
  unfold all_space in H. congruence.
Qed.

(** X28. [detect_language_from_code] always answers one of five labels,
    "Unknown" for a blank text, and the marks of Python win over all
    others: a text that contains "def ", "import " or "print(" is labelled
    Python whatever else it contains (a Java source with an import, for
    one). *)
Theorem python_marks_win_the_detection :
  forall (code : string),
    In (App.detect_language_from_code code) detector_labels
    /\ (blank code -> App.detect_language_from_code code = "Unknown")
    /\ ((contains code "def " || contains code "import "
         || contains code "print(")%bool = true ->
        App.detect_language_from_code code = "Python").
Proof.
  intro code. unfold App.detect_language_from_code, detector_labels.
  split; [|split].
  - repeat match goal with
           | |- context [if ?c then _ else _] => destruct c
           end; simpl; tauto.
  - unfold blank. intros ->. reflexivity.
  - intro H. rewrite H.
    assert (Hnb : negb (truthy_str (strip code)) = false).
    { apply orb_true_iff in H as [H|H];
        [apply orb_true_iff in H as [H|H]|];
        eapply marker_not_blank; try exact H; reflexivity. }
    rewrite Hnb. reflexivity.
Qed.

Lemma python_marks_win_the_detection_java :
  App.detect_language_from_code
    ("import java.util.List;" ++ String newline "public class A { }")
  = "Python".
Proof.
  apply (python_marks_win_the_detection
           ("import java.util.List;" ++ String newline "public class A { }")).
  reflexivity.
Defined.

Lemma dispatch_python e code :
  App.analyze_code e code "Python"
  = bind (Py.analyze_code_py (App.py_env e) code "Python")
         (fun r => Ok (option_map PyResult r)).
Proof. reflexivity. Qed.

Lemma dispatch_javascript e code :
  App.analyze_code e code "JavaScript"
  = bind (JS.analyze_javascript_code (App.js_env e) code "JavaScript")
         (fun r => Ok (Some (JSResult r))).
Proof. reflexivity. Qed.

Lemma dispatch_java e code :
  App.analyze_code e code "Java"
  = bind (Java.analyze_java_code (App.java_env e) code "Java")
         (fun r => Ok (Some (JavaResult r))).
Proof. reflexivity. Qed.

Lemma dispatch_cpp e code :
  App.analyze_code e code "C++"
  = bind (Cpp.analyze_cpp_code (App.cpp_env e) code "C++")
         (fun r => Ok (Some (CppResult r))).
Proof. reflexivity. Qed.

Lemma dispatch_unknown e code : App.analyze_code e code "Unknown" = Ok None.
Proof. reflexivity. Qed.

Lemma python_label_is_analysed e code :
  Py.analyze_code_py e code "Python"
  = bind (Py.analyze_python_code e code) (fun r => Ok (Some r)).
Proof. reflexivity. Qed.

(** X29. The detector and the dispatcher of [app.py] fit together: on the
    label that the detector gives to a text, the dispatcher returns no
    result exactly when the label is "Unknown"; on the other four labels a
    call that returns hands back the result of an adapter. *)
Theorem detected_language_is_dispatched :
  forall (e : App.env) (code : string) (o : option analysis_result),
    App.analyze_code e code (App.detect_language_from_code code) = Ok o ->
    (o = None <-> App.detect_language_from_code code = "Unknown").
Proof.
  intros e code o H.
  destruct (python_marks_win_the_detection code) as (Hin & _ & _).
  unfold detector_labels in Hin. cbn [In] in Hin.
  destruct Hin as [Hl|[Hl|[Hl|[Hl|[Hl|[]]]]]]; rewrite <- Hl in *.
  - rewrite dispatch_python, python_label_is_analysed in H.
    inv_bind H. inv_bind Ha. injection Ha as <-. injection H as <-.
    split; discriminate.
  - rewrite dispatch_java in H. inv_bind H. injection H as <-.
    split; discriminate.
  - rewrite dispatch_cpp in H. inv_bind H. injection H as <-.
    split; discriminate.
  - rewrite dispatch_javascript in H. inv_bind H. injection H as <-.
    split; discriminate.
  - rewrite dispatch_unknown in H. injection H as <-. split; reflexivity.
Qed.

Lemma detected_language_is_dispatched_example :
  (@None analysis_result = None
   <-> App.detect_language_from_code "SELECT * FROM t" = "Unknown").
Proof.
  apply (detected_language_is_dispatched
           (App.mkEnv py_env_silent js_env_absent java_env_absent
                      cpp_env_absent)
           "SELECT * FROM t" None).
  reflexivity.
Defined.

(** X30. C is recognised but never analysed: for "c", "cc" and "cxx", in
    any letter case, [is_cpp_language] answers true, yet the dispatcher of
    [app.py] falls through and the user gets no result. *)
Theorem c_is_recognised_but_not_dispatched :
  forall (e : App.env) (code language : string),
    In (lower language) ["c"; "cc"; "cxx"] ->
    is_cpp_language language = true
    /\ App.analyze_code e code language = Ok None
    /\ App.perform_real_code_analysis e code language = None.
Proof.
  intros e code language Hin.
  unfold is_cpp_language, App.perform_real_code_analysis, App.analyze_code.
  simpl in Hin. destruct Hin as [H|[H|[H|[]]]]; rewrite <- H;
    repeat split; reflexivity.
Qed.

Lemma c_is_recognised_but_not_dispatched_example :
  is_cpp_language "C" = true
  /\ App.analyze_code
       (App.mkEnv py_env_silent js_env_absent java_env_absent cpp_env_absent)
       "int main(void) { return 0; }" "C" = Ok None
  /\ App.perform_real_code_analysis
       (App.mkEnv py_env_silent js_env_absent java_env_absent cpp_env_absent)
       "int main(void) { return 0; }" "C" = None.
Proof.
  apply (c_is_recognised_but_not_dispatched
           (App.mkEnv py_env_silent js_env_absent java_env_absent
                      cpp_env_absent)
           "int main(void) { return 0; }" "C").
  left. reflexivity.
Defined.

(* ================================================================= *)
(** ** From the user's request to the adapters *)

Lemma app_js_language_tests (l : string) :
  In l app_js_languages ->
  String.eqb l "python" = false /\ str_in l app_js_languages = true.
Proof.
  unfold app_js_languages. cbn [In].
  intros [<-|[<-|[<-|[<-|[<-|[<-|[]]]]]]]; split; reflexivity.
Qed.

(** X19. Through [app.py], a JavaScript or TypeScript request on which
    ESLint reports anything ends without a result: the [TypeError] of the
    adapter leaves the dispatcher, and [perform_real_code_analysis] turns it
    into [None]. *)
Theorem reported_javascript_issue_ends_without_result :
  forall (e : App.env) (code language : string) (available : bool)
         (errors warnings : list pyval) (total : Z),
    In (lower language) app_js_languages ->
    JS._check_eslint_availability (App.js_env e) = Ok available ->
    JS._parse_eslint_output (JS._run_eslint (App.js_env e) available)
    = Ok (errors, warnings, total) ->
    (errors ++ warnings)%list <> [] ->
    App.analyze_code e code language
    = raise TypeError "can't multiply sequence by non-int of type 'float'"
    /\ App.perform_real_code_analysis e code language = None.
Proof.
  intros e code language available errors warnings total Hl Hprobe Hparse Hne.
  destruct (app_js_language_tests _ Hl) as [Hpy Hjs].
  assert (H : App.analyze_code e code language
              = raise TypeError
                      "can't multiply sequence by non-int of type 'float'").
  { unfold App.analyze_code. rewrite Hpy.
    change (str_in (lower language)
                   ["javascript"; "js"; "javascript (react)"; "typescript";
                    "ts"; "typescript (react)"])
      with (str_in (lower language) app_js_languages).
    rewrite Hjs. unfold JS.analyze_javascript_code. rewrite Hprobe.
    cbn [bind].
    rewrite (js_method_raises_on_any_issue _ _ code language _ _ _ Hparse Hne).
    reflexivity. }
  split; [exact H|].
  unfold App.perform_real_code_analysis. rewrite H. reflexivity.
Qed.

Lemma reported_javascript_issue_ends_without_result_example :
  App.analyze_code
    (App.mkEnv py_env_silent js_env_one_error java_env_absent cpp_env_absent)
    "eval('1')" "TypeScript (React)"
  = raise TypeError "can't multiply sequence by non-int of type 'float'"
  /\ App.perform_real_code_analysis
       (App.mkEnv py_env_silent js_env_one_error java_env_absent
                  cpp_env_absent)
       "eval('1')" "TypeScript (React)" = None.
Proof.
  apply (reported_javascript_issue_ends_without_result
           (App.mkEnv py_env_silent js_env_one_error java_env_absent
                      cpp_env_absent)
           "eval('1')" "TypeScript (React)" true
           [PDict [("line", PInt 1); ("column", PInt 1);
                   ("message", PStr "eval can be harmful.");
                   ("severity", PStr "error"); ("symbol", PStr "no-eval");
                   ("rule_id", PStr "no-eval")]]
           [] 1%Z).
  - vm_compute. tauto.
  - reflexivity.
  - vm_compute. reflexivity.
  - discriminate.
Defined.

(** X26. End to end, for the answer radon gives on the one scratch file:
    the complexity run answers with a single file entry whose complexity
    values are integers, the maintainability run with an entry that carries
    an index.  When the mean of the values and [float] of the index exist,
    every result of the Python adapter carries them as its complexity and
    its maintainability index.  When one of the two raises (an integer
    beyond the floats, an index that is no number), the result carries the
    defaults 1.0 and 50.0 for both. *)
Theorem radon_answer_reaches_the_result :
  forall (e : Py.env) (code name : string) (cc mi : completed)
         (file_data : pyval) (d : list (string * pyval)) (v : pyval)
         (r : Py.pyAnalysisResult),
    Py.radon_cc e = Ok cc -> Py.radon_mi e = Ok mi ->
    strip (stdout cc) <> "" -> strip (stdout mi) <> "" ->
    Py.json_loads e (stdout cc) = Ok (PDict [(name, file_data)]) ->
    Py.json_loads e (stdout mi) = Ok (PDict [(name, PDict d)]) ->
    Forall is_integer (reported_complexities [(name, file_data)]) ->
    dict_lookup "mi" d = Some v ->
    Py.analyze_python_code e code = Ok r ->
    (forall c m,
        mean_or_one (integers (reported_complexities [(name, file_data)]))
        = Ok c ->
        Py.py_float e v = Ok m ->
        Py.complexity r = c /\ Py.maintainability_index r = m)
    /\ (forall ex,
           mean_or_one (integers (reported_complexities [(name, file_data)]))
           = Raise ex
           \/ Py.py_float e v = Raise ex ->
           Py.complexity r = 1%Q /\ Py.maintainability_index r = 50%Q).
Proof.
  intros e code name cc mi file_data d v r Hcc Hmi Hscc Hsmi Hjcc Hjmi Hint
         Hv H.
  apply py_method_result in H as (_ & -> & ->).
  pose proof (average_complexity_single_file name file_data Hint) as Havg.
  assert (Hmi' : Py._extract_maintainability_index e (PDict [(name, PDict d)])
                 = Py.py_float e v).
  { unfold Py._extract_maintainability_index.
    cbn [truthy negb Py.mi_items]. rewrite Hv. reflexivity. }
  unfold Py.run_radon_complexity, Py.decode_or_empty.
  rewrite Hcc, Hmi. cbn [bind].
  destruct (strip (stdout cc)); [contradiction|].
  destruct (strip (stdout mi)); [contradiction|].
  cbn [truthy_str is_empty negb]. rewrite Hjcc, Hjmi.
  cbn [try_except bind]. rewrite Havg, Hmi'.
  split.
  - intros c m Hc Hm. rewrite Hc. cbn [bind]. rewrite Hm. cbn [bind].
    split; reflexivity.
  - intros ex [Hc|Hm].
    + rewrite Hc. cbn [bind].
      destruct (is_TimeoutExpired ex), (is_FileNotFoundError ex);
        split; reflexivity.
    + destruct (mean_or_one _) as [c|ex']; cbn [bind].
      * rewrite Hm. cbn [bind].
        destruct (is_TimeoutExpired ex), (is_FileNotFoundError ex);
          split; reflexivity.
      * destruct (is_TimeoutExpired ex'), (is_FileNotFoundError ex');
          split; reflexivity.
Qed.

Lemma radon_answer_reaches_the_result_example :
  exists r,
    Py.analyze_python_code py_env_radon "def f(): pass" = Ok r
    /\ (forall c m,
          mean_or_one [2; 4; 9]%Z = Ok c ->
          Py.py_float py_env_radon (PFloat 71.5) = Ok m ->
          Py.complexity r = c /\ Py.maintainability_index r = m)
    /\ Py.complexity r = 5%Q
    /\ Py.maintainability_index r = 71.5%Q.
Proof.
  eexists. split; [vm_compute; reflexivity|]. split.
  - apply (proj1 (radon_answer_reaches_the_result
                    py_env_radon "def f(): pass" "tmpab12.py"
                    (mkCompleted 0 "cc" "") (mkCompleted 0 "mi" "")
                    radon_functions
                    [("mi", PFloat 71.5); ("rank", PStr "A")] (PFloat 71.5)
                    _ eq_refl eq_refl
                    ltac:(discriminate) ltac:(discriminate)
                    eq_refl eq_refl
                    ltac:(repeat constructor; eexists; reflexivity)
                    eq_refl eq_refl)).
  - split; vm_compute; reflexivity.
Defined.
